(** * satisfy-tech: order placement, vendor order queries, vendor state

    A shallow embedding of [src/order/order.service.ts] (OrderService) and of
    the vendor service (VendorService), with the collaborators they call.

    The persisted collections are an explicit store [Db]; every service
    method is a computation in a small state-and-exception monad [M] over
    that store, so that "what was written" and "what was thrown" are both
    visible in the result.

    What the services leave to the JavaScript runtime and to the database
    (Unicode case folding and trimming, the time zone of [Date], the
    regular-expression engine, the order of equal sort keys) is not
    re-implemented: it is taken as a parameter, in the classes [JsRuntime]
    and [Database], and every statement holds for each runtime and each
    database. *)

From Stdlib Require Import ZArith QArith Qround Floats String Ascii List Lia Permutation Sorted.
From stdpp Require Import base option list strings gmap sorting.

Local Open Scope Z_scope.
Local Open Scope string_scope.
Set Warnings "-inexact-float".

(** ** Exceptions and results *)

(** The exceptions the services raise or let through. [BSONError] is what
    the [mongoose.Types.ObjectId] constructor throws on a malformed id,
    [CastError] what a mongoose query by [_id] throws when the id cannot be
    cast to an ObjectId, and [MongoServerError] what the database answers
    to a query it rejects. *)
Inductive Exception : Type :=
  | NotFoundException (message : string)
  | BadRequestException (message : string)
  | BSONError (message : string)
  | CastError (message : string)
  | MongoServerError (message : string).

Inductive Result (A : Type) : Type :=
  | Ok (value : A)
  | Throw (e : Exception).
Arguments Ok {A} value.
Arguments Throw {A} e.

Definition isNotFound {A} (r : Result A) : bool :=
  match r with Throw (NotFoundException _) => true | _ => false end.

(** ** Text *)

Module Text.

Definition chars (s : string) : list ascii := list_ascii_of_string s.

(** JavaScript truthiness of a string: non-empty. *)
Definition truthy (s : string) : bool :=
  match s with EmptyString => false | _ => true end.

(** The double quote, for messages that quote a value. *)
Definition quote : string := String (ascii_of_nat 34) EmptyString.

End Text.

(** ** The JavaScript runtime

    [String.prototype.toLowerCase] and [String.prototype.trim] follow the
    Unicode tables, and [Date.prototype.setHours] the rules of the local
    time zone; none of them is in the sources. They are the runtime's:
    [toLowerCase s] and [trim s] are the results of the two string methods
    on [s], and [setHours h m s ms t] is the time value (milliseconds since
    the epoch) of a [Date] with time value [t] after
    [setHours(h, m, s, ms)]. Trimming a trimmed string changes nothing. *)
Class JsRuntime : Type := {
  toLowerCase : string -> string;
  trim : string -> string;
  trim_idempotent : forall s, trim (trim s) = trim s;
  setHours : Z -> Z -> Z -> Z -> Z -> Z
}.

(** ** ObjectId *)

Module ObjectId.

Definition isHexDigit (c : ascii) : bool :=
  let n := nat_of_ascii c in
  ((Nat.leb 48 n && Nat.leb n 57) || (Nat.leb 65 n && Nat.leb n 70)
   || (Nat.leb 97 n && Nat.leb n 102))%bool.

Definition isValid (s : string) : bool :=
  (Nat.eqb (length (Text.chars s)) 24 && forallb isHexDigit (Text.chars s))%bool.

(** The value of a hexadecimal digit is the same in either case; the
    digits [A] to [F] are written in lower case. *)
Definition lowerDigit (c : ascii) : ascii :=
  let n := nat_of_ascii c in
  if (Nat.leb 65 n && Nat.leb n 70)%bool then ascii_of_nat (n + 32) else c.

(** [toHexString()]: the identifier as 24 lower-case digits. *)
Definition hex (s : string) : string :=
  string_of_list_ascii (map lowerDigit (Text.chars s)).

(** [new mongoose.Types.ObjectId(s)] on a string: the constructor of
    the bson library, which is not among the sources. It takes 24
    hexadecimal digits and throws on other text (older releases also
    take any 12-character string; nothing below is stated for such ids).
    The identifier is represented by its lower-case hexadecimal text. *)
Definition new (s : string) : Result string :=
  if isValid s then Ok (hex s)
  else Throw (BSONError "input must be a 24 character hex string, 12 byte Uint8Array, or an integer").

(** The cast mongoose applies to the id of [findById] and
    [findByIdAndUpdate] before the query is sent: the same reading of the
    text, and a [CastError] naming value, path and model where the
    constructor throws. *)
Definition cast (model : string) (s : string) : Result string :=
  if isValid s then Ok (hex s)
  else Throw (CastError ("Cast to ObjectId failed for value " +:+ Text.quote +:+ s
                         +:+ Text.quote +:+ " (type string) at path " +:+ Text.quote
                         +:+ "_id" +:+ Text.quote +:+ " for model " +:+ Text.quote
                         +:+ model +:+ Text.quote)).

(** Whether a stored reference denotes the identifier [oid]. *)
Definition refersTo (stored : string) (oid : string) : bool :=
  match new stored with
  | Ok x => String.eqb x oid
  | Throw _ => false
  end.

End ObjectId.

(** ** Documents *)

Module WorkingHours.
(** Modelled from the spec: the vendor schema is not among the sources;
    an entry of [workingHours] is [{day, openingTime, closingTime,
    isActive}]. *)
Record t : Type := mk {
  day : string;
  openingTime : string;
  closingTime : string;
  isActive : bool
}.
End WorkingHours.

Module Vendor.
(** Modelled from the spec: the vendor schema is not among the sources.
    These are the fields the services below read or write, and one
    profile field; [password] is [None] on a document projected with
    [select('-password')]. *)
Record t : Type := mk {
  restaurantName : string;
  password : option string;
  isStoreOpen : bool;
  workingHours : list WorkingHours.t
}.

Definition withoutPassword (v : t) : t :=
  mk (restaurantName v) None (isStoreOpen v) (workingHours v).

Definition setIsStoreOpen (b : bool) (v : t) : t :=
  mk (restaurantName v) (password v) b (workingHours v).

Definition setWorkingHours (h : list WorkingHours.t) (v : t) : t :=
  mk (restaurantName v) (password v) (isStoreOpen v) h.
End Vendor.

Module Customer.
(** Modelled from the spec: the customer schema is not among the sources;
    [create] reads [fullName]. *)
Record t : Type := mk { fullName : string }.
End Customer.

(** ** Vendor collection and VendorService *)

Module VendorService.

(** The vendor collection, keyed by [_id], an ObjectId in its lower-case
    hexadecimal text. *)
Abbreviation VendorModel := (gmap string Vendor.t).

(** The service's computations: they read and write the collection and
    either return or throw. *)
Definition M (A : Type) : Type := VendorModel -> Result A * VendorModel.

Definition ret {A} (a : A) : M A := fun vs => (Ok a, vs).
Definition throw {A} (e : Exception) : M A := fun vs => (Throw e, vs).
Definition bind {A B} (m : M A) (k : A -> M B) : M B :=
  fun vs => match m vs with
            | (Ok a, vs') => k a vs'
            | (Throw e, vs') => (Throw e, vs')
            end.

(** A loaded document: its [_id] and its fields. *)
Definition Document : Type := string * Vendor.t.

(** [vendorModel.findById(id)]: the id is cast to an ObjectId, and the
    query yields the document stored under it or [null]. *)
Definition Model_findById (id : string) : M (option Document) :=
  fun vs => match ObjectId.cast "Vendor" id with
            | Ok oid => (Ok (pair oid <$> vs !! oid), vs)
            | Throw e => (Throw e, vs)
            end.

(** [vendorModel.findByIdAndUpdate(id, { isStoreOpen: b }, { new: true })]:
    the id is cast to an ObjectId; the flag is set on the document stored
    under it and the updated document is the result, or the result is
    [null] and nothing is written when there is none. *)
Definition Model_findByIdAndUpdate_isStoreOpen (id : string) (b : bool)
  : M (option Vendor.t) :=
  fun vs => match ObjectId.cast "Vendor" id with
            | Ok oid =>
                match vs !! oid with
                | Some v => let v' := Vendor.setIsStoreOpen b v in
                            (Ok (Some v'), <[oid := v']> vs)
                | None => (Ok None, vs)
                end
            | Throw e => (Throw e, vs)
            end.

(** [vendor.save()] of a loaded document: written back under its [_id]. *)
Definition Document_save (doc : Document) : M unit :=
  fun vs => (Ok tt, <[fst doc := snd doc]> vs).

Definition select_minus_password (o : option Vendor.t) : option Vendor.t :=
  Vendor.withoutPassword <$> o.

Definition findById (id : string) : M (option Vendor.t) :=
  bind (Model_findById id) (fun found => ret (select_minus_password (snd <$> found))).

Definition openStore (vendorId : string) : M Vendor.t :=
  bind (Model_findByIdAndUpdate_isStoreOpen vendorId true) (fun found =>
  match select_minus_password found with
  | None => throw (NotFoundException "Vendor not found")
  | Some vendor => ret vendor
  end).

Definition closeStore (vendorId : string) : M Vendor.t :=
  bind (Model_findByIdAndUpdate_isStoreOpen vendorId false) (fun found =>
  match select_minus_password found with
  | None => throw (NotFoundException "Vendor not found")
  | Some vendor => ret vendor
  end).

(** The [update] argument of [updateWorkingHours]; an optional field is
    [None] when the request leaves it out. *)
Module Update.
Record t : Type := mk {
  day : string;
  openingTime : option string;
  closingTime : option string;
  isActive : option bool
}.
End Update.

(** [Array.prototype.findIndex]; [None] stands for [-1]. *)
Fixpoint findIndex {A} (p : A -> bool) (l : list A) : option nat :=
  match l with
  | [] => None
  | x :: l' => if p x then Some 0%nat else S <$> findIndex p l'
  end.

(** [h.day.toLowerCase() === update.day.toLowerCase()] *)
Definition sameDay `{JsRuntime} (d : string) (h : WorkingHours.t) : bool :=
  String.eqb (toLowerCase (WorkingHours.day h)) (toLowerCase d).

(** [if (update.openingTime) h.openingTime = update.openingTime]: the
    assignment runs for a truthy (present and non-empty) string. *)
Definition assignIfTruthy (old : string) (new : option string) : string :=
  match new with
  | Some s => if Text.truthy s then s else old
  | None => old
  end.

(** [if (update.isActive !== undefined) h.isActive = update.isActive] *)
Definition assignIfDefined (old : bool) (new : option bool) : bool :=
  match new with
  | Some b => b
  | None => old
  end.

Definition applyUpdate (update : Update.t) (h : WorkingHours.t) : WorkingHours.t :=
  WorkingHours.mk
    (WorkingHours.day h)
    (assignIfTruthy (WorkingHours.openingTime h) (Update.openingTime update))
    (assignIfTruthy (WorkingHours.closingTime h) (Update.closingTime update))
    (assignIfDefined (WorkingHours.isActive h) (Update.isActive update)).

Definition updateWorkingHours `{JsRuntime} (vendorId : string) (update : Update.t)
  : M (list WorkingHours.t) :=
  bind (Model_findById vendorId) (fun found =>
  match found with
  | None => throw (NotFoundException "Vendor not found")
  | Some (_id, vendor) =>
      let hours := Vendor.workingHours vendor in
      match findIndex (sameDay (Update.day update)) hours with
      | None => throw (BadRequestException ("Invalid day: " +:+ Update.day update))
      | Some index =>
          let hours := alter (applyUpdate update) index hours in
          let vendor := Vendor.setWorkingHours hours vendor in
          bind (Document_save (_id, vendor)) (fun _ =>
          ret (Vendor.workingHours vendor))
      end
  end).

(** [vendorModel.find()]: every document of the collection. The documents
    are listed by the keys of the map; the order in which the database
    would list them is not represented. *)
Definition Model_find : M (list Vendor.t) :=
  fun vs => (Ok (snd <$> map_to_list vs), vs).

Definition findAll : M (list Vendor.t) :=
  bind Model_find (fun found => ret (Vendor.withoutPassword <$> found)).

End VendorService.

(** ** VendorController: the update-working-hours route *)

Module VendorController.

(** [HttpStatus], the members the controller names. *)
Module HttpStatus.
Definition BAD_REQUEST : Z := 400.
Definition NOT_FOUND : Z := 404.
Definition CONFLICT : Z := 409.
Definition INTERNAL_SERVER_ERROR : Z := 500.
End HttpStatus.

(** [new HttpException(message, status)] *)
Inductive HttpException : Type :=
  | mkHttpException (message : string) (status : Z).

Definition getStatus (e : HttpException) : Z :=
  match e with mkHttpException _ status => status end.

Definition getMessage (e : HttpException) : string :=
  match e with mkHttpException message _ => message end.

(** The [catch (error)] block of the route. No [ConflictException] is among
    the exceptions of the embedding, so its branch has no case here; an
    error that is none of the three classes (the [CastError] of a
    malformed id is one) gets status 500 and its message, or "Internal
    server error" when the message is empty. *)
Definition catchError (error : Exception) : HttpException :=
  match error with
  | NotFoundException message => mkHttpException message HttpStatus.NOT_FOUND
  | BadRequestException message => mkHttpException message HttpStatus.BAD_REQUEST
  | BSONError message | CastError message | MongoServerError message =>
      mkHttpException
        (if Text.truthy message then message else "Internal server error")
        HttpStatus.INTERNAL_SERVER_ERROR
  end.

(** What a route gives back: the value, or the exception it throws. *)
Inductive Response (A : Type) : Type :=
  | Returns (value : A)
  | Throws (e : HttpException).
Arguments Returns {A} value.
Arguments Throws {A} e.

(** [updateWorkingHours(req, updateWorkingHoursDto)]: the service call is
    awaited inside [try], so every exception of the service passes through
    the [catch] block. [userId] is [req.user._id]. *)
Definition updateWorkingHours `{JsRuntime} (userId : string)
    (updateWorkingHoursDto : VendorService.Update.t)
    (vs : gmap string Vendor.t)
  : Response (list WorkingHours.t) * gmap string Vendor.t :=
  match VendorService.updateWorkingHours userId updateWorkingHoursDto vs with
  | (Ok hours, vs') => (Returns hours, vs')
  | (Throw error, vs') => (Throws (catchError error), vs')
  end.

End VendorController.

(** ** Numbers of the order arithmetic

    [price], [quantity] and [totalAmount] are JavaScript numbers, that is
    binary64 floating-point numbers, and the order workflow only adds and
    multiplies them. The workflow is written over the operations it uses,
    and [Double_JsNumber] gives them their meaning: the addition and the
    multiplication of doubles, each rounding to the nearest double. *)
Class JsNumber : Type := {
  number : Type;
  num_zero : number;
  num_add : number -> number -> number;
  num_mul : number -> number -> number
}.

#[global] Instance Double_JsNumber : JsNumber :=
  {| number := float;
     num_zero := PrimFloat.zero;
     num_add := PrimFloat.add;
     num_mul := PrimFloat.mul |}.

Module MenuItem.
(** Modelled from the spec: the menu schema is not among the sources; a
    menu item has [price: number], [isEnabled: bool] and [name]. *)
Record t `{JsNumber} : Type := mk {
  name : string;
  price : number;
  isEnabled : bool
}.
Arguments mk {_} _ _ _.
End MenuItem.

Module OrderItem.
Record t `{JsNumber} : Type := mk {
  menuItemId : string;
  quantity : number
}.
Arguments mk {_} _ _.
End OrderItem.

Module CreateOrderDto.
(** Modelled from the spec: the DTO class is not among the sources; these
    are the fields [create] reads, the optional ones as the contract
    [createOrder(..., location?, address?, notes?)] has them. *)
Record t `{JsNumber} : Type := mk {
  vendorId : string;
  phoneNumber : string;
  deliveryType : string;
  location : option string;
  address : option string;
  items : list OrderItem.t;
  notes : option string
}.
Arguments mk {_} _ _ _ _ _ _ _.
End CreateOrderDto.

(** Modelled from the spec: the order-status enumeration is not among the
    sources. [create] names its member [PENDING], the initial status; the
    members it does not name are kept apart under [OTHER]. *)
Inductive OrderStatus : Type :=
  | PENDING
  | OTHER (value : string).

Module Order.
(** Modelled from the spec: the order schema is not among the sources. A
    stored order has the fields [create] sets and the two the queries
    filter on: [isDeleted] (default [false]; a document may lack it) and
    [createdAt], assigned at persistence time, in milliseconds. *)
Record t `{JsNumber} : Type := mk {
  orderId : string;
  customerId : string;
  vendorId : string;
  customerName : string;
  phoneNumber : string;
  deliveryType : string;
  location : option string;
  address : option string;
  items : list OrderItem.t;
  totalAmount : number;
  status : OrderStatus;
  notes : option string;
  isDeleted : option bool;
  createdAt : Z
}.
Arguments mk {_} _ _ _ _ _ _ _ _ _ _ _ _ _ _.
End Order.

(** ** The store and the service monad *)

Section Store.
Context `{JsNumber}.

Record Db : Type := mkDb {
  customers : gmap string Customer.t;
  vendors : gmap string Vendor.t;
  menuItems : gmap string MenuItem.t;
  orders : list Order.t
}.

Definition M (A : Type) : Type := Db -> Result A * Db.

Definition ret {A} (a : A) : M A := fun db => (Ok a, db).
Definition throw {A} (e : Exception) : M A := fun db => (Throw e, db).
Definition bind {A B} (m : M A) (k : A -> M B) : M B :=
  fun db => match m db with
            | (Ok a, db') => k a db'
            | (Throw e, db') => (Throw e, db')
            end.

(** A vendor-service computation run on the vendor collection of [Db]. *)
Definition liftVendor {A} (m : VendorService.M A) : M A :=
  fun db => match m (vendors db) with
            | (r, vs) => (r, mkDb (customers db) vs (menuItems db) (orders db))
            end.

End Store.

Declare Scope service_scope.
Delimit Scope service_scope with service.
Notation "'let!' x ':=' m 'in' k" := (bind m (fun x => k))
  (at level 10, x name, m at level 100, k at level 200) : service_scope.

(** ** Collaborators of the order workflow *)

Module CustomerService.
Section CustomerService.
Context `{JsNumber}.

(** Modelled from the spec: the customer service is not among the
    sources; its contract is [findById(id) -> Customer | fails NotFound].
    The message text is not specified. *)
Definition findById (id : string) : M Customer.t :=
  fun db => match customers db !! id with
            | Some c => (Ok c, db)
            | None => (Throw (NotFoundException "Customer not found"), db)
            end.

End CustomerService.
End CustomerService.

Module MenuService.
Section MenuService.
Context `{JsNumber}.

(** Modelled from the spec: the menu service is not among the sources;
    its contract is [findOne(id) -> MenuItem | null]. *)
Definition findOne (id : string) : M (option MenuItem.t) :=
  fun db => (Ok (menuItems db !! id), db).

End MenuService.
End MenuService.

(** ** Values the order queries compute with *)

Module Js.

(** The numeric value [Number(x)] of a pagination argument: [Int z] is
    the whole number [z], [Float f] any other double (a fraction or an
    infinity), and [NaN] the value of text that is not numeric. Whole
    numbers are computed with exactly, as the code does below 2^53. *)
Inductive num : Type :=
  | NaN
  | Int (z : Z)
  | Float (f : float).

(** The double nearest to a whole number. *)
Definition ofZ (z : Z) : float := SF2Prim (binary_normalize prec emax z 0 false).

Definition toFloat (n : num) : float :=
  match n with
  | NaN => PrimFloat.nan
  | Int z => ofZ z
  | Float f => f
  end.

(** The falsy numbers: [0], [-0] and [NaN]. *)
Definition falsy (n : num) : bool :=
  match n with
  | NaN => true
  | Int z => Z.eqb z 0
  | Float f => (PrimFloat.is_nan f || PrimFloat.is_zero f)%bool
  end.

(** [Number(x) || d] *)
Definition orElse (n : num) (d : Z) : num :=
  if falsy n then Int d else n.

(** A parameter with a default value, [x = d]: [None] is [undefined]. *)
Definition param (x : option num) (d : Z) : num :=
  match x with
  | None => Int d
  | Some n => n
  end.

(** [Math.max(a, n)] for a whole number [a] *)
Definition max (a : Z) (n : num) : num :=
  match n with
  | NaN => NaN
  | Int z => Int (Z.max a z)
  | Float f =>
      if PrimFloat.is_nan f then NaN
      else if PrimFloat.ltb (ofZ a) f then Float f
      else Int a
  end.

(** [Math.min(n, b)] for a whole number [b] *)
Definition min (n : num) (b : Z) : num :=
  match n with
  | NaN => NaN
  | Int z => Int (Z.min z b)
  | Float f =>
      if PrimFloat.is_nan f then NaN
      else if PrimFloat.ltb f (ofZ b) then Float f
      else Int b
  end.

(** [n - b] for a whole number [b] *)
Definition sub (n : num) (b : Z) : num :=
  match n with
  | NaN => NaN
  | Int z => Int (z - b)
  | Float f => Float (PrimFloat.sub f (ofZ b))
  end.

(** [a * b] *)
Definition mul (a b : num) : num :=
  match a, b with
  | Int x, Int y => Int (x * y)
  | NaN, _ | _, NaN => NaN
  | _, _ => Float (PrimFloat.mul (toFloat a) (toFloat b))
  end.

(** [Math.ceil(a / b)] for integers [a] and [b <> 0], the quotient taken
    as a rational. *)
Definition ceilDiv (a b : Z) : Z := Qceiling (inject_Z a / inject_Z b).

(** [Math.ceil(f)]: the least whole number not below a finite [f], which
    stands for the rational [(-1)^s * m * 2^e]. *)
Definition ceil (f : float) : num :=
  match Prim2SF f with
  | S754_zero _ => Int 0
  | S754_finite s m e => Int (Qceiling (inject_Z (cond_Zopp s (Zpos m)) * Qpower 2 e))
  | S754_infinity _ => Float f
  | S754_nan => NaN
  end.

(** [Math.ceil(total / limit)] for a count [total] *)
Definition ceilQuotient (total : Z) (limit : num) : num :=
  match limit with
  | NaN => NaN
  | Int n => Int (ceilDiv total n)
  | Float f => ceil (PrimFloat.div (ofZ total) f)
  end.

End Js.

(** ** The database

    Three things the order queries leave to MongoDB, none of them in the
    sources. [regex pattern] is the matcher of [{ $regex: pattern,
    $options: 'i' }], or [None] when the server rejects the pattern.
    [cursorCount f] is the count the server reads from a [skip] or [limit]
    that is not a whole number, or [None] when it rejects the value.
    [sortByCreatedAtDesc] is [sort({ createdAt: -1 })]: some arrangement
    of the same documents in which none stands before a newer one; the
    order of documents of equal time is the server's. *)
Class Database `{JsNumber} : Type := {
  regex : string -> option (string -> bool);
  cursorCount : float -> option nat;
  sortByCreatedAtDesc : list Order.t -> list Order.t;
  sortByCreatedAtDesc_perm : forall l, Permutation (sortByCreatedAtDesc l) l;
  sortByCreatedAtDesc_sorted : forall l,
    StronglySorted (fun a b => Order.createdAt b <= Order.createdAt a)
      (sortByCreatedAtDesc l)
}.

(** ** OrderService.create *)

Module OrderService.
Section Create.
Context `{JsNumber}.
Local Open Scope service_scope.

(** The body of [for (const item of createOrderDto.items)], with the
    running [totalAmount] as accumulator. *)
Fixpoint forEachItem (items : list OrderItem.t) (totalAmount : number) : M number :=
  match items with
  | [] => ret totalAmount
  | item :: rest =>
      let! menuItem := MenuService.findOne (OrderItem.menuItemId item) in
      match menuItem with
      | None =>
          throw (NotFoundException
                   ("Menu item " +:+ OrderItem.menuItemId item +:+ " not found"))
      | Some menuItem =>
          if negb (MenuItem.isEnabled menuItem) then
            throw (BadRequestException
                     ("Menu item " +:+ MenuItem.name menuItem +:+ " is not available"))
          else
            forEachItem rest
              (num_add totalAmount
                 (num_mul (MenuItem.price menuItem) (OrderItem.quantity item)))
      end
  end.

(** [order.save()] of a new document: one insertion at the end of the
    order collection. The order schema is not among the sources; no
    validator or unique index is known that would reject the document
    [create] builds, and the insertion is taken to succeed. *)
Definition Document_save (order : Order.t) : M Order.t :=
  fun db =>
    (Ok order,
     mkDb (customers db) (vendors db) (menuItems db) (orders db ++ [order])).

(** [create(userId, createOrderDto)]. [generated] is the text that
    [generateId()] draws in this call and [now] the time at which the
    document is stamped; the schema's [isDeleted] default is [false]. *)
Definition create (generated : string) (now : Z)
    (userId : string) (createOrderDto : CreateOrderDto.t) : M Order.t :=
  let! customer := CustomerService.findById userId in
  let! vendor := liftVendor (VendorService.findById (CreateOrderDto.vendorId createOrderDto)) in
  match vendor with
  | None => throw (NotFoundException "Vendor not found")
  | Some vendor =>
      if negb (Vendor.isStoreOpen vendor) then
        throw (BadRequestException "Vendor store is currently closed")
      else
        let! totalAmount := forEachItem (CreateOrderDto.items createOrderDto) num_zero in
        let order :=
          {| Order.orderId := "ST-" +:+ generated;
             Order.customerId := userId;
             Order.vendorId := CreateOrderDto.vendorId createOrderDto;
             Order.customerName := Customer.fullName customer;
             Order.phoneNumber := CreateOrderDto.phoneNumber createOrderDto;
             Order.deliveryType := CreateOrderDto.deliveryType createOrderDto;
             Order.location := CreateOrderDto.location createOrderDto;
             Order.address := CreateOrderDto.address createOrderDto;
             Order.items := CreateOrderDto.items createOrderDto;
             Order.totalAmount := totalAmount;
             Order.status := PENDING;
             Order.notes := CreateOrderDto.notes createOrderDto;
             Order.isDeleted := Some false;
             Order.createdAt := now |} in
        let! savedOrder := Document_save order in
        ret savedOrder
  end.

End Create.

(** *** The vendor order queries *)

(** The filter handed to [find] and to [countDocuments]. [isDeleted] is
    always [{ $ne: true }]; [createdAt] is an inclusive range when set;
    [or_regex] is the pattern matched, with option [i], against
    [customerName], [phoneNumber] and [orderId] when set. *)
Module FilterQuery.
Record t : Type := mk {
  vendorId : string;
  createdAt : option (Z * Z);
  or_regex : option string
}.
End FilterQuery.

(** What both queries return. *)
Module VendorOrders.
Record t `{JsNumber} : Type := mk {
  orders : list Order.t;
  total : Z;
  page : Js.num;
  limit : Js.num;
  totalPages : Js.num
}.
End VendorOrders.

Section Queries.
Context {N : JsNumber} {R : JsRuntime} {D : Database}.
Local Open Scope service_scope.

(** [isDeleted: { $ne: true }] *)
Definition notDeleted (o : Order.t) : bool :=
  match Order.isDeleted o with
  | Some true => false
  | _ => true
  end.

(** [createdAt: { $gte, $lte }] *)
Definition inRange (range : option (Z * Z)) (o : Order.t) : bool :=
  match range with
  | Some (gte, lte) => (Z.leb gte (Order.createdAt o) && Z.leb (Order.createdAt o) lte)%bool
  | None => true
  end.

(** The [$or] of the three [$regex] conditions. *)
Definition anyFieldMatches (matches : string -> bool) (o : Order.t) : bool :=
  (matches (Order.customerName o)
   || matches (Order.phoneNumber o)
   || matches (Order.orderId o))%bool.

(** The documents a filter selects, or the error of the server when it
    rejects the pattern. *)
Definition selects (query : FilterQuery.t) : Result (Order.t -> bool) :=
  let base o :=
    (ObjectId.refersTo (Order.vendorId o) (FilterQuery.vendorId query)
     && notDeleted o
     && inRange (FilterQuery.createdAt query) o)%bool in
  match FilterQuery.or_regex query with
  | None => Ok base
  | Some pattern =>
      match regex pattern with
      | Some matches => Ok (fun o => (base o && anyFieldMatches matches o)%bool)
      | None => Throw (MongoServerError "Regular expression is invalid")
      end
  end.

(** The count a cursor reads from [skip(n)] or [limit(n)]. *)
Definition cursorArg (n : Js.num) : option Z :=
  match n with
  | Js.Int z => Some z
  | Js.Float f => Z.of_nat <$> cursorCount f
  | Js.NaN => None
  end.

(** [.limit(n)]: at most [n] documents, and all of them for [n = 0]. *)
Definition cursorLimit (n : Z) (l : list Order.t) : list Order.t :=
  if Z.eqb n 0 then l else take (Z.to_nat n) l.

(** [orderModel.find(query).sort({ createdAt: -1 }).skip(skip).limit(limit).lean()] *)
Definition Model_find (query : FilterQuery.t) (skip limit : Js.num) : M (list Order.t) :=
  fun db =>
    match selects query with
    | Ok sel =>
        match cursorArg skip, cursorArg limit with
        | Some s, Some n =>
            (Ok (cursorLimit n
                   (drop (Z.to_nat s)
                      (sortByCreatedAtDesc (List.filter sel (orders db))))), db)
        | _, _ => (Throw (MongoServerError "Failed to parse skip or limit"), db)
        end
    | Throw e => (Throw e, db)
    end.

(** [orderModel.countDocuments(query)] *)
Definition Model_countDocuments (query : FilterQuery.t) : M Z :=
  fun db =>
    match selects query with
    | Ok sel => (Ok (Z.of_nat (length (List.filter sel (orders db)))), db)
    | Throw e => (Throw e, db)
    end.

(** [search?.trim()] as a condition, and the pattern it then yields. *)
Definition searchPattern (search : option string) : option string :=
  match search with
  | Some s => if Text.truthy (trim s) then Some (trim s) else None
  | None => None
  end.

(** [Math.max(1, Number(page) || 1)] *)
Definition parsePage (page : option Js.num) : Js.num :=
  Js.max 1 (Js.orElse (Js.param page 1) 1).

(** [Math.min(Math.max(1, Number(limit) || 10), 100)] *)
Definition parseLimit (limit : option Js.num) : Js.num :=
  Js.min (Js.max 1 (Js.orElse (Js.param limit 10) 10)) 100.

Definition findAllVendorOrders (vendorId : string)
    (page limit : option Js.num) (startDate endDate : option Z)
    (search : option string) : M VendorOrders.t :=
  let parsedPage := parsePage page in
  let parsedLimit := parseLimit limit in
  let skip := Js.mul (Js.sub parsedPage 1) parsedLimit in
  match ObjectId.new vendorId with
  | Throw e => throw e
  | Ok oid =>
      let query :=
        FilterQuery.mk oid
          (match startDate, endDate with
           | Some s, Some e => Some (s, e)
           | _, _ => None
           end)
          (searchPattern search) in
      let! orders := Model_find query skip parsedLimit in
      let! total := Model_countDocuments query in
      ret {| VendorOrders.orders := orders;
             VendorOrders.total := total;
             VendorOrders.page := parsedPage;
             VendorOrders.limit := parsedLimit;
             VendorOrders.totalPages := Js.ceilQuotient total parsedLimit |}
  end.

(** [getTodaysVendorOrders]; [todayStart] and [todayEnd] come from two
    readings [now1] and [now2] of the clock. *)
Definition getTodaysVendorOrders (now1 now2 : Z) (vendorId : string)
    (page limit : option Js.num) (search : option string) : M VendorOrders.t :=
  let parsedPage := parsePage page in
  let parsedLimit := parseLimit limit in
  let skip := Js.mul (Js.sub parsedPage 1) parsedLimit in
  let todayStart := setHours 0 0 0 0 now1 in
  let todayEnd := setHours 23 59 59 999 now2 in
  match ObjectId.new vendorId with
  | Throw e => throw e
  | Ok oid =>
      let query :=
        FilterQuery.mk oid (Some (todayStart, todayEnd)) (searchPattern search) in
      let! orders := Model_find query skip parsedLimit in
      let! total := Model_countDocuments query in
      ret {| VendorOrders.orders := orders;
             VendorOrders.total := total;
             VendorOrders.page := parsedPage;
             VendorOrders.limit := parsedLimit;
             VendorOrders.totalPages := Js.ceilQuotient total parsedLimit |}
  end.

End Queries.
End OrderService.

(** * Properties *)

(** What a computation returned, if it returned. *)
Definition returned {A S} (r : Result A * S) : option A :=
  match r with
  | (Ok a, _) => Some a
  | (Throw _, _) => None
  end.

(** ** Vocabulary of the order workflow *)

Section OrderVocabulary.
Context `{JsNumber}.

(** The item resolves to [menuItem] in the catalogue, and it is enabled. *)
Definition orderable (db : Db) (item : OrderItem.t) (menuItem : MenuItem.t) : Prop :=
  menuItems db !! OrderItem.menuItemId item = Some menuItem
  /\ MenuItem.isEnabled menuItem = true.

(** [menuItem.price * item.quantity] *)
Definition lineAmount (item : OrderItem.t) (menuItem : MenuItem.t) : number :=
  num_mul (MenuItem.price menuItem) (OrderItem.quantity item).

(** The sum of the amounts, added in the order of the list from zero. *)
Definition sumOf (amounts : list number) : number :=
  fold_left num_add amounts num_zero.

(** The store after one more order has been inserted. *)
Definition withOrder (db : Db) (order : Order.t) : Db :=
  mkDb (customers db) (vendors db) (menuItems db) (orders db ++ [order]).

(** The vendor of the request is stored, under the ObjectId the request
    spells. *)
Definition vendorOf (db : Db) (createOrderDto : CreateOrderDto.t) (vendor : Vendor.t) : Prop :=
  ObjectId.isValid (CreateOrderDto.vendorId createOrderDto) = true
  /\ vendors db !! ObjectId.hex (CreateOrderDto.vendorId createOrderDto) = Some vendor.

End OrderVocabulary.

(** *** Exact amounts

    The rational number a double stands for, and the sum of
    [price * quantity] over the lines of an order taken in the rationals,
    without rounding. *)

Definition exactValue (f : float) : option Q :=
  match Prim2SF f with
  | S754_zero _ => Some 0%Q
  | S754_finite s m e => Some (inject_Z (cond_Zopp s (Zpos m)) * Qpower 2 e)%Q
  | S754_infinity _ | S754_nan => None
  end.

Fixpoint exactSum (lines : list (float * float)) : option Q :=
  match lines with
  | [] => Some 0%Q
  | (price, quantity) :: rest =>
      match exactValue price, exactValue quantity, exactSum rest with
      | Some p, Some q, Some s => Some (p * q + s)%Q
      | _, _, _ => None
      end
  end.

(** ** Vocabulary of the order queries *)

(** The records from offset [(page - 1) * limit] on, at most [limit] of them. *)
Definition window {A} (page limit : Z) (l : list A) : list A :=
  take (Z.to_nat limit) (drop (Z.to_nat ((page - 1) * limit)) l).

(** A pagination argument that is left out, not numeric, or a whole
    number. *)
Definition whole (x : option Js.num) : Prop :=
  match x with
  | Some (Js.Float _) => False
  | _ => True
  end.

(** A number is at least, or at most, a whole number. *)
Definition atLeast (a : Z) (n : Js.num) : Prop :=
  match n with
  | Js.NaN => False
  | Js.Int z => a <= z
  | Js.Float f => PrimFloat.leb (Js.ofZ a) f = true
  end.

Definition atMost (n : Js.num) (b : Z) : Prop :=
  match n with
  | Js.NaN => False
  | Js.Int z => z <= b
  | Js.Float f => PrimFloat.leb f (Js.ofZ b) = true
  end.

(** The page and the limit a query works with, for whole-number
    arguments: the page raised to at least 1, and 1 when it is left out,
    [0] or not numeric; the limit clamped to [1, 100], and 10 when it is
    left out, [0] or not numeric. *)
Definition pageNumber (page : option Js.num) : Z :=
  match page with
  | Some (Js.Int z) => Z.max 1 z
  | _ => 1
  end.

Definition limitNumber (limit : option Js.num) : Z :=
  match limit with
  | Some (Js.Int z) => if Z.eqb z 0 then 10 else Z.min (Z.max 1 z) 100
  | _ => 10
  end.

(** The value of a hexadecimal digit, written in either case. *)
Definition digitValue (c : ascii) : option nat :=
  let n := nat_of_ascii c in
  if (Nat.leb 48 n && Nat.leb n 57)%bool then Some (n - 48)%nat
  else if (Nat.leb 97 n && Nat.leb n 102)%bool then Some (n - 87)%nat
  else if (Nat.leb 65 n && Nat.leb n 70)%bool then Some (n - 55)%nat
  else None.

(** Two texts that spell the same ObjectId: 24 characters each, and
    position by position the same hexadecimal digit. *)
Definition sameObjectId (a b : string) : Prop :=
  length (Text.chars a) = 24%nat
  /\ Forall2 (fun x y => exists v, digitValue x = Some v /\ digitValue y = Some v)
       (Text.chars a) (Text.chars b).

(** The characters that are special in a regular expression. *)
Definition specialChars : list ascii := Text.chars "\^$.|?*+()[]{}".

Definition isSpecial (c : ascii) : bool := existsb (Ascii.eqb c) specialChars.

(** A term without any character that is special in a regular expression. *)
Definition plainTerm (term : string) : Prop :=
  Forall (fun c => isSpecial c = false) (Text.chars term).

(** The date range of the "all orders" query: both bounds or none. *)
Definition bothBounds (startDate endDate : option Z) : option (Z * Z) :=
  match startDate, endDate with
  | Some s, Some e => Some (s, e)
  | _, _ => None
  end.

Section RuntimeVocabulary.
Context {R : JsRuntime}.

(** [term] occurs in [subject] as a substring, letter case apart. *)
Definition occursIn (term subject : string) : Prop :=
  exists before after : list ascii,
    Text.chars (toLowerCase subject)
    = (before ++ Text.chars (toLowerCase term) ++ after)%list.

(** A search argument that is left out or that trimming empties. *)
Definition noSearch (search : option string) : Prop :=
  match search with
  | None => True
  | Some s => trim s = EmptyString
  end.

(** The search term after trimming; empty when there is none. *)
Definition termOf (search : option string) : string :=
  match search with
  | None => EmptyString
  | Some s => trim s
  end.

(** The date range of the "today" query: from local midnight of the day
    of the first reading of the clock to the last millisecond of the day
    of the second. *)
Definition today (now1 now2 : Z) : option (Z * Z) :=
  Some (setHours 0 0 0 0 now1, setHours 23 59 59 999 now2).

(** Two day names that are equal, letter case apart. *)
Definition sameName (d1 d2 : string) : Prop := toLowerCase d1 = toLowerCase d2.

End RuntimeVocabulary.

Section QueryVocabulary.
Context {N : JsNumber} {R : JsRuntime} {D : Database}.

(** The order is of the vendor: its [vendorId] and the id asked for
    spell the same ObjectId. *)
Definition ofVendor (vendorId : string) (o : Order.t) : Prop :=
  sameObjectId (Order.vendorId o) vendorId.

(** The order was created within the range, both bounds included. *)
Definition within (range : option (Z * Z)) (o : Order.t) : Prop :=
  match range with
  | Some (first, last) => first <= Order.createdAt o <= last
  | None => True
  end.

(** Vendor scope, soft deletion and date range: the part of the filter
    that does not depend on the search term. *)
Definition inScope (vendorId : string) (range : option (Z * Z)) (o : Order.t) : Prop :=
  ofVendor vendorId o
  /\ Order.isDeleted o <> Some true
  /\ within range o.

(** [a] may stand before [b] in a listing: it is not older. *)
Definition notOlder (a b : Order.t) : Prop :=
  Order.createdAt b <= Order.createdAt a.

(** The search term occurs in one of the three searched fields. *)
Definition termOccurs (term : string) (o : Order.t) : Prop :=
  occursIn term (Order.customerName o)
  \/ occursIn term (Order.phoneNumber o)
  \/ occursIn term (Order.orderId o).

(** One of the three searched fields matches. *)
Definition fieldMatches (matches : string -> bool) (o : Order.t) : Prop :=
  matches (Order.customerName o) = true
  \/ matches (Order.phoneNumber o) = true
  \/ matches (Order.orderId o) = true.

(** The search filter of a trimmed term: none for the empty term, and
    otherwise the matcher the database makes of the term. *)
Definition searchFilter (term : string) (o : Order.t) : Prop :=
  match term with
  | EmptyString => True
  | _ => exists matches, regex term = Some matches /\ fieldMatches matches o
  end.

(** The database takes the search argument: there is none, or trimming
    empties it, or the trimmed term is a pattern the database accepts. *)
Definition accepted (search : option string) : Prop :=
  match search with
  | None => True
  | Some s => trim s = EmptyString \/ exists matches, regex (trim s) = Some matches
  end.

(** A database that matches a term without special characters as a
    substring, letter case apart. *)
Definition matchesPlainTermsAsSubstrings : Prop :=
  forall term, plainTerm term ->
    exists matches, regex term = Some matches
                    /\ forall subject, matches subject = true <-> occursIn term subject.

(** The answer both queries build from a filter, the parsed pagination
    values and the counts the cursor reads. *)
Definition answer (sel : Order.t -> bool) (page limit : Js.num) (skip count : Z) (db : Db)
  : OrderService.VendorOrders.t :=
  let matching := List.filter sel (orders db) in
  {| OrderService.VendorOrders.orders :=
       OrderService.cursorLimit count
         (drop (Z.to_nat skip) (sortByCreatedAtDesc matching));
     OrderService.VendorOrders.total := Z.of_nat (length matching);
     OrderService.VendorOrders.page := page;
     OrderService.VendorOrders.limit := limit;
     OrderService.VendorOrders.totalPages :=
       Js.ceilQuotient (Z.of_nat (length matching)) limit |}.

(** A vendor order query, with the arguments its two modes share left
    open: page, limit and search term. *)
Definition Query : Type :=
  option Js.num -> option Js.num -> option string -> M OrderService.VendorOrders.t.

(** The two modes for a vendor id, each with the date range it filters on. *)
Inductive queryMode (vendorId : string) : Query -> option (Z * Z) -> Prop :=
  | AllOrders (startDate endDate : option Z) :
      queryMode vendorId
        (fun page limit search =>
           OrderService.findAllVendorOrders vendorId page limit startDate endDate search)
        (bothBounds startDate endDate)
  | TodaysOrders (now1 now2 : Z) :
      queryMode vendorId
        (fun page limit search =>
           OrderService.getTodaysVendorOrders now1 now2 vendorId page limit search)
        (today now1 now2).

(** The documents a query for [vendorId] over [range] with [search]
    selects; none when the query is not answered. *)
Definition selection (vendorId : string) (range : option (Z * Z))
    (search : option string) : Order.t -> bool :=
  match ObjectId.new vendorId with
  | Ok oid =>
      match OrderService.selects
              (OrderService.FilterQuery.mk oid range (OrderService.searchPattern search)) with
      | Ok sel => sel
      | Throw _ => fun _ => false
      end
  | Throw _ => fun _ => false
  end.

(** The orders on page [p] of a query, for a fixed limit and search term;
    none when the query is not answered. *)
Definition pageOf (query : Query) (limit : option Js.num) (search : option string)
    (db : Db) (p : Z) : list Order.t :=
  match returned (query (Some (Js.Int p)) limit search db) with
  | Some r => OrderService.VendorOrders.orders r
  | None => []
  end.

End QueryVocabulary.

(** The readable part of an answer: the order codes of its page, then
    total, page, limit and totalPages. *)
Definition listing `{JsNumber} (r : OrderService.VendorOrders.t)
  : list string * Z * Js.num * Js.num * Js.num :=
  (map Order.orderId (OrderService.VendorOrders.orders r),
   OrderService.VendorOrders.total r,
   OrderService.VendorOrders.page r,
   OrderService.VendorOrders.limit r,
   OrderService.VendorOrders.totalPages r).

(** ** A runtime and a database to evaluate the statements on

    The statements hold for every runtime and every database. To evaluate
    them on sample data, here is one of each: text in the ASCII range, a
    clock at a fixed offset from UTC, regular expressions made of
    ordinary characters and [.], and a sort that keeps documents of equal
    time in insertion order. *)

Module Ascii7.

Definition isUpper (c : ascii) : bool :=
  let n := nat_of_ascii c in (Nat.leb 65 n && Nat.leb n 90)%bool.

Definition lowerChar (c : ascii) : ascii :=
  if isUpper c then ascii_of_nat (nat_of_ascii c + 32) else c.

Definition toLowerCase (s : string) : string :=
  string_of_list_ascii (map lowerChar (Text.chars s)).

(** Space, tab, line feed, vertical tab, form feed, carriage return. *)
Definition isWhiteSpace (c : ascii) : bool :=
  let n := nat_of_ascii c in
  (Nat.eqb n 32 || (Nat.leb 9 n && Nat.leb n 13))%bool.

Fixpoint trimStartChars (l : list ascii) : list ascii :=
  match l with
  | c :: l' => if isWhiteSpace c then trimStartChars l' else l
  | [] => []
  end.

Fixpoint trimEndChars (l : list ascii) : list ascii :=
  match l with
  | c :: l' =>
      match trimEndChars l' with
      | [] => if isWhiteSpace c then [] else [c]
      | rest => c :: rest
      end
  | [] => []
  end.

Definition trimChars (l : list ascii) : list ascii :=
  trimEndChars (trimStartChars l).

Definition trim (s : string) : string :=
  string_of_list_ascii (trimChars (Text.chars s)).

End Ascii7.

Module Clock.

Definition msPerDay : Z := 86400000.

(** The time of day [h:m:s.ms] in milliseconds. *)
Definition timeOfDay (h m s ms : Z) : Z := ((h * 60 + m) * 60 + s) * 1000 + ms.

(** [setHours] in a zone that is always [tzOffset] milliseconds ahead of
    UTC: the local day of the instant, at the given time of day. *)
Definition setHours (tzOffset h m s ms t : Z) : Z :=
  t - (t + tzOffset) mod msPerDay + timeOfDay h m s ms.

End Clock.

Module Regex.

Inductive atom : Type :=
  | Chr (c : ascii)
  | AnyChar.

Fixpoint compileChars (p : list ascii) : option (list atom) :=
  match p with
  | [] => Some []
  | c :: p' =>
      if Ascii.eqb c "."%char then cons AnyChar <$> compileChars p'
      else if isSpecial c then None
      else cons (Chr c) <$> compileChars p'
  end.

Definition compile (pattern : string) : option (list atom) :=
  compileChars (Text.chars pattern).

Definition lineFeed : ascii := ascii_of_nat 10.

(** One atom against one character, letters compared without case. *)
Definition atomMatches (a : atom) (c : ascii) : bool :=
  match a with
  | Chr x => Ascii.eqb (Ascii7.lowerChar x) (Ascii7.lowerChar c)
  | AnyChar => negb (Ascii.eqb c lineFeed)
  end.

Fixpoint matchHere (r : list atom) (s : list ascii) : bool :=
  match r, s with
  | [], _ => true
  | _ :: _, [] => false
  | a :: r', c :: s' => (atomMatches a c && matchHere r' s')%bool
  end.

(** An unanchored match: at some position of the subject. *)
Fixpoint search (r : list atom) (s : list ascii) : bool :=
  (matchHere r s ||
   match s with
   | [] => false
   | _ :: s' => search r s'
   end)%bool.

Definition test (r : list atom) (subject : string) : bool :=
  search r (Text.chars subject).

(** The matcher of a pattern of the fragment. *)
Definition matcher (pattern : string) : option (string -> bool) :=
  test <$> compile pattern.

End Regex.

Module Sample.

(** One hour ahead of UTC. *)
Definition tzOffset : Z := 3600000.

#[global] Instance runtime : JsRuntime.
Proof.
  refine {| toLowerCase := Ascii7.toLowerCase;
            trim := Ascii7.trim;
            setHours := Clock.setHours tzOffset |}.
  intros s. unfold Ascii7.trim. rewrite list_ascii_of_string_of_list_ascii.
  f_equal. unfold Ascii7.trimChars.
  assert (Hend : forall l, Ascii7.trimEndChars (Ascii7.trimEndChars l)
                           = Ascii7.trimEndChars l).
  { induction l as [|c l IH]; simpl; [reflexivity|].
    destruct (Ascii7.trimEndChars l) as [|d rest] eqn:Hl.
    - destruct (Ascii7.isWhiteSpace c) eqn:Hc; simpl; [reflexivity|].
      rewrite Hc. reflexivity.
    - change (Ascii7.trimEndChars (c :: d :: rest))
        with (match Ascii7.trimEndChars (d :: rest) with
              | [] => if Ascii7.isWhiteSpace c then [] else [c]
              | r => c :: r
              end).
      rewrite IH. reflexivity. }
  assert (Hstart : forall l, match l with
                             | [] => True
                             | c :: _ => Ascii7.isWhiteSpace c = false
                             end ->
                             Ascii7.trimStartChars (Ascii7.trimEndChars l)
                             = Ascii7.trimEndChars l).
  { intros [|c l] Hhead; simpl; [reflexivity|].
    destruct (Ascii7.trimEndChars l); simpl; rewrite ?Hhead; simpl; rewrite ?Hhead;
      reflexivity. }
  rewrite Hstart.
  - apply Hend.
  - induction (Text.chars s) as [|c l IH]; simpl; [exact I|].
    destruct (Ascii7.isWhiteSpace c) eqn:Hc; [exact IH | exact Hc].
Defined.

Section Sorting.
Context `{JsNumber}.

(** Insertion before the first document that is not newer. *)
Fixpoint insertByCreatedAt (o : Order.t) (l : list Order.t) : list Order.t :=
  match l with
  | [] => [o]
  | x :: l' =>
      if Z.leb (Order.createdAt x) (Order.createdAt o) then o :: l
      else x :: insertByCreatedAt o l'
  end.

Definition insertionSort (l : list Order.t) : list Order.t :=
  fold_right insertByCreatedAt [] l.

End Sorting.

#[global] Instance database : Database.
Proof.
  refine {| regex := Regex.matcher;
            cursorCount := fun _ => None;
            sortByCreatedAtDesc := insertionSort |}.
  - assert (Hins : forall o l, Permutation (insertByCreatedAt o l) (o :: l)).
    { intros o l. induction l as [|x l IH]; simpl; [reflexivity|].
      destruct (Z.leb _ _); [reflexivity|].
      rewrite IH. apply perm_swap. }
    induction l as [|o l IH]; simpl; [reflexivity|].
    rewrite Hins, IH. reflexivity.
  - assert (Hins : forall o l,
               StronglySorted (fun a b => Order.createdAt b <= Order.createdAt a) l ->
               StronglySorted (fun a b => Order.createdAt b <= Order.createdAt a)
                 (insertByCreatedAt o l)).
    { intros o l Hl. induction Hl as [|x l Hl IH Hx]; simpl.
      - repeat constructor.
      - destruct (Z.leb (Order.createdAt x) (Order.createdAt o)) eqn:E.
        + apply Z.leb_le in E. constructor; [constructor; assumption|].
          constructor; [exact E|].
          rewrite List.Forall_forall in *. intros y Hy. specialize (Hx y Hy). lia.
        + apply Z.leb_gt in E. constructor; [exact IH|].
          assert (Hperm : Permutation (insertByCreatedAt o l) (o :: l)).
          { clear. induction l as [|y l IH]; simpl; [reflexivity|].
            destruct (Z.leb _ _); [reflexivity|]. rewrite IH. apply perm_swap. }
          rewrite List.Forall_forall in *. intros y Hy.
          apply (Permutation_in _ Hperm) in Hy. destruct Hy as [<-|Hy]; [lia | auto]. }
    induction l as [|o l IH]; simpl; [constructor | apply Hins, IH].
Defined.

(** *** Sample data *)

Definition vendorId : string := "64b7f0c2a1d3e4f5a6b7c8d9".

(** The same id with its letters in upper case. *)
Definition vendorIdUpper : string := "64B7F0C2A1D3E4F5A6B7C8D9".

Definition monday : WorkingHours.t :=
  WorkingHours.mk "Monday" "09:00" "17:00" true.

Definition tuesday : WorkingHours.t :=
  WorkingHours.mk "Tuesday" "10:00" "16:00" false.

Definition kitchen : Vendor.t :=
  Vendor.mk "Iya Basira" (Some "$2b$10$hash") false [monday; tuesday].

Definition vendorModel : gmap string Vendor.t := {[ vendorId := kitchen ]}.

(** A request that names Monday and carries an empty opening time. *)
Definition emptyOpening : VendorService.Update.t :=
  VendorService.Update.mk "MONDAY" (Some EmptyString) (Some "18:00") None.

Definition closeTuesdayEarly : VendorService.Update.t :=
  VendorService.Update.mk "tuesday" None (Some "14:00") (Some true).

Definition openMondayLate : VendorService.Update.t :=
  VendorService.Update.mk "Monday" (Some "11:30") None None.

Definition sundayOff : VendorService.Update.t :=
  VendorService.Update.mk "Sunday" None None (Some false).

(** The order workflow. *)

Definition openVendorId : string := "64b7f0c2a1d3e4f5a6b7c8da".

(** A well-formed id under which no vendor is stored. *)
Definition unknownVendorId : string := "64b7f0c2a1d3e4f5a6b7c8db".

Definition buka : Vendor.t :=
  Vendor.mk "Yakoyo" (Some "$2b$10$hash") true [monday].

Definition jollof : MenuItem.t := MenuItem.mk "Jollof rice" 500%float true.
Definition chicken : MenuItem.t := MenuItem.mk "Grilled chicken" 300%float true.
Definition suya : MenuItem.t := MenuItem.mk "Suya" 1200%float false.

(** Two items priced by the gram. *)
Definition pepper : MenuItem.t := MenuItem.mk "Pepper, per gram" 0.1%float true.
Definition ginger : MenuItem.t := MenuItem.mk "Ginger, per gram" 0.2%float true.

Definition db : Db :=
  mkDb {[ "cust-1" := Customer.mk "Ada Obi" ]}
       (<[ openVendorId := buka ]> vendorModel)
       (<[ "m-jollof" := jollof ]>
          (<[ "m-chicken" := chicken ]>
             (<[ "m-pepper" := pepper ]>
                (<[ "m-ginger" := ginger ]> {[ "m-suya" := suya ]}))))
       [].

Definition order (vendor : string) (items : list OrderItem.t) : CreateOrderDto.t :=
  CreateOrderDto.mk vendor "08030000000" "delivery" None (Some "12 Allen Avenue") items None.

Definition jollofTwice : OrderItem.t := OrderItem.mk "m-jollof" 2%float.
Definition chickenOnce : OrderItem.t := OrderItem.mk "m-chicken" 1%float.
Definition suyaOnce : OrderItem.t := OrderItem.mk "m-suya" 1%float.
Definition ghostOnce : OrderItem.t := OrderItem.mk "m-ghost" 1%float.
Definition pepperOnce : OrderItem.t := OrderItem.mk "m-pepper" 1%float.
Definition gingerOnce : OrderItem.t := OrderItem.mk "m-ginger" 1%float.

Definition twoLines : list OrderItem.t := [jollofTwice; chickenOnce].

Definition spices : list OrderItem.t := [pepperOnce; gingerOnce].

(** The order queries: two listed orders of the sample kitchen, one
    soft-deleted order of it, and an order of another vendor. *)

Definition generated : string := "a1B2c3D4e5F6".
Definition now : Z := 1762128000000.
Definition ada : Customer.t := Customer.mk "Ada Obi".

Definition placed (orderId customerName phoneNumber vendor : string)
    (isDeleted : option bool) (createdAt : Z) : Order.t :=
  {| Order.orderId := orderId;
     Order.customerId := "cust-1";
     Order.vendorId := vendor;
     Order.customerName := customerName;
     Order.phoneNumber := phoneNumber;
     Order.deliveryType := "pickup";
     Order.location := None;
     Order.address := None;
     Order.items := [];
     Order.totalAmount := 0%float;
     Order.status := PENDING;
     Order.notes := None;
     Order.isDeleted := isDeleted;
     Order.createdAt := createdAt |}.

Definition jane : Order.t :=
  placed "ST-Zx81kQp04LmN" "Jane Okoro" "08031234567" vendorId (Some false) (now + 1000).
Definition bob : Order.t :=
  placed "ST-7hG2vB9sW1cD" "Bob Musa" "08059876543" vendorId None (now + 2000).
Definition gone : Order.t :=
  placed "ST-Qw3rTy6uI8oP" "Janet Bello" "08070000001" vendorId (Some true) (now + 3000).
Definition elsewhere : Order.t :=
  placed "ST-Mn4bVc5xZ2aS" "Jon Eze" "08090000002" openVendorId (Some false) (now + 4000).

Definition orderBook : Db := mkDb ∅ ∅ ∅ [jane; bob; gone; elsewhere].

(** The sample store with an order of the day before in it. *)
Definition yesterday : Order.t :=
  placed "ST-Kp7dR2mX9qLt" "Ngozi Ade" "08020000003" openVendorId (Some false)
    (now - 86400000).

Definition busy : Db :=
  mkDb (customers db) (vendors db) (menuItems db) [yesterday].

End Sample.

(** ** Vendor operating state *)

Section VendorFacts.
Import VendorService.

Lemma findIndex_Some {A} (p : A -> bool) (l : list A) (i : nat) :
  findIndex p l = Some i ->
  exists x, l !! i = Some x /\ p x = true
            /\ forall j y, (j < i)%nat -> l !! j = Some y -> p y = false.
Proof.
  revert i. induction l as [|a l IH]; intros i Hi; simpl in Hi; [discriminate|].
  destruct (p a) eqn:Hpa.
  - inversion Hi; subst. exists a. repeat split; auto. intros j y Hj; lia.
  - destruct (findIndex p l) as [k|] eqn:Hk; simpl in Hi; [|discriminate].
    inversion Hi; subst. destruct (IH k eq_refl) as (x & Hx & Hpx & Hbefore).
    exists x. repeat split; auto.
    intros [|j] y Hj Hy; simpl in Hy.
    + congruence.
    + apply (Hbefore j); [lia | exact Hy].
Qed.

Lemma findIndex_None {A} (p : A -> bool) (l : list A) :
  findIndex p l = None <-> forall x, In x l -> p x = false.
Proof.
  induction l as [|a l IH]; simpl.
  - split; [intros _ x [] | reflexivity].
  - destruct (p a) eqn:Hpa.
    + split; [discriminate|]. intros Hall. rewrite (Hall a) in Hpa by auto. discriminate.
    + destruct (findIndex p l) eqn:Hk; simpl.
      * split; [discriminate|]. intros Hall.
        assert (Hl : forall x, In x l -> p x = false) by auto.
        apply IH in Hl. discriminate.
      * split; [|reflexivity]. intros _ x [->|Hx]; [exact Hpa|].
        destruct IH as [IH _]. auto.
Qed.

Lemma sameDay_iff `{JsRuntime} (d : string) (h : WorkingHours.t) :
  sameDay d h = true <-> sameName (WorkingHours.day h) d.
Proof. unfold sameDay, sameName. apply String.eqb_eq. Qed.

Lemma cast_wellFormed (model id : string) :
  ObjectId.isValid id = true -> ObjectId.cast model id = Ok (ObjectId.hex id).
Proof. unfold ObjectId.cast. intros ->. reflexivity. Qed.

Lemma cast_malformed (model id : string) :
  ObjectId.isValid id = false ->
  exists message, ObjectId.cast model id = Throw (CastError message).
Proof. unfold ObjectId.cast. intros ->. eexists. reflexivity. Qed.

(** The outcomes of a store flip, by the id and the collection. *)
Lemma Model_findByIdAndUpdate_isStoreOpen_wellFormed
      (vs : gmap string Vendor.t) (vendorId : string) (b : bool) :
  ObjectId.isValid vendorId = true ->
  Model_findByIdAndUpdate_isStoreOpen vendorId b vs
  = match vs !! ObjectId.hex vendorId with
    | Some v => (Ok (Some (Vendor.setIsStoreOpen b v)),
                 <[ObjectId.hex vendorId := Vendor.setIsStoreOpen b v]> vs)
    | None => (Ok None, vs)
    end.
Proof.
  intros Hid. unfold Model_findByIdAndUpdate_isStoreOpen.
  rewrite (cast_wellFormed _ _ Hid). reflexivity.
Qed.

Lemma Model_findById_wellFormed (vs : gmap string Vendor.t) (vendorId : string) :
  ObjectId.isValid vendorId = true ->
  Model_findById vendorId vs
  = (Ok (pair (ObjectId.hex vendorId) <$> vs !! ObjectId.hex vendorId), vs).
Proof.
  intros Hid. unfold Model_findById. rewrite (cast_wellFormed _ _ Hid). reflexivity.
Qed.

Lemma findById_wellFormed (vs : gmap string Vendor.t) (vendorId : string) :
  ObjectId.isValid vendorId = true ->
  findById vendorId vs
  = (Ok (Vendor.withoutPassword <$> vs !! ObjectId.hex vendorId), vs).
Proof.
  intros Hid. unfold findById, bind. rewrite (Model_findById_wellFormed _ _ Hid).
  unfold ret, select_minus_password. destruct (vs !! ObjectId.hex vendorId); reflexivity.
Qed.

Lemma findById_malformed (vs : gmap string Vendor.t) (vendorId : string) :
  ObjectId.isValid vendorId = false ->
  exists message, findById vendorId vs = (Throw (CastError message), vs).
Proof.
  intros Hid. destruct (cast_malformed "Vendor" _ Hid) as [message Hcast].
  exists message. unfold findById, bind, Model_findById. rewrite Hcast. reflexivity.
Qed.

End VendorFacts.

Section VendorClaims.
Import VendorService.

(** C9, as the spec words it, read at the id [vendor-7]: no vendor is
    stored under it, so it does not resolve; [openStore] and [closeStore]
    throw the [CastError] of the id cast, which is no NotFound. *)
Lemma store_flip_of_malformed_id_is_no_NotFound :
  (forall v, Sample.vendorModel !! "vendor-7" <> Some v)
  /\ (exists message,
        openStore "vendor-7" Sample.vendorModel
        = (Throw (CastError message), Sample.vendorModel))
  /\ (exists message,
        closeStore "vendor-7" Sample.vendorModel
        = (Throw (CastError message), Sample.vendorModel))
  /\ isNotFound (fst (openStore "vendor-7" Sample.vendorModel)) = false
  /\ isNotFound (fst (closeStore "vendor-7" Sample.vendorModel)) = false.
Proof.
  split; [intros v; vm_compute; discriminate|].
  split; [eexists; vm_compute; reflexivity|].
  split; [eexists; vm_compute; reflexivity|].
  split; vm_compute; reflexivity.
Qed.

(** C9, amended. [openStore] and [closeStore] are idempotent. For a
    vendor id that is a well-formed ObjectId (24 hexadecimal digits, in
    either case) under which a vendor is stored, [openStore] stores
    [isStoreOpen = true] and [closeStore] stores [isStoreOpen = false]
    whatever the flag was, both return the updated vendor, and a second
    call returns the same vendor and leaves the same collection. For a
    well-formed id under which no vendor is stored, both throw NotFound
    and write nothing. For an id that is not a well-formed ObjectId both
    throw the [CastError] of the id cast and write nothing. *)
Theorem openStore_closeStore_idempotent
    (vs : gmap string Vendor.t) (vendorId : string) :
  (ObjectId.isValid vendorId = true ->
   match vs !! ObjectId.hex vendorId with
   | Some v =>
       let opened := Vendor.setIsStoreOpen true v in
       let closed := Vendor.setIsStoreOpen false v in
       Vendor.isStoreOpen opened = true
       /\ Vendor.isStoreOpen closed = false
       /\ openStore vendorId vs
          = (Ok (Vendor.withoutPassword opened), <[ObjectId.hex vendorId := opened]> vs)
       /\ bind (openStore vendorId) (fun _ => openStore vendorId) vs
          = (Ok (Vendor.withoutPassword opened), <[ObjectId.hex vendorId := opened]> vs)
       /\ closeStore vendorId vs
          = (Ok (Vendor.withoutPassword closed), <[ObjectId.hex vendorId := closed]> vs)
       /\ bind (closeStore vendorId) (fun _ => closeStore vendorId) vs
          = (Ok (Vendor.withoutPassword closed), <[ObjectId.hex vendorId := closed]> vs)
   | None =>
       openStore vendorId vs = (Throw (NotFoundException "Vendor not found"), vs)
       /\ closeStore vendorId vs = (Throw (NotFoundException "Vendor not found"), vs)
   end)
  /\ (ObjectId.isValid vendorId = false ->
      length (Text.chars vendorId) <> 12%nat ->
      exists message,
        openStore vendorId vs = (Throw (CastError message), vs)
        /\ closeStore vendorId vs = (Throw (CastError message), vs)
        /\ bind (openStore vendorId) (fun _ => openStore vendorId) vs
           = (Throw (CastError message), vs)
        /\ bind (closeStore vendorId) (fun _ => closeStore vendorId) vs
           = (Throw (CastError message), vs)).
Proof.
  split.
  - intros Hid. destruct (vs !! ObjectId.hex vendorId) as [v|] eqn:Hv.
    + unfold openStore, closeStore, bind.
      rewrite !(Model_findByIdAndUpdate_isStoreOpen_wellFormed _ _ _ Hid), Hv.
      cbn [select_minus_password fmap option_fmap option_map ret].
      rewrite !(Model_findByIdAndUpdate_isStoreOpen_wellFormed _ _ _ Hid).
      rewrite !lookup_insert_eq.
      cbn [select_minus_password fmap option_fmap option_map ret].
      rewrite !insert_insert_eq. repeat split; reflexivity.
    + unfold openStore, closeStore, bind.
      rewrite !(Model_findByIdAndUpdate_isStoreOpen_wellFormed _ _ _ Hid), Hv.
      split; reflexivity.
  - intros Hid _. destruct (cast_malformed "Vendor" _ Hid) as [message Hcast].
    exists message.
    unfold openStore, closeStore, bind, Model_findByIdAndUpdate_isStoreOpen.
    rewrite Hcast. repeat split; reflexivity.
Qed.

(** The amended statement at the sample kitchen, asked for by its id in
    upper case, and at the malformed id [vendor-7]. *)
Lemma openStore_closeStore_idempotent_witness :
  (exists opened,
     Vendor.isStoreOpen opened = true
     /\ openStore Sample.vendorIdUpper Sample.vendorModel
        = (Ok (Vendor.withoutPassword opened), <[Sample.vendorId := opened]> Sample.vendorModel)
     /\ bind (openStore Sample.vendorIdUpper) (fun _ => openStore Sample.vendorIdUpper)
          Sample.vendorModel
        = (Ok (Vendor.withoutPassword opened), <[Sample.vendorId := opened]> Sample.vendorModel))
  /\ openStore Sample.unknownVendorId Sample.vendorModel
     = (Throw (NotFoundException "Vendor not found"), Sample.vendorModel)
  /\ exists message,
       closeStore "vendor-7" Sample.vendorModel
       = (Throw (CastError message), Sample.vendorModel).
Proof.
  split; [|split].
  - pose proof (proj1 (openStore_closeStore_idempotent Sample.vendorModel Sample.vendorIdUpper)
                  ltac:(vm_compute; reflexivity)) as Hflip.
    change (ObjectId.hex Sample.vendorIdUpper) with Sample.vendorId in Hflip.
    change (Sample.vendorModel !! Sample.vendorId) with (Some Sample.kitchen) in Hflip.
    destruct Hflip as (Hopen & _ & Hrun & Htwice & _).
    exists (Vendor.setIsStoreOpen true Sample.kitchen).
    split; [exact Hopen|]. split; [exact Hrun | exact Htwice].
  - pose proof (proj1 (openStore_closeStore_idempotent Sample.vendorModel
                         Sample.unknownVendorId)
                  ltac:(vm_compute; reflexivity)) as Hnone.
    change (Sample.vendorModel !! ObjectId.hex Sample.unknownVendorId)
      with (@None Vendor.t) in Hnone.
    exact (proj1 Hnone).
  - destruct (proj2 (openStore_closeStore_idempotent Sample.vendorModel "vendor-7")
                ltac:(vm_compute; reflexivity) ltac:(vm_compute; discriminate))
      as (message & _ & Hclose & _).
    exists message. exact Hclose.
Defined.

(** The spec example: the sample kitchen is closed; opening it twice
    leaves it open both times. *)
Example openStore_twice_sample :
  Vendor.isStoreOpen <$> returned (openStore Sample.vendorId Sample.vendorModel) = Some true
  /\ Vendor.isStoreOpen <$>
       returned (bind (openStore Sample.vendorId) (fun _ => openStore Sample.vendorId)
                   Sample.vendorModel) = Some true.
Proof. split; vm_compute; reflexivity. Qed.

(** C8, as the spec words it, read at the request [Sample.emptyOpening]:
    the request carries an [openingTime] (the empty text) and a
    [closingTime]; the Monday entry takes the closing time, but its
    opening time is not overwritten by the one in the request. *)
Lemma updateWorkingHours_keeps_opening_on_empty_text :
  Update.openingTime Sample.emptyOpening = Some EmptyString
  /\ ObjectId.isValid Sample.vendorId = true
  /\ Sample.vendorModel !! ObjectId.hex Sample.vendorId = Some Sample.kitchen
  /\ returned (updateWorkingHours Sample.vendorId Sample.emptyOpening Sample.vendorModel)
     = Some [WorkingHours.mk "Monday" "09:00" "18:00" true; Sample.tuesday].
Proof. repeat split; vm_compute; reflexivity. Qed.

(** C8, amended. On an existing vendor (its id a well-formed ObjectId
    under which the vendor is stored), the entry updated is the first one
    whose day equals the requested day up to letter case, both names
    taken to lower case by the runtime. If there is
    none, the call throws BadRequest ("Invalid day") and the collection,
    hence every working-hours entry, is unchanged. Otherwise the returned
    list is the stored list; it differs from the previous one at that
    entry only; the entry keeps its day; [openingTime] and [closingTime]
    are overwritten when the request carries a non-empty text for them and
    kept when it carries none or the empty text; [isActive] is
    overwritten when the request carries it and kept otherwise. *)
Theorem updateWorkingHours_partial_update `{JsRuntime}
    (vs : gmap string Vendor.t) (vendorId : string) (v : Vendor.t) (update : Update.t) :
  ObjectId.isValid vendorId = true ->
  vs !! ObjectId.hex vendorId = Some v ->
  let hours := Vendor.workingHours v in
  let named (h : WorkingHours.t) :=
    toLowerCase (WorkingHours.day h) = toLowerCase (Update.day update) in
  ((forall h, In h hours -> ~ named h) ->
     updateWorkingHours vendorId update vs
     = (Throw (BadRequestException ("Invalid day: " +:+ Update.day update)), vs))
  /\
  ((exists h, In h hours /\ named h) ->
     exists (i : nat) (h h' : WorkingHours.t) (hours' : list WorkingHours.t),
       hours !! i = Some h /\ named h
       /\ (forall j y, (j < i)%nat -> hours !! j = Some y -> ~ named y)
       /\ updateWorkingHours vendorId update vs
          = (Ok hours', <[ObjectId.hex vendorId := Vendor.setWorkingHours hours' v]> vs)
       /\ length hours' = length hours
       /\ hours' !! i = Some h'
       /\ (forall j, j <> i -> hours' !! j = hours !! j)
       /\ WorkingHours.day h' = WorkingHours.day h
       /\ (forall s, Update.openingTime update = Some s -> s <> EmptyString ->
             WorkingHours.openingTime h' = s)
       /\ (Update.openingTime update = None \/ Update.openingTime update = Some EmptyString ->
             WorkingHours.openingTime h' = WorkingHours.openingTime h)
       /\ (forall s, Update.closingTime update = Some s -> s <> EmptyString ->
             WorkingHours.closingTime h' = s)
       /\ (Update.closingTime update = None \/ Update.closingTime update = Some EmptyString ->
             WorkingHours.closingTime h' = WorkingHours.closingTime h)
       /\ (forall b, Update.isActive update = Some b -> WorkingHours.isActive h' = b)
       /\ (Update.isActive update = None ->
             WorkingHours.isActive h' = WorkingHours.isActive h)).
Proof.
  intros Hid Hv hours named. split.
  - intros Hnone.
    assert (Hidx : findIndex (sameDay (Update.day update)) hours = None).
    { apply findIndex_None. intros x Hx.
      destruct (sameDay (Update.day update) x) eqn:E; [|reflexivity].
      apply sameDay_iff in E. exfalso. exact (Hnone x Hx E). }
    unfold updateWorkingHours, bind. rewrite (Model_findById_wellFormed _ _ Hid), Hv.
    cbn [fmap option_fmap option_map]. fold hours. rewrite Hidx. reflexivity.
  - intros (h0 & Hin & Hnamed).
    destruct (findIndex (sameDay (Update.day update)) hours) as [i|] eqn:Hidx.
    2:{ exfalso. pose proof (proj1 (findIndex_None _ _) Hidx h0 Hin) as Hf.
        apply sameDay_iff in Hnamed. congruence. }
    destruct (findIndex_Some _ _ _ Hidx) as (h & Hh & Hph & Hbefore).
    exists i, h, (applyUpdate update h), (alter (applyUpdate update) i hours).
    split; [exact Hh|]. split; [apply sameDay_iff, Hph|].
    split.
    { intros j y Hj Hy Hn. apply sameDay_iff in Hn.
      rewrite (Hbefore j y Hj Hy) in Hn. discriminate. }
    split.
    { unfold updateWorkingHours, bind. rewrite (Model_findById_wellFormed _ _ Hid), Hv.
      cbn [fmap option_fmap option_map]. fold hours. rewrite Hidx. reflexivity. }
    split; [apply length_alter|].
    split; [rewrite list_lookup_alter_eq, Hh; reflexivity|].
    split; [intros j Hj; apply list_lookup_alter_ne; congruence|].
    unfold applyUpdate, assignIfTruthy, assignIfDefined. simpl.
    repeat split.
    + intros s -> Hs. destruct s; [congruence | reflexivity].
    + intros [-> | ->]; reflexivity.
    + intros s -> Hs. destruct s; [congruence | reflexivity].
    + intros [-> | ->]; reflexivity.
    + intros b ->. reflexivity.
    + intros ->. reflexivity.
Qed.

(** The amended statement at the sample kitchen and a request for
    "tuesday" that carries a closing time and the active flag. *)
Lemma updateWorkingHours_partial_update_witness :
  exists (i : nat) (h h' : WorkingHours.t) (hours' : list WorkingHours.t),
    Vendor.workingHours Sample.kitchen !! i = Some h
    /\ returned (updateWorkingHours Sample.vendorId Sample.closeTuesdayEarly Sample.vendorModel)
       = Some hours'
    /\ hours' !! i = Some h'
    /\ WorkingHours.closingTime h' = "14:00"
    /\ WorkingHours.openingTime h' = WorkingHours.openingTime h
    /\ WorkingHours.isActive h' = true.
Proof.
  assert (Hid : ObjectId.isValid Sample.vendorId = true) by (vm_compute; reflexivity).
  assert (Hv : Sample.vendorModel !! ObjectId.hex Sample.vendorId = Some Sample.kitchen)
    by (vm_compute; reflexivity).
  destruct (updateWorkingHours_partial_update
              Sample.vendorModel Sample.vendorId Sample.kitchen
              Sample.closeTuesdayEarly Hid Hv) as [_ Hsome].
  destruct Hsome as (i & h & h' & hours' & Hh & _ & _ & Hrun & _ & Hh' & _ & _
                     & _ & Hopen & Hclose & _ & Hact & _).
  { exists Sample.tuesday. split; [right; left; reflexivity | vm_compute; reflexivity]. }
  exists i, h, h', hours'.
  split; [exact Hh|]. split; [rewrite Hrun; reflexivity|].
  split; [exact Hh'|].
  split; [apply Hclose; [reflexivity | discriminate]|].
  split; [apply Hopen; left; reflexivity|].
  apply Hact. reflexivity.
Defined.

End VendorClaims.

(** ** Order creation *)

Section CreateFacts.
Context `{JsNumber}.
Import OrderService.

(** The item loop only reads the store. *)
Lemma forEachItem_reads (items : list OrderItem.t) (acc : number) (db : Db) :
  snd (forEachItem items acc db) = db.
Proof.
  revert acc. induction items as [|item rest IH]; intros acc; simpl; [reflexivity|].
  unfold bind, MenuService.findOne. simpl.
  destruct (menuItems db !! OrderItem.menuItemId item) as [mi|]; [|reflexivity].
  destruct (MenuItem.isEnabled mi); simpl; [apply IH | reflexivity].
Qed.

(** On items that all resolve and are enabled the loop adds the line
    amounts, left to right, to its accumulator. *)
Lemma forEachItem_orderable (db : Db) (items : list OrderItem.t)
      (found : list MenuItem.t) (acc : number) :
  Forall2 (orderable db) items found ->
  forEachItem items acc db
  = (Ok (fold_left num_add (zip_with lineAmount items found) acc), db).
Proof.
  intros Hall. revert acc.
  induction Hall as [|item mi rest found' [Hmi Hen] _ IH]; intros acc; simpl.
  - reflexivity.
  - unfold bind, MenuService.findOne. simpl. rewrite Hmi, Hen. simpl. apply IH.
Qed.

(** The loop stops at the first item that does not pass. *)
Lemma forEachItem_first_offender (db : Db) (pre post : list OrderItem.t)
      (bad : OrderItem.t) (acc : number) :
  Forall (fun item => exists mi, orderable db item mi) pre ->
  exists acc', forEachItem (pre ++ bad :: post) acc db
               = forEachItem (bad :: post) acc' db.
Proof.
  intros Hpre. revert acc.
  induction Hpre as [|item pre' (mi & Hmi & Hen) _ IH]; intros acc; simpl.
  - exists acc. reflexivity.
  - unfold bind at 1. unfold MenuService.findOne at 1. simpl.
    rewrite Hmi, Hen. simpl. apply IH.
Qed.

(** A loop that returns has found every item orderable. *)
Lemma forEachItem_Ok (db db' : Db) (items : list OrderItem.t) (acc total : number) :
  forEachItem items acc db = (Ok total, db') ->
  Forall (fun item => exists mi, orderable db item mi) items.
Proof.
  revert acc. induction items as [|item rest IH]; intros acc Hrun; [constructor|].
  simpl in Hrun. unfold bind, MenuService.findOne in Hrun. simpl in Hrun.
  destruct (menuItems db !! OrderItem.menuItemId item) as [mi|] eqn:Hmi;
    [|discriminate].
  destruct (MenuItem.isEnabled mi) eqn:Hen; simpl in Hrun; [|discriminate].
  constructor; [exists mi; split; assumption | eapply IH; exact Hrun].
Qed.

(** Items that all pass resolve to a list of menu items. *)
Lemma orderable_found (db : Db) (items : list OrderItem.t) :
  Forall (fun item => exists menuItem, orderable db item menuItem) items ->
  exists found, Forall2 (orderable db) items found.
Proof.
  induction 1 as [|item rest [menuItem Hitem] _ [found Hfound]].
  - exists []. constructor.
  - exists (menuItem :: found). constructor; assumption.
Qed.

(** [create] once the customer and the vendor have been looked up. *)
Lemma create_after_lookups (db : Db) (generated : string) (now : Z)
      (userId : string) (dto : CreateOrderDto.t)
      (customer : Customer.t) (vendor : Vendor.t) :
  customers db !! userId = Some customer ->
  vendorOf db dto vendor ->
  create generated now userId dto db
  = if negb (Vendor.isStoreOpen vendor) then
      (Throw (BadRequestException "Vendor store is currently closed"), db)
    else
      match forEachItem (CreateOrderDto.items dto) num_zero db with
      | (Ok totalAmount, _) =>
          let order :=
            {| Order.orderId := "ST-" +:+ generated;
               Order.customerId := userId;
               Order.vendorId := CreateOrderDto.vendorId dto;
               Order.customerName := Customer.fullName customer;
               Order.phoneNumber := CreateOrderDto.phoneNumber dto;
               Order.deliveryType := CreateOrderDto.deliveryType dto;
               Order.location := CreateOrderDto.location dto;
               Order.address := CreateOrderDto.address dto;
               Order.items := CreateOrderDto.items dto;
               Order.totalAmount := totalAmount;
               Order.status := PENDING;
               Order.notes := CreateOrderDto.notes dto;
               Order.isDeleted := Some false;
               Order.createdAt := now |} in
          (Ok order, withOrder db order)
      | (Throw e, _) => (Throw e, db)
      end.
Proof.
  intros Hc [Hid Hv].
  unfold create, bind at 1. unfold CustomerService.findById at 1. rewrite Hc.
  unfold bind at 1. unfold liftVendor. rewrite (findById_wellFormed _ _ Hid), Hv.
  cbn [fmap option_fmap option_map Vendor.withoutPassword Vendor.isStoreOpen].
  destruct (Vendor.isStoreOpen vendor); simpl; [|destruct db; reflexivity].
  unfold bind at 1.
  pose proof (forEachItem_reads (CreateOrderDto.items dto) num_zero
                (mkDb (customers db) (vendors db) (menuItems db) (orders db))) as Hst.
  destruct db as [cs vs ms os]; simpl in *.
  destruct (forEachItem (CreateOrderDto.items dto) num_zero (mkDb cs vs ms os))
    as [[total|e] db'] eqn:Hloop; simpl in Hst; subst db'; reflexivity.
Qed.

End CreateFacts.

Section CreateClaims.
Context `{JsNumber}.
Import OrderService.

Lemma create_unknown_customer (db : Db) (generated : string) (now : Z)
      (userId : string) (dto : CreateOrderDto.t) :
  customers db !! userId = None ->
  create generated now userId dto db
  = (Throw (NotFoundException "Customer not found"), db).
Proof.
  intros Hc. unfold create, bind at 1. unfold CustomerService.findById at 1.
  rewrite Hc. reflexivity.
Qed.

Lemma create_unknown_vendor (db : Db) (generated : string) (now : Z)
      (userId : string) (dto : CreateOrderDto.t) (customer : Customer.t) :
  customers db !! userId = Some customer ->
  ObjectId.isValid (CreateOrderDto.vendorId dto) = true ->
  vendors db !! ObjectId.hex (CreateOrderDto.vendorId dto) = None ->
  create generated now userId dto db
  = (Throw (NotFoundException "Vendor not found"), db).
Proof.
  intros Hc Hid Hv. unfold create, bind at 1. unfold CustomerService.findById at 1.
  rewrite Hc. unfold bind at 1. unfold liftVendor.
  rewrite (findById_wellFormed _ _ Hid), Hv. simpl. destruct db; reflexivity.
Qed.

Lemma create_malformed_vendor (db : Db) (generated : string) (now : Z)
      (userId : string) (dto : CreateOrderDto.t) (customer : Customer.t) :
  customers db !! userId = Some customer ->
  ObjectId.isValid (CreateOrderDto.vendorId dto) = false ->
  exists message,
    create generated now userId dto db = (Throw (CastError message), db).
Proof.
  intros Hc Hid.
  destruct (findById_malformed (vendors db) _ Hid) as [message Hcast].
  exists message. unfold create, bind at 1. unfold CustomerService.findById at 1.
  rewrite Hc. unfold bind at 1. unfold liftVendor. rewrite Hcast.
  destruct db; reflexivity.
Qed.

(** A call that passes every check returns the order it inserts. *)
Lemma create_valid_call
    (db : Db) (generated : string) (now : Z) (userId : string)
    (dto : CreateOrderDto.t) (customer : Customer.t) (vendor : Vendor.t)
    (found : list MenuItem.t) :
  customers db !! userId = Some customer ->
  vendorOf db dto vendor ->
  Vendor.isStoreOpen vendor = true ->
  Forall2 (orderable db) (CreateOrderDto.items dto) found ->
  exists order,
    create generated now userId dto db = (Ok order, withOrder db order)
    /\ Order.totalAmount order
       = sumOf (zip_with lineAmount (CreateOrderDto.items dto) found)
    /\ Order.status order = PENDING.
Proof.
  intros Hc Hv Hopen Hitems.
  rewrite (create_after_lookups db generated now userId dto customer vendor Hc Hv).
  rewrite Hopen. simpl.
  rewrite (forEachItem_orderable db _ found num_zero Hitems).
  eexists. split; [reflexivity|]. split; reflexivity.
Qed.

(** C10. When the customer and the vendor resolve and the store is open,
    an empty item list passes the loop: an order is inserted with
    [totalAmount] zero and status [PENDING]. *)
Theorem create_accepts_empty_items
    (db : Db) (generated : string) (now : Z) (userId : string)
    (dto : CreateOrderDto.t) (customer : Customer.t) (vendor : Vendor.t) :
  customers db !! userId = Some customer ->
  vendorOf db dto vendor ->
  Vendor.isStoreOpen vendor = true ->
  CreateOrderDto.items dto = [] ->
  exists order,
    create generated now userId dto db = (Ok order, withOrder db order)
    /\ orders (withOrder db order) = (orders db ++ [order])%list
    /\ Order.items order = []
    /\ Order.totalAmount order = num_zero
    /\ Order.status order = PENDING.
Proof.
  intros Hc Hv Hopen Hitems.
  rewrite (create_after_lookups db generated now userId dto customer vendor Hc Hv).
  rewrite Hopen, Hitems. simpl.
  eexists. split; [reflexivity|]. repeat split.
Qed.

(** C3, amended. Once the customer has resolved: if the vendor id is a
    well-formed ObjectId under which no vendor is stored, the call throws
    NotFound "Vendor not found"; if a vendor is stored under it and has
    [isStoreOpen = false], the call throws BadRequest "Vendor store is
    currently closed" whatever the items are, so that no item is looked
    at and no item error is reported; if the vendor id is not a
    well-formed ObjectId, the call throws the [CastError] of the id cast.
    In each case nothing is written. *)
Theorem create_vendor_checks
    (db : Db) (generated : string) (now : Z) (userId : string)
    (dto : CreateOrderDto.t) (customer : Customer.t) :
  customers db !! userId = Some customer ->
  (ObjectId.isValid (CreateOrderDto.vendorId dto) = true ->
   vendors db !! ObjectId.hex (CreateOrderDto.vendorId dto) = None ->
     create generated now userId dto db
     = (Throw (NotFoundException "Vendor not found"), db))
  /\
  (forall vendor,
     vendorOf db dto vendor ->
     Vendor.isStoreOpen vendor = false ->
     create generated now userId dto db
     = (Throw (BadRequestException "Vendor store is currently closed"), db)
     /\ forall items,
          create generated now userId
            (CreateOrderDto.mk (CreateOrderDto.vendorId dto)
               (CreateOrderDto.phoneNumber dto) (CreateOrderDto.deliveryType dto)
               (CreateOrderDto.location dto) (CreateOrderDto.address dto)
               items (CreateOrderDto.notes dto)) db
          = create generated now userId dto db)
  /\
  (ObjectId.isValid (CreateOrderDto.vendorId dto) = false ->
   length (Text.chars (CreateOrderDto.vendorId dto)) <> 12%nat ->
     exists message,
       create generated now userId dto db = (Throw (CastError message), db)).
Proof.
  intros Hc. split; [|split].
  - intros Hid Hv. exact (create_unknown_vendor db generated now userId dto customer Hc Hid Hv).
  - intros vendor Hv Hclosed.
    assert (Hrun : forall dto', vendorOf db dto' vendor ->
                     create generated now userId dto' db
                     = (Throw (BadRequestException "Vendor store is currently closed"), db)).
    { intros dto' Hv'.
      rewrite (create_after_lookups db generated now userId dto' customer vendor Hc Hv').
      rewrite Hclosed. reflexivity. }
    split; [exact (Hrun dto Hv)|]. intros items.
    rewrite (Hrun dto Hv). apply Hrun. exact Hv.
  - intros Hid _. exact (create_malformed_vendor db generated now userId dto customer Hc Hid).
Qed.

(** C4. Once the customer and the vendor have resolved and the store is
    open, the items are checked in submission order and the first one
    that does not pass decides the error: after items that all resolve
    and are enabled, an item whose id does not resolve makes the call
    throw NotFound with that id in the message, and an item that resolves
    to a disabled menu item makes it throw BadRequest with the menu item's
    name in the message, whatever follows in the list. Nothing is
    written. *)
Theorem create_first_offending_item
    (db : Db) (generated : string) (now : Z) (userId : string)
    (dto : CreateOrderDto.t) (customer : Customer.t) (vendor : Vendor.t)
    (pre post : list OrderItem.t) (bad : OrderItem.t) :
  customers db !! userId = Some customer ->
  vendorOf db dto vendor ->
  Vendor.isStoreOpen vendor = true ->
  CreateOrderDto.items dto = (pre ++ bad :: post)%list ->
  Forall (fun item => exists menuItem, orderable db item menuItem) pre ->
  (menuItems db !! OrderItem.menuItemId bad = None ->
     create generated now userId dto db
     = (Throw (NotFoundException
                 ("Menu item " +:+ OrderItem.menuItemId bad +:+ " not found")), db))
  /\
  (forall menuItem,
     menuItems db !! OrderItem.menuItemId bad = Some menuItem ->
     MenuItem.isEnabled menuItem = false ->
     create generated now userId dto db
     = (Throw (BadRequestException
                 ("Menu item " +:+ MenuItem.name menuItem +:+ " is not available")), db)).
Proof.
  intros Hc Hv Hopen Hitems Hpre.
  rewrite (create_after_lookups db generated now userId dto customer vendor Hc Hv).
  rewrite Hopen, Hitems. simpl.
  destruct (forEachItem_first_offender db pre post bad num_zero Hpre) as [acc Hskip].
  rewrite Hskip. simpl. unfold bind, MenuService.findOne. simpl.
  split.
  - intros Hbad. rewrite Hbad. reflexivity.
  - intros mi Hbad Hdis. rewrite Hbad, Hdis. reflexivity.
Qed.

(** The outcomes of [create], by what the lookups find. *)
Lemma create_outcomes
    (db : Db) (generated : string) (now : Z) (userId : string)
    (dto : CreateOrderDto.t) :
  match create generated now userId dto db with
  | (Ok order, db') =>
      db' = withOrder db order
      /\ (exists customer, customers db !! userId = Some customer)
      /\ (exists vendor, vendorOf db dto vendor /\ Vendor.isStoreOpen vendor = true)
      /\ Forall (fun item => exists menuItem, orderable db item menuItem)
                (CreateOrderDto.items dto)
  | (Throw _, db') => db' = db
  end.
Proof.
  destruct (customers db !! userId) as [c|] eqn:Hc.
  2:{ rewrite (create_unknown_customer db generated now userId dto Hc). reflexivity. }
  destruct (ObjectId.isValid (CreateOrderDto.vendorId dto)) eqn:Hid.
  2:{ destruct (create_malformed_vendor db generated now userId dto c Hc Hid)
        as [message ->]. reflexivity. }
  destruct (vendors db !! ObjectId.hex (CreateOrderDto.vendorId dto)) as [v|] eqn:Hv.
  2:{ rewrite (create_unknown_vendor db generated now userId dto c Hc Hid Hv). reflexivity. }
  rewrite (create_after_lookups db generated now userId dto c v Hc (conj Hid Hv)).
  destruct (Vendor.isStoreOpen v) eqn:Hopen; simpl; [|reflexivity].
  destruct (forEachItem (CreateOrderDto.items dto) num_zero db) as [[total|e] db'] eqn:Hloop;
    [|reflexivity].
  split; [reflexivity|].
  split; [exists c; reflexivity|].
  split; [exists v; split; [split; assumption | exact Hopen]|].
  eapply forEachItem_Ok. exact Hloop.
Qed.

(** C5. [create] writes all or nothing. When the customer resolves, the
    vendor is stored and open and every item resolves to an enabled menu
    item, the call returns an order, and the store is the previous one
    with that order inserted once, at the end of the order collection.
    Conversely, when the call returns, all those checks had passed and
    the store is the previous one with the returned order inserted once.
    When it throws, the store is unchanged. *)
Theorem create_is_atomic
    (db : Db) (generated : string) (now : Z) (userId : string)
    (dto : CreateOrderDto.t) :
  (forall customer vendor,
     customers db !! userId = Some customer ->
     vendorOf db dto vendor ->
     Vendor.isStoreOpen vendor = true ->
     Forall (fun item => exists menuItem, orderable db item menuItem)
            (CreateOrderDto.items dto) ->
     exists order,
       create generated now userId dto db = (Ok order, withOrder db order)
       /\ customers (withOrder db order) = customers db
       /\ vendors (withOrder db order) = vendors db
       /\ menuItems (withOrder db order) = menuItems db
       /\ orders (withOrder db order) = (orders db ++ [order])%list
       /\ length (orders (withOrder db order)) = S (length (orders db)))
  /\
  match create generated now userId dto db with
  | (Ok order, db') =>
      db' = withOrder db order
      /\ orders db' = (orders db ++ [order])%list
      /\ (exists customer, customers db !! userId = Some customer)
      /\ (exists vendor, vendorOf db dto vendor /\ Vendor.isStoreOpen vendor = true)
      /\ Forall (fun item => exists menuItem, orderable db item menuItem)
                (CreateOrderDto.items dto)
  | (Throw _, db') => db' = db
  end.
Proof.
  split.
  - intros customer vendor Hc Hv Hopen Hitems.
    destruct (orderable_found db _ Hitems) as [found Hfound].
    destruct (create_valid_call db generated now userId dto customer vendor found
                Hc Hv Hopen Hfound) as (order & Hrun & _).
    exists order. split; [exact Hrun|]. cbn [withOrder customers vendors menuItems orders].
    repeat split. rewrite length_app. simpl. lia.
  - pose proof (create_outcomes db generated now userId dto) as Hout.
    destruct (create generated now userId dto db) as [[order|e] db']; [|exact Hout].
    destruct Hout as (Hdb & Hc & Hv & Hitems).
    split; [exact Hdb|]. split; [subst db'; reflexivity|]. auto.
Qed.

End CreateClaims.

Section CreateOverDoubles.
Import OrderService.

(** C1, amended. When the customer and the vendor resolve, the vendor's
    store is open and every submitted item resolves to an enabled menu
    item, the call returns an order and inserts it; its [totalAmount] is
    the sum, over the submitted items in their order, of the price read
    from the catalogue times the quantity, computed in double-precision
    arithmetic from 0: each product and each partial sum is rounded to
    the nearest double. Its status is [PENDING]. *)
Theorem create_totalAmount_is_double_sum
    (db : Db) (generated : string) (now : Z) (userId : string)
    (dto : CreateOrderDto.t) (customer : Customer.t) (vendor : Vendor.t)
    (found : list MenuItem.t) :
  customers db !! userId = Some customer ->
  vendorOf db dto vendor ->
  Vendor.isStoreOpen vendor = true ->
  Forall2 (orderable db) (CreateOrderDto.items dto) found ->
  exists order,
    create generated now userId dto db = (Ok order, withOrder db order)
    /\ orders (withOrder db order) = (orders db ++ [order])%list
    /\ Order.totalAmount order
       = fold_left PrimFloat.add
           (zip_with (fun item menuItem =>
                        PrimFloat.mul (MenuItem.price menuItem) (OrderItem.quantity item))
              (CreateOrderDto.items dto) found)
           0%float
    /\ Order.status order = PENDING.
Proof.
  intros Hc Hv Hopen Hitems.
  destruct (create_valid_call db generated now userId dto customer vendor found
              Hc Hv Hopen Hitems) as (order & Hrun & Htotal & Hstatus).
  exists order. split; [exact Hrun|]. split; [reflexivity|].
  split; [exact Htotal | exact Hstatus].
Qed.

End CreateOverDoubles.

(** *** The statements at the sample store *)

Section CreateSamples.
Import OrderService.

(** C1, as the spec words it, read at an order of one gram of pepper at
    0.1 and one gram of ginger at 0.2: every check passes and the order
    is stored, but its [totalAmount] is the double next above the exact
    sum of the two amounts. *)
Lemma create_total_is_not_the_exact_sum :
  customers Sample.db !! "cust-1" = Some Sample.ada
  /\ vendorOf Sample.db (Sample.order Sample.openVendorId Sample.spices) Sample.buka
  /\ Vendor.isStoreOpen Sample.buka = true
  /\ Forall2 (orderable Sample.db) Sample.spices [Sample.pepper; Sample.ginger]
  /\ exists order total sum,
       create Sample.generated Sample.now "cust-1"
         (Sample.order Sample.openVendorId Sample.spices) Sample.db
       = (Ok order, withOrder Sample.db order)
       /\ exactValue (Order.totalAmount order) = Some total
       /\ exactSum [(MenuItem.price Sample.pepper, OrderItem.quantity Sample.pepperOnce);
                    (MenuItem.price Sample.ginger, OrderItem.quantity Sample.gingerOnce)]
          = Some sum
       /\ (sum < total)%Q.
Proof.
  assert (Hc : customers Sample.db !! "cust-1" = Some Sample.ada)
    by (vm_compute; reflexivity).
  assert (Hv : vendorOf Sample.db (Sample.order Sample.openVendorId Sample.spices)
                 Sample.buka) by (split; vm_compute; reflexivity).
  assert (Hitems : Forall2 (orderable Sample.db) Sample.spices
                     [Sample.pepper; Sample.ginger])
    by (repeat constructor; vm_compute; reflexivity).
  split; [exact Hc|]. split; [exact Hv|]. split; [reflexivity|]. split; [exact Hitems|].
  destruct (create_valid_call Sample.db Sample.generated Sample.now "cust-1"
              (Sample.order Sample.openVendorId Sample.spices)
              Sample.ada Sample.buka [Sample.pepper; Sample.ginger]
              Hc Hv eq_refl Hitems) as (order & Hrun & Htotal & _).
  exists order. rewrite Htotal. do 2 eexists.
  split; [exact Hrun|]. split; [vm_compute; reflexivity|].
  split; [vm_compute; reflexivity|]. vm_compute. reflexivity.
Qed.

(** The spec example: jollof at 500 twice and chicken at 300 once, at an
    open vendor, give an order of 1300 in status [PENDING]. *)
Lemma create_totalAmount_is_double_sum_witness :
  exists order,
    create Sample.generated Sample.now "cust-1"
      (Sample.order Sample.openVendorId Sample.twoLines) Sample.db
    = (Ok order, withOrder Sample.db order)
    /\ Order.totalAmount order = 1300%float
    /\ Order.status order = PENDING.
Proof.
  destruct (create_totalAmount_is_double_sum Sample.db Sample.generated Sample.now "cust-1"
              (Sample.order Sample.openVendorId Sample.twoLines)
              Sample.ada Sample.buka [Sample.jollof; Sample.chicken])
    as (order & Hrun & _ & Htotal & Hstatus).
  - vm_compute; reflexivity.
  - split; vm_compute; reflexivity.
  - reflexivity.
  - repeat constructor; vm_compute; reflexivity.
  - exists order. split; [exact Hrun|]. split; [|exact Hstatus].
    rewrite Htotal. reflexivity.
Defined.

Lemma create_accepts_empty_items_witness :
  exists order,
    create Sample.generated Sample.now "cust-1"
      (Sample.order Sample.openVendorId []) Sample.db
    = (Ok order, withOrder Sample.db order)
    /\ Order.totalAmount order = 0%float
    /\ Order.status order = PENDING.
Proof.
  destruct (create_accepts_empty_items Sample.db Sample.generated Sample.now "cust-1"
              (Sample.order Sample.openVendorId []) Sample.ada Sample.buka)
    as (order & Hrun & _ & _ & Htotal & Hstatus).
  - vm_compute; reflexivity.
  - split; vm_compute; reflexivity.
  - reflexivity.
  - reflexivity.
  - exists order. split; [exact Hrun|]. split; [exact Htotal | exact Hstatus].
Defined.

(** C3, as the spec words it, read at the vendor id [vendor-7]: the
    customer resolves and no vendor is stored under the id, so it does
    not resolve; the call throws the [CastError] of the id cast, which is
    no NotFound. *)
Lemma create_malformed_vendor_id_is_no_NotFound :
  customers Sample.db !! "cust-1" = Some Sample.ada
  /\ (forall v, vendors Sample.db !! "vendor-7" <> Some v)
  /\ (exists message,
        create Sample.generated Sample.now "cust-1"
          (Sample.order "vendor-7" Sample.twoLines) Sample.db
        = (Throw (CastError message), Sample.db))
  /\ isNotFound (fst (create Sample.generated Sample.now "cust-1"
                        (Sample.order "vendor-7" Sample.twoLines) Sample.db))
     = false.
Proof.
  split; [vm_compute; reflexivity|].
  split; [intros v; vm_compute; discriminate|].
  split; [eexists; vm_compute; reflexivity | vm_compute; reflexivity].
Qed.

(** The amended statement at the sample store: a well-formed id without
    a vendor, the closed kitchen asked for an item that does not exist,
    and the malformed id. *)
Lemma create_vendor_checks_witness :
  create Sample.generated Sample.now "cust-1"
    (Sample.order Sample.unknownVendorId Sample.twoLines) Sample.db
  = (Throw (NotFoundException "Vendor not found"), Sample.db)
  /\ create Sample.generated Sample.now "cust-1"
       (Sample.order Sample.vendorId [Sample.ghostOnce]) Sample.db
     = (Throw (BadRequestException "Vendor store is currently closed"), Sample.db)
  /\ exists message,
       create Sample.generated Sample.now "cust-1"
         (Sample.order "vendor-7" Sample.twoLines) Sample.db
       = (Throw (CastError message), Sample.db).
Proof.
  assert (Hc : customers Sample.db !! "cust-1" = Some Sample.ada)
    by (vm_compute; reflexivity).
  split; [|split].
  - apply (proj1 (create_vendor_checks Sample.db Sample.generated Sample.now "cust-1"
                    (Sample.order Sample.unknownVendorId Sample.twoLines) Sample.ada Hc));
      vm_compute; reflexivity.
  - apply (proj1 (proj2 (create_vendor_checks Sample.db Sample.generated Sample.now
                           "cust-1" (Sample.order Sample.vendorId [Sample.ghostOnce])
                           Sample.ada Hc))
             Sample.kitchen); [split|]; vm_compute; reflexivity.
  - apply (proj2 (proj2 (create_vendor_checks Sample.db Sample.generated Sample.now
                           "cust-1" (Sample.order "vendor-7" Sample.twoLines)
                           Sample.ada Hc)));
      [vm_compute; reflexivity | vm_compute; discriminate].
Defined.

(** A call that passes every check, at the sample store. *)
Lemma create_is_atomic_witness :
  exists order,
    create Sample.generated Sample.now "cust-1"
      (Sample.order Sample.openVendorId Sample.twoLines) Sample.db
    = (Ok order, withOrder Sample.db order)
    /\ orders (withOrder Sample.db order) = [order]
    /\ length (orders (withOrder Sample.db order)) = 1%nat.
Proof.
  destruct (proj1 (create_is_atomic Sample.db Sample.generated Sample.now "cust-1"
                     (Sample.order Sample.openVendorId Sample.twoLines))
              Sample.ada Sample.buka)
    as (order & Hrun & _ & _ & _ & Horders & Hlength).
  - vm_compute; reflexivity.
  - split; vm_compute; reflexivity.
  - reflexivity.
  - repeat constructor; [exists Sample.jollof | exists Sample.chicken];
      split; vm_compute; reflexivity.
  - exists order. split; [exact Hrun|]. split; [exact Horders | exact Hlength].
Defined.

Lemma create_first_offending_item_witness :
  create Sample.generated Sample.now "cust-1"
    (Sample.order Sample.openVendorId
       [Sample.jollofTwice; Sample.ghostOnce; Sample.suyaOnce])
    Sample.db
  = (Throw (NotFoundException "Menu item m-ghost not found"), Sample.db)
  /\ create Sample.generated Sample.now "cust-1"
       (Sample.order Sample.openVendorId
          [Sample.jollofTwice; Sample.suyaOnce; Sample.ghostOnce])
       Sample.db
     = (Throw (BadRequestException "Menu item Suya is not available"), Sample.db).
Proof.
  split.
  - apply (create_first_offending_item Sample.db Sample.generated Sample.now "cust-1"
             (Sample.order Sample.openVendorId
                [Sample.jollofTwice; Sample.ghostOnce;
                 Sample.suyaOnce])
             Sample.ada Sample.buka
             [Sample.jollofTwice] [Sample.suyaOnce]
             Sample.ghostOnce).
    + vm_compute; reflexivity.
    + split; vm_compute; reflexivity.
    + reflexivity.
    + reflexivity.
    + repeat constructor. exists Sample.jollof. split; vm_compute; reflexivity.
    + vm_compute; reflexivity.
  - apply (proj2 (create_first_offending_item Sample.db Sample.generated Sample.now
                    "cust-1"
                    (Sample.order Sample.openVendorId
                       [Sample.jollofTwice; Sample.suyaOnce;
                        Sample.ghostOnce])
                    Sample.ada Sample.buka
                    [Sample.jollofTwice] [Sample.ghostOnce]
                    Sample.suyaOnce
                    ltac:(vm_compute; reflexivity)
                    ltac:(split; vm_compute; reflexivity)
                    eq_refl eq_refl
                    ltac:(repeat constructor; exists Sample.jollof;
                          split; vm_compute; reflexivity))
             Sample.suya); vm_compute; reflexivity.
Defined.

End CreateSamples.
(** ** Vendor order queries *)

Section SampleEngineFacts.

Lemma chars_of_list (l : list ascii) : Text.chars (string_of_list_ascii l) = l.
Proof. apply list_ascii_of_string_of_list_ascii. Qed.

Lemma chars_toLowerCase (s : string) :
  Text.chars (Ascii7.toLowerCase s) = map Ascii7.lowerChar (Text.chars s).
Proof. unfold Ascii7.toLowerCase. apply chars_of_list. Qed.

(** A plain term compiles to its characters. *)
Lemma compileChars_plain (p : list ascii) :
  Forall (fun c => isSpecial c = false) p ->
  Regex.compileChars p = Some (map Regex.Chr p).
Proof.
  induction 1 as [|c p Hc _ IH]; simpl; [reflexivity|].
  assert (Hdot : Ascii.eqb c "."%char = false).
  { destruct (Ascii.eqb c ".") eqn:E; [|reflexivity].
    apply Ascii.eqb_eq in E. subst c. vm_compute in Hc. discriminate. }
  rewrite Hdot, Hc, IH. reflexivity.
Qed.

(** Matching literal characters at the head of the subject is a
    comparison of prefixes, letter case apart. *)
Lemma matchHere_literal (t s : list ascii) :
  Regex.matchHere (map Regex.Chr t) s = true
  <-> exists after, map Ascii7.lowerChar s = (map Ascii7.lowerChar t ++ after)%list.
Proof.
  revert s. induction t as [|x t IH]; intros s; simpl.
  - split; [intros _; eexists; reflexivity | reflexivity].
  - destruct s as [|c s]; simpl.
    + split; [discriminate | intros [after Habs]; discriminate].
    + rewrite andb_true_iff, Ascii.eqb_eq, IH. split.
      * intros [Hx [after Hs]]. exists after. rewrite Hx, Hs. reflexivity.
      * intros [after Hs]. inversion Hs as [[Hx Hrest]]. split; [reflexivity|].
        exists after. exact Hrest.
Qed.

(** Searching for literal characters finds them as a substring. *)
Lemma search_literal (t s : list ascii) :
  Regex.search (map Regex.Chr t) s = true
  <-> exists before after,
        map Ascii7.lowerChar s = (before ++ map Ascii7.lowerChar t ++ after)%list.
Proof.
  induction s as [|c s IH].
  - simpl. rewrite orb_false_r, matchHere_literal. split.
    + intros [after Hs]. exists [], after. exact Hs.
    + intros (before & after & Hs). destruct before; [|discriminate].
      exists after. exact Hs.
  - cbn [Regex.search]. rewrite orb_true_iff, matchHere_literal, IH. split.
    + intros [[after Hs] | (before & after & Hs)].
      * exists [], after. exact Hs.
      * exists (Ascii7.lowerChar c :: before), after. simpl. rewrite Hs. reflexivity.
    + intros (before & after & Hs). destruct before as [|b before].
      * left. exists after. exact Hs.
      * right. exists before, after. simpl in Hs. inversion Hs. reflexivity.
Qed.

(** The sample database matches plain terms as substrings. *)
Lemma sample_database_matches_plain_terms : matchesPlainTermsAsSubstrings.
Proof.
  intros term Hplain. exists (Regex.test (map Regex.Chr (Text.chars term))). split.
  - cbn [regex Sample.database]. unfold Regex.matcher, Regex.compile.
    rewrite (compileChars_plain _ Hplain). reflexivity.
  - intros subject. unfold Regex.test, occursIn. cbn [toLowerCase Sample.runtime].
    rewrite search_literal, !chars_toLowerCase. reflexivity.
Qed.

End SampleEngineFacts.

Section ObjectIdFacts.

Ltac every_char c :=
  destruct c as [[|] [|] [|] [|] [|] [|] [|] [|]].

(** A character has a digit value exactly when it is a hexadecimal
    digit, and its value does not depend on its case. *)
Lemma digitValue_isHexDigit (c : ascii) :
  ObjectId.isHexDigit c = true <-> exists v, digitValue c = Some v.
Proof.
  every_char c; vm_compute; split;
    solve [ intros _; eexists; reflexivity | reflexivity | discriminate
          | intros [v Hv]; discriminate ].
Qed.

Lemma digitValue_lowerDigit (c : ascii) :
  digitValue (ObjectId.lowerDigit c) = digitValue c.
Proof. every_char c; reflexivity. Qed.

(** The digits [0] to [9] and [a] to [f], by value. *)
Lemma lowerDigit_of_value (c : ascii) (v : nat) :
  digitValue c = Some v ->
  ObjectId.lowerDigit c = nth v (Text.chars "0123456789abcdef") "0"%char.
Proof.
  every_char c; vm_compute; intros Hv; solve [discriminate | inversion Hv; reflexivity].
Qed.

(** Two texts have the same digit values position by position exactly
    when both are hexadecimal digits throughout and equal once in lower
    case. *)
Lemma sameDigits_chars (a b : list ascii) :
  Forall2 (fun x y => exists v, digitValue x = Some v /\ digitValue y = Some v) a b
  <-> forallb ObjectId.isHexDigit a = true
      /\ forallb ObjectId.isHexDigit b = true
      /\ map ObjectId.lowerDigit a = map ObjectId.lowerDigit b.
Proof.
  revert b. induction a as [|x a IH]; intros [|y b]; simpl.
  - split; [intros _; repeat split | constructor].
  - split; [intros Habs; inversion Habs | intros (_ & _ & Habs); discriminate].
  - split; [intros Habs; inversion Habs | intros (_ & _ & Habs); discriminate].
  - rewrite Forall2_cons, IH, !andb_true_iff. split.
    + intros [(v & Hx & Hy) (Ha & Hb & Hab)].
      split; [split; [apply digitValue_isHexDigit; eauto | exact Ha]|].
      split; [split; [apply digitValue_isHexDigit; eauto | exact Hb]|].
      rewrite (lowerDigit_of_value x v Hx), (lowerDigit_of_value y v Hy), Hab.
      reflexivity.
    + intros ([Hx Ha] & [Hy Hb] & Hab). inversion Hab as [[Hxy Hrest]].
      split; [|auto].
      apply digitValue_isHexDigit in Hx as [v Hv]. exists v. split; [exact Hv|].
      rewrite <- (digitValue_lowerDigit y), <- Hxy, digitValue_lowerDigit. exact Hv.
Qed.

End ObjectIdFacts.

Section ArithmeticFacts.

(** [Math.ceil] of a finite double is the ceiling of the rational it
    stands for. *)
Lemma ceil_exactValue (f : float) (q : Q) :
  exactValue f = Some q -> Js.ceil f = Js.Int (Qceiling q).
Proof.
  unfold exactValue, Js.ceil. destruct (Prim2SF f); intros Hq; inversion Hq; reflexivity.
Qed.

Lemma ceilDiv_pos (a b : Z) : 0 < b -> Js.ceilDiv a b = - ((- a) / b).
Proof.
  intros Hb. destruct b as [|p|p]; try lia.
  unfold Js.ceilDiv, Qceiling, Qfloor, Qdiv, Qinv, Qmult, Qopp, inject_Z. simpl.
  rewrite Z.mul_1_r. reflexivity.
Qed.

(** [Math.ceil(a / b)] is the least integer [n] with [a <= n * b]. *)
Lemma ceilDiv_spec (a b : Z) :
  0 < b ->
  a <= Js.ceilDiv a b * b /\ (Js.ceilDiv a b - 1) * b < a.
Proof.
  intros Hb. rewrite ceilDiv_pos by exact Hb.
  pose proof (Z.div_mod (- a) b ltac:(lia)) as Hdm.
  pose proof (Z.mod_pos_bound (- a) b Hb) as Hmod.
  split; nia.
Qed.

(** On doubles, below implies not above. *)
Lemma ltb_leb (x y : float) : PrimFloat.ltb x y = true -> PrimFloat.leb x y = true.
Proof.
  rewrite ltb_spec, leb_spec. unfold SFltb, SFleb.
  destruct (SFcompare _ _) as [[]|]; congruence.
Qed.

Lemma limitNumber_bounds (limit : option Js.num) : 1 <= limitNumber limit <= 100.
Proof.
  unfold limitNumber. destruct limit as [[|z|f]|]; try lia.
  destruct (Z.eqb z 0); lia.
Qed.

Lemma pageNumber_at_least_1 (page : option Js.num) : 1 <= pageNumber page.
Proof. unfold pageNumber. destruct page as [[|z|f]|]; lia. Qed.

Lemma parsePage_whole (page : option Js.num) :
  whole page -> OrderService.parsePage page = Js.Int (pageNumber page).
Proof.
  unfold OrderService.parsePage, pageNumber, Js.param, Js.orElse, Js.falsy.
  destruct page as [[|z|f]|]; intros Hw; try reflexivity; [|contradiction].
  destruct (Z.eqb z 0) eqn:E; simpl; [|reflexivity].
  apply Z.eqb_eq in E. subst z. reflexivity.
Qed.

Lemma parseLimit_whole (limit : option Js.num) :
  whole limit -> OrderService.parseLimit limit = Js.Int (limitNumber limit).
Proof.
  unfold OrderService.parseLimit, limitNumber, Js.param, Js.orElse, Js.falsy.
  destruct limit as [[|z|f]|]; intros Hw; try reflexivity; [|contradiction].
  destruct (Z.eqb z 0); reflexivity.
Qed.

(** A page that is no whole number: kept when it is above 1, and 1
    otherwise. *)
Lemma parsePage_Float (f : float) :
  OrderService.parsePage (Some (Js.Float f))
  = if (PrimFloat.is_nan f || PrimFloat.is_zero f)%bool then Js.Int 1
    else if PrimFloat.ltb (Js.ofZ 1) f then Js.Float f else Js.Int 1.
Proof.
  unfold OrderService.parsePage, Js.param, Js.orElse, Js.falsy.
  destruct (PrimFloat.is_nan f) eqn:Hnan; [reflexivity|]. simpl.
  destruct (PrimFloat.is_zero f); [reflexivity|]. simpl. rewrite Hnan. reflexivity.
Qed.

(** A limit that is no whole number: kept when it is between 1 and 100,
    and otherwise the bound it passes, or 10 for [NaN] and zero. *)
Lemma parseLimit_Float (f : float) :
  OrderService.parseLimit (Some (Js.Float f))
  = if (PrimFloat.is_nan f || PrimFloat.is_zero f)%bool then Js.Int 10
    else if PrimFloat.ltb (Js.ofZ 1) f then
           if PrimFloat.ltb f (Js.ofZ 100) then Js.Float f else Js.Int 100
         else Js.Int 1.
Proof.
  unfold OrderService.parseLimit, Js.param, Js.orElse, Js.falsy.
  destruct (PrimFloat.is_nan f) eqn:Hnan; [reflexivity|]. simpl.
  destruct (PrimFloat.is_zero f); [reflexivity|]. simpl. rewrite Hnan.
  destruct (PrimFloat.ltb (Js.ofZ 1) f); [|reflexivity]. simpl. rewrite Hnan.
  reflexivity.
Qed.

Lemma parsePage_atLeast (page : option Js.num) : atLeast 1 (OrderService.parsePage page).
Proof.
  destruct page as [[|z|f]|];
    try (rewrite parsePage_whole by exact I; cbn [atLeast]; apply pageNumber_at_least_1).
  rewrite parsePage_Float.
  destruct (_ || _)%bool; [simpl; lia|].
  destruct (PrimFloat.ltb (Js.ofZ 1) f) eqn:Hlt; [|simpl; lia].
  simpl. apply ltb_leb. exact Hlt.
Qed.

Lemma parseLimit_bounds (limit : option Js.num) :
  atLeast 1 (OrderService.parseLimit limit) /\ atMost (OrderService.parseLimit limit) 100.
Proof.
  destruct limit as [[|z|f]|];
    try (rewrite parseLimit_whole by exact I; cbn [atLeast atMost]; apply limitNumber_bounds).
  rewrite parseLimit_Float.
  destruct (_ || _)%bool; [simpl; lia|].
  destruct (PrimFloat.ltb (Js.ofZ 1) f) eqn:Hlo; [|simpl; lia].
  destruct (PrimFloat.ltb f (Js.ofZ 100)) eqn:Hhi; [|simpl; lia].
  simpl. split; apply ltb_leb; assumption.
Qed.

End ArithmeticFacts.

Section WindowFacts.

Lemma window_length {A} (page limit : Z) (l : list A) :
  1 <= limit -> Z.of_nat (length (window page limit l)) <= limit.
Proof. intros Hl. unfold window. rewrite length_take. lia. Qed.

Lemma window_In {A} (page limit : Z) (l : list A) (x : A) :
  In x (window page limit l) -> In x l.
Proof.
  unfold window. intros Hin.
  apply list_elem_of_In in Hin. apply list_elem_of_In.
  apply elem_of_take in Hin as (i & Hi & _).
  rewrite lookup_drop in Hi. eapply list_elem_of_lookup_2. exact Hi.
Qed.

End WindowFacts.

Section QueryFacts.
Context {N : JsNumber} {R : JsRuntime} {D : Database}.
Import OrderService.

Lemma new_wellFormed (vendorId : string) :
  ObjectId.isValid vendorId = true -> ObjectId.new vendorId = Ok (ObjectId.hex vendorId).
Proof. unfold ObjectId.new. intros ->. reflexivity. Qed.

Lemma new_Ok (vendorId oid : string) :
  ObjectId.new vendorId = Ok oid ->
  ObjectId.isValid vendorId = true /\ oid = ObjectId.hex vendorId.
Proof.
  unfold ObjectId.new. destruct (ObjectId.isValid vendorId); [|discriminate].
  intros Hoid. inversion Hoid. split; reflexivity.
Qed.

Lemma cursorLimit_take (limit : Z) (l : list Order.t) :
  1 <= limit -> cursorLimit limit l = take (Z.to_nat limit) l.
Proof.
  intros Hl. unfold cursorLimit.
  destruct (Z.eqb limit 0) eqn:E; [apply Z.eqb_eq in E; lia | reflexivity].
Qed.

(** What is left after [skip] and [limit] was there before. *)
Lemma cursor_In (skip count : Z) (l : list Order.t) (o : Order.t) :
  In o (cursorLimit count (drop (Z.to_nat skip) l)) -> In o l.
Proof.
  intros Hin. apply list_elem_of_In in Hin. apply list_elem_of_In.
  assert (Hdrop : o ∈ drop (Z.to_nat skip) l).
  { unfold cursorLimit in Hin. destruct (Z.eqb count 0); [exact Hin|].
    apply elem_of_take in Hin as (i & Hi & _). eapply list_elem_of_lookup_2. exact Hi. }
  apply list_elem_of_lookup in Hdrop as [i Hi]. rewrite lookup_drop in Hi.
  eapply list_elem_of_lookup_2. exact Hi.
Qed.

Lemma notDeleted_iff (o : Order.t) :
  notDeleted o = true <-> Order.isDeleted o <> Some true.
Proof.
  unfold notDeleted. destruct (Order.isDeleted o) as [[|]|]; split; congruence.
Qed.

(** The stored reference denotes the identifier of a well-formed
    [vendorId] exactly when the order is of the vendor. *)
Lemma refersTo_iff (vendorId : string) (o : Order.t) :
  ObjectId.isValid vendorId = true ->
  ObjectId.refersTo (Order.vendorId o) (ObjectId.hex vendorId) = true
  <-> ofVendor vendorId o.
Proof.
  intros Hid. unfold ofVendor, sameObjectId.
  rewrite sameDigits_chars.
  unfold ObjectId.refersTo, ObjectId.new, ObjectId.hex.
  unfold ObjectId.isValid in *. apply andb_true_iff in Hid as [Hlen Hhex].
  rewrite Hhex.
  destruct (Nat.eqb (length (Text.chars (Order.vendorId o))) 24) eqn:Hlen'.
  - apply Nat.eqb_eq in Hlen'.
    destruct (forallb ObjectId.isHexDigit (Text.chars (Order.vendorId o))); simpl.
    + rewrite String.eqb_eq. split.
      * intros Heq. split; [exact Hlen'|]. split; [reflexivity|]. split; [reflexivity|].
        apply (f_equal Text.chars) in Heq. rewrite !chars_of_list in Heq. exact Heq.
      * intros (_ & _ & _ & Heq). rewrite Heq. reflexivity.
    + split; [discriminate|]. intros (_ & Habs & _). discriminate.
  - apply Nat.eqb_neq in Hlen'. simpl. split; [discriminate|]. tauto.
Qed.

Lemma inRange_iff (range : option (Z * Z)) (o : Order.t) :
  inRange range o = true <-> within range o.
Proof.
  unfold inRange, within. destruct range as [[first last]|]; [|tauto].
  rewrite andb_true_iff, !Z.leb_le. tauto.
Qed.

Lemma anyFieldMatches_iff (matches : string -> bool) (o : Order.t) :
  anyFieldMatches matches o = true <-> fieldMatches matches o.
Proof. unfold anyFieldMatches, fieldMatches. rewrite !orb_true_iff. tauto. Qed.

Lemma searchPattern_termOf (search : option string) :
  searchPattern search
  = match termOf search with
    | EmptyString => None
    | term => Some term
    end.
Proof.
  destruct search as [s|]; simpl; [|reflexivity]. destruct (trim s); reflexivity.
Qed.

Lemma searchPattern_none (search : option string) :
  noSearch search -> searchPattern search = None.
Proof.
  destruct search as [s|]; simpl; [|reflexivity]. intros ->. reflexivity.
Qed.

Lemma searchPattern_trimmed (s : string) :
  trim s <> EmptyString -> searchPattern (Some s) = Some (trim s).
Proof.
  intros Hne. simpl. destruct (trim s); [congruence | reflexivity].
Qed.

(** What a filter that is answered selects. *)
Lemma selects_Ok (vendorId : string) (range : option (Z * Z)) (search : option string)
      (sel : Order.t -> bool) :
  ObjectId.isValid vendorId = true ->
  selects (FilterQuery.mk (ObjectId.hex vendorId) range (searchPattern search)) = Ok sel ->
  forall o,
    sel o = true <-> inScope vendorId range o /\ searchFilter (termOf search) o.
Proof.
  unfold selects, inScope, searchFilter.
  cbn [FilterQuery.or_regex FilterQuery.vendorId FilterQuery.createdAt].
  rewrite searchPattern_termOf. intros Hid Hsel o.
  destruct (termOf search) as [|c term].
  - inversion Hsel; subst sel.
    rewrite !andb_true_iff, notDeleted_iff, (refersTo_iff _ _ Hid), inRange_iff. tauto.
  - destruct (regex (String c term)) as [matches|]; [|discriminate].
    inversion Hsel; subst sel.
    rewrite !andb_true_iff, notDeleted_iff, (refersTo_iff _ _ Hid), inRange_iff,
      anyFieldMatches_iff.
    split.
    + intros [[[Hv Hd] Hr] Hm]. split; [auto|]. exists matches. auto.
    + intros [(Hv & Hd & Hr) (m & Hc & Hm)]. inversion Hc; subst m. auto.
Qed.

(** A filter is answered exactly when the database takes the search
    argument. *)
Lemma selects_accepted (oid : string) (range : option (Z * Z)) (search : option string) :
  accepted search
  <-> exists sel, selects (FilterQuery.mk oid range (searchPattern search)) = Ok sel.
Proof.
  unfold selects, accepted.
  cbn [FilterQuery.or_regex FilterQuery.vendorId FilterQuery.createdAt].
  destruct search as [s|]; simpl; [|split; [eexists; reflexivity | exact (fun _ => I)]].
  destruct (trim s) as [|c term] eqn:Hs; simpl.
  - split; [eexists; reflexivity | auto].
  - destruct (regex (String c term)) as [matches|].
    + split; [eexists; reflexivity|]. intros _. right. eexists; reflexivity.
    + split.
      * intros [Habs | [m Habs]]; discriminate.
      * intros [sel Habs]. discriminate.
Qed.

(** Both modes: the identifier is built, the filter is handed to [find]
    and to [countDocuments], and the answer is assembled; the store is
    only read. *)
Lemma query_runs (vendorId : string) (query : Query) (range : option (Z * Z)) :
  queryMode vendorId query range ->
  forall page limit search db,
    query page limit search db
    = match ObjectId.new vendorId with
      | Throw e => (Throw e, db)
      | Ok oid =>
          match selects (FilterQuery.mk oid range (searchPattern search)) with
          | Ok sel =>
              match cursorArg (Js.mul (Js.sub (parsePage page) 1) (parseLimit limit)),
                    cursorArg (parseLimit limit) with
              | Some skip, Some count =>
                  (Ok (answer sel (parsePage page) (parseLimit limit) skip count db), db)
              | _, _ => (Throw (MongoServerError "Failed to parse skip or limit"), db)
              end
          | Throw e => (Throw e, db)
          end
      end.
Proof.
  intros Hmode page limit search db.
  destruct Hmode as [startDate endDate | now1 now2].
  - unfold findAllVendorOrders.
    destruct (ObjectId.new vendorId) as [oid|e]; [|reflexivity].
    unfold bind, Model_find, Model_countDocuments, ret, bothBounds.
    destruct (selects _) as [sel|e]; [|reflexivity].
    destruct (cursorArg (Js.mul _ _)) as [skip|]; [|reflexivity].
    destruct (cursorArg (parseLimit limit)) as [count|]; reflexivity.
  - unfold getTodaysVendorOrders.
    destruct (ObjectId.new vendorId) as [oid|e]; [|reflexivity].
    unfold bind, Model_find, Model_countDocuments, ret, today.
    destruct (selects _) as [sel|e]; [|reflexivity].
    destruct (cursorArg (Js.mul _ _)) as [skip|]; [|reflexivity].
    destruct (cursorArg (parseLimit limit)) as [count|]; reflexivity.
Qed.

(** With whole-number arguments the cursor skips [(page - 1) * limit]
    documents and takes [limit]. *)
Lemma cursorArg_whole (page limit : option Js.num) :
  whole page -> whole limit ->
  cursorArg (Js.mul (Js.sub (parsePage page) 1) (parseLimit limit))
  = Some ((pageNumber page - 1) * limitNumber limit)
  /\ cursorArg (parseLimit limit) = Some (limitNumber limit).
Proof.
  intros Hp Hl. rewrite (parsePage_whole _ Hp), (parseLimit_whole _ Hl).
  split; reflexivity.
Qed.

(** A query that returns has answered from [selection]. *)
Lemma query_returns (vendorId : string) (query : Query) (range : option (Z * Z)) :
  queryMode vendorId query range ->
  forall page limit search db r db',
    query page limit search db = (Ok r, db') ->
    db' = db
    /\ ObjectId.isValid vendorId = true
    /\ accepted search
    /\ selects (FilterQuery.mk (ObjectId.hex vendorId) range (searchPattern search))
       = Ok (selection vendorId range search)
    /\ exists skip count,
         cursorArg (Js.mul (Js.sub (parsePage page) 1) (parseLimit limit)) = Some skip
         /\ cursorArg (parseLimit limit) = Some count
         /\ r = answer (selection vendorId range search)
                  (parsePage page) (parseLimit limit) skip count db.
Proof.
  intros Hmode page limit search db r db' Hrun.
  rewrite (query_runs vendorId query range Hmode) in Hrun.
  unfold selection.
  destruct (ObjectId.new vendorId) as [oid|e] eqn:Hoid; [|discriminate].
  apply new_Ok in Hoid as [Hid ->].
  destruct (selects _) as [sel|e] eqn:Hsel; [|discriminate].
  destruct (cursorArg (Js.mul _ _)) as [skip|]; [|discriminate].
  destruct (cursorArg (parseLimit limit)) as [count|]; [|discriminate].
  inversion Hrun; subst. split; [reflexivity|]. split; [exact Hid|].
  split; [apply (selects_accepted (ObjectId.hex vendorId) range); eauto|].
  split; [reflexivity|]. exists skip, count. auto.
Qed.

(** A query with whole-number arguments returns as soon as the vendor id
    is well formed and the database takes the search argument, and its
    answer is the one for [pageNumber] and [limitNumber]. *)
Lemma query_answers (vendorId : string) (query : Query) (range : option (Z * Z)) :
  queryMode vendorId query range ->
  forall page limit search db,
    ObjectId.isValid vendorId = true ->
    accepted search ->
    whole page -> whole limit ->
    query page limit search db
    = (Ok (answer (selection vendorId range search)
             (Js.Int (pageNumber page)) (Js.Int (limitNumber limit))
             ((pageNumber page - 1) * limitNumber limit) (limitNumber limit) db), db).
Proof.
  intros Hmode page limit search db Hvalid Haccepted Hp Hl.
  rewrite (query_runs vendorId query range Hmode). unfold selection.
  rewrite (new_wellFormed _ Hvalid).
  apply (selects_accepted (ObjectId.hex vendorId) range) in Haccepted as [sel Hsel].
  rewrite Hsel.
  destruct (cursorArg_whole page limit Hp Hl) as [-> ->].
  rewrite (parsePage_whole _ Hp), (parseLimit_whole _ Hl). reflexivity.
Qed.

(** A query that the database does not answer throws and writes
    nothing. *)
Lemma query_rejected (vendorId : string) (query : Query) (range : option (Z * Z)) :
  queryMode vendorId query range ->
  forall page limit search db,
    ~ accepted search ->
    exists e, query page limit search db = (Throw e, db).
Proof.
  intros Hmode page limit search db Hrejected.
  rewrite (query_runs vendorId query range Hmode).
  destruct (ObjectId.new vendorId) as [oid|e]; [|eexists; reflexivity].
  destruct (selects _) as [sel|e] eqn:Hsel; [|eexists; reflexivity].
  exfalso. apply Hrejected. apply (selects_accepted oid range). eauto.
Qed.

(** The page of an answer to whole-number arguments is a window of the
    sorted selection. *)
Lemma answer_orders (sel : Order.t -> bool) (page limit : Js.num) (p l : Z) (db : Db) :
  1 <= l ->
  VendorOrders.orders (answer sel page limit ((p - 1) * l) l db)
  = window p l (sortByCreatedAtDesc (List.filter sel (orders db))).
Proof. intros Hl. unfold answer, window. simpl. apply cursorLimit_take. exact Hl. Qed.

(** An answer whose page and limit are whole numbers was computed from
    them. *)
Lemma answer_whole (page limit : option Js.num) (p l skip count : Z) :
  parsePage page = Js.Int p -> parseLimit limit = Js.Int l ->
  cursorArg (Js.mul (Js.sub (parsePage page) 1) (parseLimit limit)) = Some skip ->
  cursorArg (parseLimit limit) = Some count ->
  skip = (p - 1) * l /\ count = l /\ 1 <= p /\ 1 <= l <= 100.
Proof.
  intros Hp Hl Hskip Hcount.
  pose proof (parsePage_atLeast page) as Hp1.
  pose proof (parseLimit_bounds limit) as Hl1.
  rewrite Hp in *. rewrite Hl in *. simpl in *.
  inversion Hskip. inversion Hcount. lia.
Qed.

(** The selection of a query that is not answered is empty. *)
Lemma selection_sorted_sublist (vendorId : string) (range : option (Z * Z))
      (search : option string) (o : Order.t) :
  selection vendorId range search o = true ->
  ObjectId.isValid vendorId = true
  /\ accepted search
  /\ inScope vendorId range o
  /\ searchFilter (termOf search) o.
Proof.
  unfold selection. intros Ho.
  destruct (ObjectId.new vendorId) as [oid|e] eqn:Hoid; [|discriminate].
  apply new_Ok in Hoid as [Hid ->].
  destruct (selects _) as [sel|e] eqn:Hsel; [|discriminate].
  split; [exact Hid|]. split; [apply (selects_accepted (ObjectId.hex vendorId) range); eauto|].
  apply (selects_Ok _ _ _ _ Hid Hsel). exact Ho.
Qed.

Lemma selection_iff (vendorId : string) (range : option (Z * Z))
      (search : option string) :
  ObjectId.isValid vendorId = true ->
  accepted search ->
  forall o, selection vendorId range search o = true
            <-> inScope vendorId range o /\ searchFilter (termOf search) o.
Proof.
  intros Hid Haccepted o. unfold selection. rewrite (new_wellFormed _ Hid).
  apply (selects_accepted (ObjectId.hex vendorId) range) in Haccepted as [sel Hsel].
  rewrite Hsel. apply (selects_Ok _ _ _ _ Hid Hsel).
Qed.

End QueryFacts.
Section QueryClaims.
Context {N : JsNumber} {R : JsRuntime} {D : Database}.
Import OrderService.

(** C2, amended. In both modes and for every page and limit: the page is
    the supplied number raised to at least 1, and 1 when none, 0 or no
    number is supplied (so 0 and -5 behave as 1); the limit is the
    supplied number clamped to [1, 100], except that 0, like a missing or
    non-numeric limit, gives the default 10 (so 1000 behaves as 100, a
    negative limit as 1, and 0 as 10). A query with a well-formed vendor
    id, a search argument the database takes and whole-number (or
    missing, or non-numeric) page and limit is answered; and whenever
    page and limit of an answer are whole numbers, the returned page is
    the window at offset [(page - 1) * limit] of a listing, newest first,
    of the orders the query selects, which do not depend on page and
    limit, and it holds at most [limit] records. *)
Theorem pagination_page_and_limit
    (vendorId : string) (query : Query) (range : option (Z * Z))
    (search : option string) (db : Db) :
  queryMode vendorId query range ->
  (forall page limit,
     ObjectId.isValid vendorId = true -> accepted search ->
     whole page -> whole limit ->
     exists r, query page limit search db = (Ok r, db))
  /\ (exists sel : Order.t -> bool,
        forall page limit r db',
          query page limit search db = (Ok r, db') ->
          VendorOrders.page r
          = match page with
            | Some (Js.Int z) => Js.Int (Z.max 1 z)
            | Some (Js.Float f) =>
                if (PrimFloat.is_nan f || PrimFloat.is_zero f)%bool then Js.Int 1
                else if PrimFloat.ltb (Js.ofZ 1) f then Js.Float f else Js.Int 1
            | _ => Js.Int 1
            end
          /\ VendorOrders.limit r
             = match limit with
               | Some (Js.Int z) =>
                   Js.Int (if Z.eqb z 0 then 10 else Z.min (Z.max 1 z) 100)
               | Some (Js.Float f) =>
                   if (PrimFloat.is_nan f || PrimFloat.is_zero f)%bool then Js.Int 10
                   else if PrimFloat.ltb (Js.ofZ 1) f then
                          if PrimFloat.ltb f (Js.ofZ 100) then Js.Float f else Js.Int 100
                        else Js.Int 1
               | _ => Js.Int 10
               end
          /\ atLeast 1 (VendorOrders.page r)
          /\ atLeast 1 (VendorOrders.limit r)
          /\ atMost (VendorOrders.limit r) 100
          /\ exists listed,
               Permutation listed (List.filter sel (orders db))
               /\ StronglySorted notOlder listed
               /\ forall p l,
                    VendorOrders.page r = Js.Int p -> VendorOrders.limit r = Js.Int l ->
                    VendorOrders.orders r = window p l listed
                    /\ Z.of_nat (length (VendorOrders.orders r)) <= l)
  /\ (forall limit z, z <= 1 ->
        query (Some (Js.Int z)) limit search db = query (Some (Js.Int 1)) limit search db)
  /\ (forall page z, 100 <= z ->
        query page (Some (Js.Int z)) search db = query page (Some (Js.Int 100)) search db)
  /\ (forall page z, z < 0 ->
        query page (Some (Js.Int z)) search db = query page (Some (Js.Int 1)) search db)
  /\ (forall page,
        query page (Some (Js.Int 0)) search db = query page (Some (Js.Int 10)) search db
        /\ query page (Some (Js.Int 0)) search db = query page None search db).
Proof.
  intros Hmode. split; [|split; [|split; [|split; [|split]]]].
  - intros page limit Hid Haccepted Hp Hl.
    rewrite (query_answers vendorId query range Hmode _ _ _ _ Hid Haccepted Hp Hl).
    eexists. reflexivity.
  - exists (selection vendorId range search).
    intros page limit r db' Hrun.
    destruct (query_returns vendorId query range Hmode _ _ _ _ _ _ Hrun)
      as (_ & _ & _ & _ & skip & count & Hskip & Hcount & Hr).
    pose proof (parsePage_atLeast page) as Hp.
    pose proof (parseLimit_bounds limit) as [Hl1 Hl2].
    subst r. cbn [VendorOrders.page VendorOrders.limit answer].
    split.
    { destruct page as [[|z|f]|]; try (rewrite parsePage_whole by exact I; reflexivity).
      apply parsePage_Float. }
    split.
    { destruct limit as [[|z|f]|]; try (rewrite parseLimit_whole by exact I; reflexivity).
      apply parseLimit_Float. }
    split; [exact Hp|]. split; [exact Hl1|]. split; [exact Hl2|].
    exists (sortByCreatedAtDesc (List.filter (selection vendorId range search) (orders db))).
    split; [apply sortByCreatedAtDesc_perm|].
    split; [apply sortByCreatedAtDesc_sorted|].
    intros p l Hpage Hlimit.
    destruct (answer_whole page limit p l skip count Hpage Hlimit Hskip Hcount)
      as (-> & -> & _ & Hl).
    rewrite answer_orders by lia. split; [reflexivity|].
    apply window_length. lia.
  - intros limit z Hz. rewrite !(query_runs vendorId query range Hmode).
    assert (Hpage : parsePage (Some (Js.Int z)) = parsePage (Some (Js.Int 1))).
    { rewrite !parsePage_whole by exact I. simpl. f_equal. lia. }
    rewrite Hpage. reflexivity.
  - intros page z Hz. rewrite !(query_runs vendorId query range Hmode).
    assert (Hlimit : parseLimit (Some (Js.Int z)) = parseLimit (Some (Js.Int 100))).
    { rewrite !parseLimit_whole by exact I. simpl. f_equal.
      destruct (Z.eqb z 0) eqn:E; [apply Z.eqb_eq in E; lia | lia]. }
    rewrite Hlimit. reflexivity.
  - intros page z Hz. rewrite !(query_runs vendorId query range Hmode).
    assert (Hlimit : parseLimit (Some (Js.Int z)) = parseLimit (Some (Js.Int 1))).
    { rewrite !parseLimit_whole by exact I. simpl. f_equal.
      destruct (Z.eqb z 0) eqn:E; [apply Z.eqb_eq in E; lia | lia]. }
    rewrite Hlimit. reflexivity.
  - intros page. rewrite !(query_runs vendorId query range Hmode).
    assert (Hlimit : parseLimit (Some (Js.Int 0)) = parseLimit (Some (Js.Int 10))
                     /\ parseLimit (Some (Js.Int 0)) = parseLimit None).
    { rewrite !parseLimit_whole by exact I. split; reflexivity. }
    destruct Hlimit as [H10 Hnone]. split; [rewrite H10 | rewrite Hnone]; reflexivity.
Qed.

(** C6. In both modes there is one selection of orders, fixed by the
    vendor, the date range and the search term and not by page or limit:
    an order is selected exactly when its vendor id and the one asked for
    are the same ObjectId, it is not soft-deleted, it was created within
    the date range, bounds included, and it passes the search filter (one
    of the three fields matches the trimmed term, if there is one). A
    query with a well-formed vendor id, a search argument the database
    takes and whole-number page and limit is answered. Every answer
    reports as [total] the number of selected orders; its orders are
    among the selected ones, so that no soft-deleted order is returned or
    counted; for a whole page and limit they are a window of a listing of
    the selected orders, newest first; and [totalPages] is the least
    integer [n] with [total <= n * limit] for a whole limit, and
    otherwise the ceiling of the quotient computed in doubles. *)
Theorem total_counts_the_selection
    (vendorId : string) (query : Query) (range : option (Z * Z))
    (search : option string) (db : Db) :
  queryMode vendorId query range ->
  (forall page limit,
     ObjectId.isValid vendorId = true -> accepted search ->
     whole page -> whole limit ->
     exists r, query page limit search db = (Ok r, db))
  /\ exists sel : Order.t -> bool,
       (ObjectId.isValid vendorId = true -> accepted search ->
        forall o, sel o = true
                  <-> inScope vendorId range o /\ searchFilter (termOf search) o)
       /\ (forall o, Order.isDeleted o = Some true -> sel o = false)
       /\ forall page limit r db',
            query page limit search db = (Ok r, db') ->
            db' = db
            /\ ObjectId.isValid vendorId = true
            /\ accepted search
            /\ VendorOrders.total r = Z.of_nat (length (List.filter sel (orders db)))
            /\ (forall o, In o (VendorOrders.orders r) ->
                  In o (List.filter sel (orders db)) /\ Order.isDeleted o <> Some true
                  /\ inScope vendorId range o /\ searchFilter (termOf search) o)
            /\ (exists listed,
                  Permutation listed (List.filter sel (orders db))
                  /\ StronglySorted notOlder listed
                  /\ forall p l,
                       VendorOrders.page r = Js.Int p -> VendorOrders.limit r = Js.Int l ->
                       VendorOrders.orders r = window p l listed)
            /\ (forall l,
                  VendorOrders.limit r = Js.Int l ->
                  exists n,
                    VendorOrders.totalPages r = Js.Int n
                    /\ VendorOrders.total r <= n * l
                    /\ (n - 1) * l < VendorOrders.total r)
            /\ (forall f q,
                  VendorOrders.limit r = Js.Float f ->
                  exactValue (PrimFloat.div (Js.ofZ (VendorOrders.total r)) f) = Some q ->
                  VendorOrders.totalPages r = Js.Int (Qceiling q)).
Proof.
  intros Hmode. split.
  { intros page limit Hid Haccepted Hp Hl.
    rewrite (query_answers vendorId query range Hmode _ _ _ _ Hid Haccepted Hp Hl).
    eexists. reflexivity. }
  set (sel := selection vendorId range search).
  exists sel.
  assert (Hin : forall o, In o (sortByCreatedAtDesc (List.filter sel (orders db))) ->
                          In o (List.filter sel (orders db)) /\ sel o = true).
  { intros o Ho. apply (Permutation_in _ (sortByCreatedAtDesc_perm _)) in Ho.
    split; [exact Ho|]. apply filter_In in Ho. tauto. }
  split; [exact (selection_iff vendorId range search)|].
  split.
  { intros o Hdel. destruct (sel o) eqn:Ho; [|reflexivity].
    apply selection_sorted_sublist in Ho as (_ & _ & (_ & Hd & _) & _).
    destruct (Hd Hdel). }
  intros page limit r db' Hrun.
  destruct (query_returns vendorId query range Hmode _ _ _ _ _ _ Hrun)
    as (Hdb & Hid & Haccepted & _ & skip & count & Hskip & Hcount & Hr).
  fold sel in Hr.
  split; [exact Hdb|]. split; [exact Hid|]. split; [exact Haccepted|].
  subst r. cbn [VendorOrders.page VendorOrders.limit VendorOrders.total
                  VendorOrders.totalPages VendorOrders.orders answer].
  split; [reflexivity|]. split.
  { intros o Ho. apply cursor_In in Ho.
    apply Hin in Ho as [Hdb' Ho]. split; [exact Hdb'|].
    apply selection_sorted_sublist in Ho as (_ & _ & Hscope & Hsearch).
    split; [exact (proj1 (proj2 Hscope))|]. split; assumption. }
  split; [|split].
  - exists (sortByCreatedAtDesc (List.filter sel (orders db))).
    split; [apply sortByCreatedAtDesc_perm|].
    split; [apply sortByCreatedAtDesc_sorted|].
    intros p l Hpage Hlimit.
    destruct (answer_whole page limit p l skip count Hpage Hlimit Hskip Hcount)
      as (-> & -> & _ & Hl).
    unfold window. apply cursorLimit_take. lia.
  - intros l Hlimit.
    pose proof (parseLimit_bounds limit) as [Hl _]. rewrite Hlimit in Hl. simpl in Hl.
    rewrite Hlimit. cbn [Js.ceilQuotient]. eexists. split; [reflexivity|].
    apply ceilDiv_spec. lia.
  - intros f q Hlimit Hq. rewrite Hlimit. cbn [Js.ceilQuotient].
    apply ceil_exactValue. exact Hq.
Qed.

(** C7, amended. In both modes the search term, trimmed, is handed to
    the database as a regular expression, matched without regard to
    letter case; it is a substring search for the terms that are plain
    text. Precisely, for a well-formed vendor id the selection that every
    answer counts and pages is: when the term is left out or trimming
    empties it, the orders in scope (no search filter); when the trimmed
    term is not empty and the database makes a matcher of it, the orders
    in scope of which [customerName], [phoneNumber] or [orderId] matches;
    and when moreover the trimmed term has no character that is special
    in a regular expression, on a database that matches such terms as
    substrings, the orders in scope in which the trimmed term occurs,
    letter case apart, in one of the three fields. A query whose trimmed
    term the database rejects throws. *)
Theorem search_filter_on_plain_terms
    (vendorId : string) (query : Query) (range : option (Z * Z))
    (search : option string) (db : Db) :
  queryMode vendorId query range ->
  ObjectId.isValid vendorId = true ->
  exists sel : Order.t -> bool,
    (forall page limit r db',
       query page limit search db = (Ok r, db') ->
       VendorOrders.total r = Z.of_nat (length (List.filter sel (orders db)))
       /\ forall o, In o (VendorOrders.orders r) -> In o (orders db) /\ sel o = true)
    /\ (forall page limit,
          accepted search -> whole page -> whole limit ->
          exists r, query page limit search db = (Ok r, db))
    /\ (noSearch search -> forall o, sel o = true <-> inScope vendorId range o)
    /\ forall s,
         search = Some s ->
         trim s <> EmptyString ->
         (forall matches,
            regex (trim s) = Some matches ->
            forall o, sel o = true <-> inScope vendorId range o /\ fieldMatches matches o)
         /\ (regex (trim s) = None ->
             forall page limit, exists e, query page limit search db = (Throw e, db))
         /\ (matchesPlainTermsAsSubstrings ->
             plainTerm (trim s) ->
             forall o, sel o = true <-> inScope vendorId range o /\ termOccurs (trim s) o).
Proof.
  intros Hmode Hid. exists (selection vendorId range search).
  split; [|split; [|split]].
  - intros page limit r db' Hrun.
    destruct (query_returns vendorId query range Hmode _ _ _ _ _ _ Hrun)
      as (_ & _ & _ & _ & skip & count & _ & _ & Hr).
    subst r. cbn [VendorOrders.total VendorOrders.orders answer].
    split; [reflexivity|]. intros o Ho. apply cursor_In in Ho.
    apply (Permutation_in _ (sortByCreatedAtDesc_perm _)) in Ho.
    apply filter_In in Ho. exact Ho.
  - intros page limit Haccepted Hp Hl.
    rewrite (query_answers vendorId query range Hmode _ _ _ _ Hid Haccepted Hp Hl).
    eexists. reflexivity.
  - intros Hnone o.
    assert (Haccepted : accepted search).
    { destruct search as [s|]; [left; exact Hnone | exact I]. }
    rewrite (selection_iff vendorId range search Hid Haccepted).
    assert (Hterm : termOf search = EmptyString).
    { destruct search as [s|]; [exact Hnone | reflexivity]. }
    rewrite Hterm. simpl. tauto.
  - intros s -> Hne.
    assert (Hfilter : forall o, searchFilter (termOf (Some s)) o
                                <-> exists matches, regex (trim s) = Some matches
                                                    /\ fieldMatches matches o).
    { intros o. simpl. destruct (trim s); [congruence | reflexivity]. }
    split; [|split].
    + intros matches Hm o.
      rewrite (selection_iff vendorId range (Some s) Hid) by (right; eauto).
      rewrite Hfilter. split.
      * intros [Hscope (m & Hm' & Hfield)]. rewrite Hm in Hm'. inversion Hm'; subst m. auto.
      * intros [Hscope Hfield]. eauto.
    + intros Hrejected page limit.
      apply (query_rejected vendorId query range Hmode).
      intros [Hblank | [matches Hm]]; [exact (Hne Hblank) | congruence].
    + intros Hengine Hplain o.
      destruct (Hengine (trim s) Hplain) as (matches & Hm & Hsub).
      rewrite (selection_iff vendorId range (Some s) Hid) by (right; eauto).
      rewrite Hfilter. unfold termOccurs, fieldMatches. split.
      * intros [Hscope (m & Hm' & Hfield)]. rewrite Hm in Hm'. inversion Hm'; subst m.
        rewrite !Hsub in Hfield. auto.
      * intros [Hscope Hfield]. split; [exact Hscope|]. exists matches.
        rewrite !Hsub. auto.
Qed.

End QueryClaims.

(** *** The statements at the sample order book *)

Section QuerySamples.
Import OrderService.

(** The spec example: 25 matching orders at limit 10 make 3 pages. *)
Example totalPages_25_by_10 : Js.ceilQuotient 25 (Js.Int 10) = Js.Int 3.
Proof. reflexivity. Qed.

(** At the limit 2.5 they make 10 pages. *)
Example totalPages_25_by_2_5 : Js.ceilQuotient 25 (Js.Float 2.5) = Js.Int 10.
Proof. vm_compute. reflexivity. Qed.

(** C2, as the spec words it, read at limit 0: the "all orders" query
    with [limit = 0] answers with limit 10 and both listed orders, the
    one with [limit = 1] with limit 1 and a single order; the same in
    the "today" mode. *)
Lemma limit_zero_is_not_limit_one :
  listing <$> returned (findAllVendorOrders Sample.vendorId None (Some (Js.Int 0))
                          None None None Sample.orderBook)
  = Some (["ST-7hG2vB9sW1cD"; "ST-Zx81kQp04LmN"], 2, Js.Int 1, Js.Int 10, Js.Int 1)
  /\ listing <$> returned (findAllVendorOrders Sample.vendorId None (Some (Js.Int 1))
                             None None None Sample.orderBook)
     = Some (["ST-7hG2vB9sW1cD"], 2, Js.Int 1, Js.Int 1, Js.Int 2)
  /\ listing <$> returned (getTodaysVendorOrders Sample.now Sample.now
                             Sample.vendorId None (Some (Js.Int 0)) None Sample.orderBook)
     = Some (["ST-7hG2vB9sW1cD"; "ST-Zx81kQp04LmN"], 2, Js.Int 1, Js.Int 10, Js.Int 1)
  /\ listing <$> returned (getTodaysVendorOrders Sample.now Sample.now
                             Sample.vendorId None (Some (Js.Int 1)) None Sample.orderBook)
     = Some (["ST-7hG2vB9sW1cD"], 2, Js.Int 1, Js.Int 1, Js.Int 2).
Proof. repeat split; vm_compute; reflexivity. Qed.

Lemma pagination_page_and_limit_witness :
  exists r,
    findAllVendorOrders Sample.vendorId (Some (Js.Int (-5))) (Some (Js.Int 1000))
      None None (Some "jane") Sample.orderBook
    = (Ok r, Sample.orderBook)
    /\ VendorOrders.page r = Js.Int 1
    /\ VendorOrders.limit r = Js.Int 100
    /\ Z.of_nat (length (VendorOrders.orders r)) <= 100.
Proof.
  destruct (pagination_page_and_limit Sample.vendorId _ _ (Some "jane") Sample.orderBook
              (AllOrders Sample.vendorId None None)) as (Hanswered & [sel Hm] & _).
  destruct (Hanswered (Some (Js.Int (-5))) (Some (Js.Int 1000))) as [r Hrun].
  - vm_compute; reflexivity.
  - right. eexists. vm_compute. reflexivity.
  - exact I.
  - exact I.
  - destruct (Hm _ _ r _ Hrun) as (Hp & Hl & _ & _ & _ & listed & _ & _ & Hwindow).
    exists r. split; [exact Hrun|]. split; [exact Hp|]. split; [exact Hl|].
    exact (proj2 (Hwindow 1 100 Hp Hl)).
Defined.

Lemma total_counts_the_selection_witness :
  exists r n,
    getTodaysVendorOrders Sample.now Sample.now Sample.vendorId
      (Some (Js.Int 2)) (Some (Js.Int 1)) None Sample.orderBook
    = (Ok r, Sample.orderBook)
    /\ (forall o, In o (VendorOrders.orders r) ->
          Order.isDeleted o <> Some true
          /\ inScope Sample.vendorId (today Sample.now Sample.now) o)
    /\ VendorOrders.totalPages r = Js.Int n
    /\ VendorOrders.total r <= n * 1
    /\ (n - 1) * 1 < VendorOrders.total r.
Proof.
  destruct (total_counts_the_selection Sample.vendorId _ _ None Sample.orderBook
              (TodaysOrders Sample.vendorId Sample.now Sample.now))
    as (Hanswered & sel & _ & _ & Hanswer).
  destruct (Hanswered (Some (Js.Int 2)) (Some (Js.Int 1))) as [r Hrun].
  - vm_compute; reflexivity.
  - exact I.
  - exact I.
  - exact I.
  - destruct (Hanswer _ _ r _ Hrun) as (_ & _ & _ & _ & Hin & _ & Hpages & _).
    assert (Hl : VendorOrders.limit r = Js.Int 1)
      by (vm_compute in Hrun; inversion Hrun; reflexivity).
    destruct (Hpages 1 Hl) as (n & Hn & Hup & Hlow).
    exists r, n. split; [exact Hrun|]. split; [|split; [exact Hn | split; assumption]].
    intros o Ho. destruct (Hin o Ho) as (_ & Hd & Hscope & _). split; assumption.
Defined.

(** C7, as the spec words it, read at the term "j.n": the query returns
    Jane Okoro's order, in none of whose searched fields the term
    occurs as a substring. *)
Lemma search_term_is_a_pattern :
  trim "j.n" = "j.n"
  /\ listing <$> returned (findAllVendorOrders Sample.vendorId None None None None
                             (Some "j.n") Sample.orderBook)
     = Some (["ST-Zx81kQp04LmN"], 1, Js.Int 1, Js.Int 10, Js.Int 1)
  /\ Order.orderId Sample.jane = "ST-Zx81kQp04LmN"
  /\ ~ termOccurs "j.n" Sample.jane.
Proof.
  split; [vm_compute; reflexivity|]. split; [vm_compute; reflexivity|].
  split; [reflexivity|].
  assert (Hnot : forall subject,
             Regex.test (map Regex.Chr (Text.chars "j.n")) subject = false ->
             ~ occursIn "j.n" subject).
  { intros subject Htest Hocc. unfold occursIn in Hocc.
    cbn [toLowerCase Sample.runtime] in Hocc. rewrite !chars_toLowerCase in Hocc.
    apply search_literal in Hocc. unfold Regex.test in Htest. congruence. }
  intros [H1 | [H2 | H3]]; revert H1 || revert H2 || revert H3; apply Hnot;
    vm_compute; reflexivity.
Qed.

Lemma search_filter_on_plain_terms_witness :
  exists sel : Order.t -> bool,
    (sel Sample.jane = true
     <-> inScope Sample.vendorId None Sample.jane /\ termOccurs "JANE" Sample.jane)
    /\ (sel Sample.bob = true
        <-> inScope Sample.vendorId None Sample.bob /\ termOccurs "JANE" Sample.bob).
Proof.
  destruct (search_filter_on_plain_terms Sample.vendorId _ _ (Some "  JANE ")
              Sample.orderBook (AllOrders Sample.vendorId None None)
              ltac:(vm_compute; reflexivity))
    as (sel & _ & _ & _ & Hsel).
  assert (Hne : trim "  JANE " <> EmptyString) by (vm_compute; discriminate).
  destruct (Hsel "  JANE " eq_refl Hne) as (_ & _ & Hplain).
  assert (Hpl : plainTerm (trim "  JANE "))
    by (unfold plainTerm; vm_compute; repeat constructor).
  exists sel. split.
  - exact (Hplain sample_database_matches_plain_terms Hpl Sample.jane).
  - exact (Hplain sample_database_matches_plain_terms Hpl Sample.bob).
Defined.

End QuerySamples.

(** * Further properties *)

(** ** Working hours *)

Section WorkingHoursFacts.
Context {R : JsRuntime}.
Import VendorService.

(** [updateWorkingHours], by cases on the two lookups it makes. *)
Lemma updateWorkingHours_cases
    (vs : gmap string Vendor.t) (vendorId : string) (update : Update.t) :
  updateWorkingHours vendorId update vs
  = match ObjectId.cast "Vendor" vendorId with
    | Throw e => (Throw e, vs)
    | Ok oid =>
        match vs !! oid with
        | None => (Throw (NotFoundException "Vendor not found"), vs)
        | Some v =>
            match findIndex (sameDay (Update.day update)) (Vendor.workingHours v) with
            | None =>
                (Throw (BadRequestException ("Invalid day: " +:+ Update.day update)), vs)
            | Some i =>
                let hours := alter (applyUpdate update) i (Vendor.workingHours v) in
                (Ok hours, <[oid := Vendor.setWorkingHours hours v]> vs)
            end
        end
    end.
Proof.
  unfold updateWorkingHours, bind, Model_findById, Document_save, ret, throw.
  destruct (ObjectId.cast "Vendor" vendorId) as [oid|e]; [|reflexivity].
  destruct (vs !! oid) as [v|]; [|reflexivity].
  cbn [fmap option_fmap option_map]. destruct (findIndex _ _); reflexivity.
Qed.

(** The cast of an id, by its form. *)
Lemma cast_cases (model vendorId : string) :
  (ObjectId.isValid vendorId = true
   /\ ObjectId.cast model vendorId = Ok (ObjectId.hex vendorId))
  \/ (ObjectId.isValid vendorId = false
      /\ exists message, ObjectId.cast model vendorId = Throw (CastError message)).
Proof.
  unfold ObjectId.cast. destruct (ObjectId.isValid vendorId).
  - left. split; reflexivity.
  - right. split; [reflexivity|]. eexists. reflexivity.
Qed.

Lemma applyUpdate_day (update : Update.t) (h : WorkingHours.t) :
  WorkingHours.day (applyUpdate update h) = WorkingHours.day h.
Proof. reflexivity. Qed.

Lemma applyUpdate_idempotent (update : Update.t) (h : WorkingHours.t) :
  applyUpdate update (applyUpdate update h) = applyUpdate update h.
Proof.
  unfold applyUpdate, assignIfTruthy, assignIfDefined. simpl.
  destruct (Update.openingTime update) as [o|], (Update.closingTime update) as [c|],
    (Update.isActive update) as [a|]; simpl;
    try destruct (Text.truthy o); try destruct (Text.truthy c); reflexivity.
Qed.

Lemma alter_days (update : Update.t) (i : nat) (hours : list WorkingHours.t) :
  map WorkingHours.day (alter (applyUpdate update) i hours)
  = map WorkingHours.day hours.
Proof.
  revert i. induction hours as [|h hours IH]; intros [|i]; simpl; try reflexivity.
  f_equal. apply IH.
Qed.

(** An update that keeps what [p] looks at keeps the index found. *)
Lemma findIndex_alter {A} (p : A -> bool) (f : A -> A) (i : nat) (l : list A) :
  (forall x, p (f x) = p x) -> findIndex p (alter f i l) = findIndex p l.
Proof.
  intros Hp. revert i. induction l as [|a l IH]; intros [|i]; simpl; try reflexivity.
  - rewrite Hp. reflexivity.
  - destruct (p a); [reflexivity|]. f_equal. apply IH.
Qed.

Lemma sameDay_applyUpdate (d : string) (update : Update.t) (h : WorkingHours.t) :
  sameDay d (applyUpdate update h) = sameDay d h.
Proof. reflexivity. Qed.

End WorkingHoursFacts.

Section WorkingHoursMore.
Context {R : JsRuntime}.
Import VendorService.

(** X1. [updateWorkingHours] has four outcomes, told apart by the id and
    by what is stored. For an id that is not a well-formed ObjectId (and
    not 12 characters long, a length some releases of the identifier
    constructor take as raw bytes) it throws the [CastError] of the id
    cast. For a well-formed id it throws NotFound "Vendor not found"
    exactly when no vendor is stored under it, BadRequest "Invalid day:
    <day>" exactly when the stored vendor has no entry with the requested
    day up to letter case, and returns otherwise. Whenever it throws, the
    collection is unchanged. *)
Theorem updateWorkingHours_outcomes
    (vs : gmap string Vendor.t) (vendorId : string) (update : Update.t) :
  length (Text.chars vendorId) <> 12%nat ->
  let named (h : WorkingHours.t) :=
    toLowerCase (WorkingHours.day h) = toLowerCase (Update.day update) in
  match updateWorkingHours vendorId update vs with
  | (Ok hours', vs') =>
      ObjectId.isValid vendorId = true
      /\ exists v, vs !! ObjectId.hex vendorId = Some v
                   /\ (exists h, In h (Vendor.workingHours v) /\ named h)
                   /\ vs' = <[ObjectId.hex vendorId := Vendor.setWorkingHours hours' v]> vs
  | (Throw (NotFoundException message), vs') =>
      ObjectId.isValid vendorId = true
      /\ vs !! ObjectId.hex vendorId = None
      /\ message = "Vendor not found" /\ vs' = vs
  | (Throw (BadRequestException message), vs') =>
      ObjectId.isValid vendorId = true
      /\ (exists v, vs !! ObjectId.hex vendorId = Some v
                    /\ forall h, In h (Vendor.workingHours v) -> ~ named h)
      /\ message = "Invalid day: " +:+ Update.day update
      /\ vs' = vs
  | (Throw (CastError message), vs') =>
      ObjectId.isValid vendorId = false /\ vs' = vs
  | (Throw _, _) => False
  end.
Proof.
  intros _ named. rewrite updateWorkingHours_cases.
  destruct (cast_cases "Vendor" vendorId) as [[Hid ->] | [Hid [message ->]]];
    [|split; [exact Hid | reflexivity]].
  destruct (vs !! ObjectId.hex vendorId) as [v|] eqn:Hv; [|repeat split; assumption].
  destruct (findIndex _ _) as [i|] eqn:Hidx.
  - destruct (findIndex_Some _ _ _ Hidx) as (h & Hh & Hph & _).
    split; [exact Hid|]. exists v. split; [reflexivity|]. split; [|reflexivity].
    exists h. split; [|apply sameDay_iff, Hph].
    apply list_elem_of_In. eapply list_elem_of_lookup_2. exact Hh.
  - split; [exact Hid|]. split; [|split; reflexivity]. exists v. split; [reflexivity|].
    intros h Hin Hnamed. apply sameDay_iff in Hnamed.
    rewrite (proj1 (findIndex_None _ _) Hidx h Hin) in Hnamed. discriminate.
Qed.

(** X2. A successful [updateWorkingHours] changes nothing but the working
    hours of the one vendor: the stored vendor keeps its name, password
    and [isStoreOpen] flag and gets the returned list as its hours; the
    list has the same days in the same order as before (no entry is
    added, dropped or renamed); every other vendor is as before. *)
Theorem updateWorkingHours_changes_hours_only
    (vs vs' : gmap string Vendor.t) (vendorId : string) (update : Update.t)
    (hours' : list WorkingHours.t) :
  updateWorkingHours vendorId update vs = (Ok hours', vs') ->
  exists v,
    ObjectId.isValid vendorId = true
    /\ vs !! ObjectId.hex vendorId = Some v
    /\ vs' !! ObjectId.hex vendorId
       = Some (Vendor.mk (Vendor.restaurantName v) (Vendor.password v)
                 (Vendor.isStoreOpen v) hours')
    /\ map WorkingHours.day hours' = map WorkingHours.day (Vendor.workingHours v)
    /\ (forall other, other <> ObjectId.hex vendorId -> vs' !! other = vs !! other).
Proof.
  rewrite updateWorkingHours_cases.
  destruct (cast_cases "Vendor" vendorId) as [[Hid ->] | [Hid [message ->]]];
    [|discriminate].
  destruct (vs !! ObjectId.hex vendorId) as [v|] eqn:Hv; [|discriminate].
  destruct (findIndex _ _) as [i|]; [|discriminate].
  intros Hrun. inversion Hrun; subst. exists v.
  split; [exact Hid|].
  split; [reflexivity|]. split; [rewrite lookup_insert_eq; reflexivity|].
  split; [apply alter_days|].
  intros other Hne. rewrite lookup_insert_ne by congruence. reflexivity.
Qed.

(** X3. [updateWorkingHours] is idempotent: making the same call twice in
    a row returns what one call returns and leaves the collection as one
    call leaves it, also when the call throws. *)
Theorem updateWorkingHours_idempotent
    (vs : gmap string Vendor.t) (vendorId : string) (update : Update.t) :
  bind (updateWorkingHours vendorId update)
       (fun _ => updateWorkingHours vendorId update) vs
  = updateWorkingHours vendorId update vs.
Proof.
  unfold bind. rewrite (updateWorkingHours_cases vs).
  destruct (ObjectId.cast "Vendor" vendorId) as [oid|e] eqn:Hcast; [|reflexivity].
  destruct (vs !! oid) as [v|] eqn:Hv; [|reflexivity].
  destruct (findIndex _ _) as [i|] eqn:Hidx; [|reflexivity].
  cbv beta iota zeta. rewrite updateWorkingHours_cases, Hcast, lookup_insert_eq.
  cbn [Vendor.setWorkingHours Vendor.workingHours].
  rewrite (findIndex_alter _ _ _ _ (sameDay_applyUpdate _ update)), Hidx.
  cbv zeta. rewrite list_alter_alter_eq.
  rewrite (list_alter_ext (applyUpdate update ∘ applyUpdate update) (applyUpdate update)
             (Vendor.workingHours v) (Vendor.workingHours v) i)
    by (intros; try apply applyUpdate_idempotent; reflexivity).
  rewrite insert_insert_eq. reflexivity.
Qed.

(** X4. Updates of two different days commute: on a vendor that has an
    entry for each of the two requested days, the days being different up
    to letter case, the two calls made in either order return the same
    final list and leave the same collection. *)
Theorem updateWorkingHours_commute
    (vs : gmap string Vendor.t) (vendorId : string) (v : Vendor.t)
    (first second : Update.t) :
  ObjectId.isValid vendorId = true ->
  vs !! ObjectId.hex vendorId = Some v ->
  toLowerCase (Update.day first) <> toLowerCase (Update.day second) ->
  (exists h, In h (Vendor.workingHours v)
             /\ toLowerCase (WorkingHours.day h) = toLowerCase (Update.day first)) ->
  (exists h, In h (Vendor.workingHours v)
             /\ toLowerCase (WorkingHours.day h) = toLowerCase (Update.day second)) ->
  bind (updateWorkingHours vendorId first)
       (fun _ => updateWorkingHours vendorId second) vs
  = bind (updateWorkingHours vendorId second)
         (fun _ => updateWorkingHours vendorId first) vs.
Proof.
  intros Hid Hv Hdiff (h1 & Hin1 & Hd1) (h2 & Hin2 & Hd2).
  destruct (findIndex (sameDay (Update.day first)) (Vendor.workingHours v))
    as [i|] eqn:Hi.
  2:{ exfalso. pose proof (proj1 (findIndex_None _ _) Hi h1 Hin1) as Hf.
      apply sameDay_iff in Hd1. congruence. }
  destruct (findIndex (sameDay (Update.day second)) (Vendor.workingHours v))
    as [j|] eqn:Hj.
  2:{ exfalso. pose proof (proj1 (findIndex_None _ _) Hj h2 Hin2) as Hf.
      apply sameDay_iff in Hd2. congruence. }
  assert (Hij : i <> j).
  { intros ->.
    destruct (findIndex_Some _ _ _ Hi) as (x & Hx & Hpx & _).
    destruct (findIndex_Some _ _ _ Hj) as (y & Hy & Hpy & _).
    rewrite Hx in Hy. inversion Hy; subst y.
    apply sameDay_iff in Hpx. apply sameDay_iff in Hpy. unfold sameName in *. congruence. }
  unfold bind. rewrite !(updateWorkingHours_cases vs), (cast_wellFormed _ _ Hid), Hv, Hi, Hj.
  cbv beta iota zeta.
  rewrite !updateWorkingHours_cases, (cast_wellFormed _ _ Hid), !lookup_insert_eq.
  cbn [Vendor.setWorkingHours Vendor.workingHours].
  rewrite (findIndex_alter _ _ _ _ (sameDay_applyUpdate _ first)), Hj.
  rewrite (findIndex_alter _ _ _ _ (sameDay_applyUpdate _ second)), Hi.
  cbv zeta. rewrite !insert_insert_eq.
  rewrite (list_alter_alter_ne (applyUpdate second) (applyUpdate first)
             (Vendor.workingHours v) j i) by congruence.
  reflexivity.
Qed.

End WorkingHoursMore.

(** ** Store flag, vendor listing, and the update-working-hours route *)

Section StoreFlagMore.
Context {R : JsRuntime}.
Import VendorService.

Lemma store_flip_cases (vs : gmap string Vendor.t) (vendorId : string) (flag : bool) :
  (if flag then openStore vendorId vs else closeStore vendorId vs)
  = match ObjectId.cast "Vendor" vendorId with
    | Throw e => (Throw e, vs)
    | Ok oid =>
        match vs !! oid with
        | Some v => (Ok (Vendor.withoutPassword (Vendor.setIsStoreOpen flag v)),
                     <[oid := Vendor.setIsStoreOpen flag v]> vs)
        | None => (Throw (NotFoundException "Vendor not found"), vs)
        end
    end.
Proof.
  unfold openStore, closeStore, bind, Model_findByIdAndUpdate_isStoreOpen, ret, throw.
  destruct (ObjectId.cast "Vendor" vendorId) as [oid|e]; [|destruct flag; reflexivity].
  destruct (vs !! oid); destruct flag; reflexivity.
Qed.

(** X5. Of two store flips on one vendor made in a row, the last one wins:
    [openStore] then [closeStore] returns and stores what [closeStore]
    alone does, and conversely; for an unknown vendor and for a malformed
    id both sequences throw what the single call throws. *)
Theorem last_store_flip_wins (vs : gmap string Vendor.t) (vendorId : string) :
  bind (openStore vendorId) (fun _ => closeStore vendorId) vs = closeStore vendorId vs
  /\ bind (closeStore vendorId) (fun _ => openStore vendorId) vs = openStore vendorId vs.
Proof.
  unfold bind.
  rewrite (store_flip_cases vs vendorId true), (store_flip_cases vs vendorId false).
  destruct (ObjectId.cast "Vendor" vendorId) as [oid|e] eqn:Hcast; [|split; reflexivity].
  destruct (vs !! oid) as [v|] eqn:Hv; cbv beta iota; [|split; reflexivity].
  rewrite (store_flip_cases _ vendorId false), (store_flip_cases _ vendorId true), Hcast.
  rewrite !lookup_insert_eq, !insert_insert_eq. split; reflexivity.
Qed.

(** X6. A store flip that returns hands out the vendor without its
    password, yet keeps the password stored; it changes the flag of that
    vendor only: name and working hours of the vendor and every other
    vendor are as before. *)
Theorem store_flip_changes_flag_only
    (vs vs' : gmap string Vendor.t) (vendorId : string) (flag : bool) (v' : Vendor.t) :
  (if flag then openStore vendorId vs else closeStore vendorId vs) = (Ok v', vs') ->
  exists stored,
    ObjectId.isValid vendorId = true
    /\ vs !! ObjectId.hex vendorId = Some stored
    /\ Vendor.password v' = None
    /\ Vendor.isStoreOpen v' = flag
    /\ vs' !! ObjectId.hex vendorId
       = Some (Vendor.mk (Vendor.restaurantName stored) (Vendor.password stored) flag
                 (Vendor.workingHours stored))
    /\ (forall other, other <> ObjectId.hex vendorId -> vs' !! other = vs !! other).
Proof.
  rewrite (store_flip_cases vs vendorId flag).
  destruct (cast_cases "Vendor" vendorId) as [[Hid ->] | [Hid [message ->]]];
    [|discriminate].
  destruct (vs !! ObjectId.hex vendorId) as [stored|]; [|discriminate].
  intros Hcase. inversion Hcase; subst. exists stored.
  split; [exact Hid|].
  split; [reflexivity|]. split; [reflexivity|]. split; [reflexivity|].
  split; [rewrite lookup_insert_eq; reflexivity|].
  intros other Hne. rewrite lookup_insert_ne by congruence. reflexivity.
Qed.

(** X7. [findAll] lists the stored vendors, each without its password: a
    vendor is listed exactly when it is a stored vendor stripped of its
    password, there are as many listed as stored, and the collection is
    only read; on the empty collection the list is empty. *)
Theorem findAll_lists_every_vendor_without_password (vs : gmap string Vendor.t) :
  exists listed,
    findAll vs = (Ok listed, vs)
    /\ length listed = size vs
    /\ (forall v, In v listed -> Vendor.password v = None)
    /\ (forall v, In v listed
                  <-> exists id stored, vs !! id = Some stored
                                        /\ v = Vendor.withoutPassword stored)
    /\ (vs = ∅ -> listed = []).
Proof.
  exists (Vendor.withoutPassword <$> (snd <$> map_to_list vs)).
  split; [reflexivity|].
  assert (Hin : forall v,
             In v (Vendor.withoutPassword <$> (snd <$> map_to_list vs))
             <-> exists id stored, vs !! id = Some stored
                                   /\ v = Vendor.withoutPassword stored).
  { intros v. rewrite <- list_elem_of_In, list_elem_of_fmap. split.
    - intros (stored & -> & Hs). apply list_elem_of_fmap in Hs as ([id s] & -> & Hs).
      apply elem_of_map_to_list in Hs. exists id, s. split; [exact Hs | reflexivity].
    - intros (id & stored & Hs & ->). exists stored. split; [reflexivity|].
      apply list_elem_of_fmap. exists (id, stored). split; [reflexivity|].
      apply elem_of_map_to_list. exact Hs. }
  split; [rewrite !length_fmap; apply length_map_to_list|].
  split; [intros v Hv; apply Hin in Hv as (id & stored & _ & ->); reflexivity|].
  split; [exact Hin|].
  intros ->. rewrite map_to_list_empty. reflexivity.
Qed.

(** X8. The update-working-hours route answers with the service's list
    when the service returns. When the service throws, the route throws
    an [HttpException] and writes nothing: its status is 404, with the
    service's message, exactly when the id is a well-formed ObjectId
    under which no vendor is stored; 400, with the service's message,
    exactly when the vendor is stored and has no entry for the requested
    day; and 500 exactly when the id is not a well-formed ObjectId (nor
    12 characters long), the error of the id cast being none of the
    classes the route tells apart. *)
Theorem update_working_hours_route_statuses
    (vs : gmap string Vendor.t) (userId : string) (dto : Update.t) :
  length (Text.chars userId) <> 12%nat ->
  match VendorController.updateWorkingHours userId dto vs with
  | (VendorController.Returns hours, vs') =>
      updateWorkingHours userId dto vs = (Ok hours, vs')
  | (VendorController.Throws e, vs') =>
      vs' = vs
      /\ ((VendorController.getStatus e = 404
           /\ VendorController.getMessage e = "Vendor not found"
           /\ ObjectId.isValid userId = true
           /\ vs !! ObjectId.hex userId = None)
          \/ (VendorController.getStatus e = 400
              /\ VendorController.getMessage e = "Invalid day: " +:+ Update.day dto
              /\ ObjectId.isValid userId = true
              /\ exists v, vs !! ObjectId.hex userId = Some v
                           /\ forall h, In h (Vendor.workingHours v) ->
                                toLowerCase (WorkingHours.day h)
                                <> toLowerCase (Update.day dto))
          \/ (VendorController.getStatus e = 500
              /\ ObjectId.isValid userId = false
              /\ exists message,
                   updateWorkingHours userId dto vs = (Throw (CastError message), vs)
                   /\ VendorController.getMessage e = message))
  end.
Proof.
  intros _. unfold VendorController.updateWorkingHours. rewrite updateWorkingHours_cases.
  destruct (ObjectId.isValid userId) eqn:Hid.
  - rewrite (cast_wellFormed _ _ Hid).
    destruct (vs !! ObjectId.hex userId) as [v|] eqn:Hv.
    + destruct (findIndex _ _) as [i|] eqn:Hidx; [reflexivity|].
      split; [reflexivity|]. right. left.
      split; [reflexivity|]. split; [reflexivity|]. split; [reflexivity|].
      exists v. split; [reflexivity|].
      intros h Hin Hnamed. apply sameDay_iff in Hnamed.
      rewrite (proj1 (findIndex_None _ _) Hidx h Hin) in Hnamed. discriminate.
    + split; [reflexivity|]. left. repeat split.
  - unfold ObjectId.cast. rewrite Hid.
    split; [reflexivity|]. right. right.
    split; [reflexivity|]. split; [reflexivity|]. eexists. split; reflexivity.
Qed.

End StoreFlagMore.

(** *** The statements at the sample kitchen *)

Section VendorSamples.
Import VendorService.

Lemma updateWorkingHours_changes_hours_only_witness :
  exists hours',
    returned (updateWorkingHours Sample.vendorId Sample.closeTuesdayEarly Sample.vendorModel)
    = Some hours'
    /\ map WorkingHours.day hours' = ["Monday"; "Tuesday"].
Proof.
  destruct (updateWorkingHours Sample.vendorId Sample.closeTuesdayEarly Sample.vendorModel)
    as [[hours'|e] vs'] eqn:Hrun; [|vm_compute in Hrun; discriminate].
  destruct (updateWorkingHours_changes_hours_only _ _ _ _ _ Hrun)
    as (v & _ & Hv & _ & Hdays & _).
  exists hours'. split; [reflexivity|].
  rewrite Hdays.
  assert (Hk : Sample.vendorModel !! ObjectId.hex Sample.vendorId = Some Sample.kitchen)
    by (vm_compute; reflexivity).
  rewrite Hk in Hv. inversion Hv; subst v. reflexivity.
Defined.

Lemma updateWorkingHours_commute_witness :
  bind (updateWorkingHours Sample.vendorId Sample.openMondayLate)
       (fun _ => updateWorkingHours Sample.vendorId Sample.closeTuesdayEarly)
       Sample.vendorModel
  = bind (updateWorkingHours Sample.vendorId Sample.closeTuesdayEarly)
         (fun _ => updateWorkingHours Sample.vendorId Sample.openMondayLate)
         Sample.vendorModel.
Proof.
  apply (updateWorkingHours_commute Sample.vendorModel Sample.vendorId Sample.kitchen).
  - vm_compute; reflexivity.
  - vm_compute; reflexivity.
  - vm_compute; discriminate.
  - exists Sample.monday. split; [left; reflexivity | vm_compute; reflexivity].
  - exists Sample.tuesday. split; [right; left; reflexivity | vm_compute; reflexivity].
Defined.

Lemma store_flip_changes_flag_only_witness :
  exists v',
    returned (openStore Sample.vendorId Sample.vendorModel) = Some v'
    /\ Vendor.password v' = None
    /\ Vendor.isStoreOpen v' = true.
Proof.
  destruct (openStore Sample.vendorId Sample.vendorModel) as [[v'|e] vs'] eqn:Hrun;
    [|vm_compute in Hrun; discriminate].
  destruct (store_flip_changes_flag_only Sample.vendorModel vs' Sample.vendorId true v' Hrun)
    as (stored & _ & _ & Hpw & Hflag & _).
  exists v'. split; [reflexivity|]. split; [exact Hpw | exact Hflag].
Defined.

(** The malformed id [vendor-7]: the service throws the error of the
    cast and the route answers with status 500. *)
Lemma updateWorkingHours_outcomes_witness :
  ObjectId.isValid "vendor-7" = false
  /\ snd (updateWorkingHours "vendor-7" Sample.sundayOff Sample.vendorModel)
     = Sample.vendorModel.
Proof.
  pose proof (updateWorkingHours_outcomes Sample.vendorModel "vendor-7" Sample.sundayOff
                ltac:(vm_compute; discriminate)) as Hout.
  cbv zeta in Hout.
  destruct (updateWorkingHours "vendor-7" Sample.sundayOff Sample.vendorModel)
    as [[hours'|e] vs'] eqn:Hrun; [vm_compute in Hrun; discriminate|].
  destruct e; try (vm_compute in Hrun; discriminate). exact Hout.
Defined.

Lemma update_working_hours_route_statuses_witness :
  exists e,
    fst (VendorController.updateWorkingHours "vendor-7" Sample.sundayOff Sample.vendorModel)
    = VendorController.Throws e
    /\ VendorController.getStatus e = 500.
Proof.
  pose proof (update_working_hours_route_statuses Sample.vendorModel "vendor-7"
                Sample.sundayOff ltac:(vm_compute; discriminate)) as Hout.
  destruct (VendorController.updateWorkingHours "vendor-7" Sample.sundayOff
              Sample.vendorModel) as [[hours|e] vs'] eqn:Hrun;
    [vm_compute in Hrun; discriminate|].
  exists e. split; [reflexivity|].
  destruct Hout as [_ [(_ & _ & Hid & _) | [(_ & _ & Hid & _) | (Hstatus & _)]]];
    [vm_compute in Hid; discriminate | vm_compute in Hid; discriminate | exact Hstatus].
Defined.

End VendorSamples.

(** ** Order creation, further *)

Section CreateMore.
Context {N : JsNumber} {R : JsRuntime}.
Import OrderService.

(** The loop looks at nothing but the catalogue. *)
Lemma forEachItem_catalogue (db1 db2 : Db) (items : list OrderItem.t) (acc : number) :
  menuItems db1 = menuItems db2 ->
  fst (forEachItem items acc db1) = fst (forEachItem items acc db2).
Proof.
  intros Hmenu. revert acc.
  induction items as [|item rest IH]; intros acc; simpl; [reflexivity|].
  unfold bind, MenuService.findOne. simpl. rewrite Hmenu.
  destruct (menuItems db2 !! OrderItem.menuItemId item) as [mi|]; [|reflexivity].
  destruct (MenuItem.isEnabled mi); simpl; [apply IH | reflexivity].
Qed.

(** [create], by cases on its lookups and on the outcome of the loop. *)
Lemma create_cases (db : Db) (generated : string) (now : Z)
      (userId : string) (dto : CreateOrderDto.t) :
  create generated now userId dto db
  = match customers db !! userId with
    | None => (Throw (NotFoundException "Customer not found"), db)
    | Some customer =>
        match ObjectId.cast "Vendor" (CreateOrderDto.vendorId dto) with
        | Throw e => (Throw e, db)
        | Ok oid =>
            match vendors db !! oid with
            | None => (Throw (NotFoundException "Vendor not found"), db)
            | Some vendor =>
                if Vendor.isStoreOpen vendor then
                  match fst (forEachItem (CreateOrderDto.items dto) num_zero db) with
                  | Ok totalAmount =>
                      let order :=
                        {| Order.orderId := "ST-" +:+ generated;
                           Order.customerId := userId;
                           Order.vendorId := CreateOrderDto.vendorId dto;
                           Order.customerName := Customer.fullName customer;
                           Order.phoneNumber := CreateOrderDto.phoneNumber dto;
                           Order.deliveryType := CreateOrderDto.deliveryType dto;
                           Order.location := CreateOrderDto.location dto;
                           Order.address := CreateOrderDto.address dto;
                           Order.items := CreateOrderDto.items dto;
                           Order.totalAmount := totalAmount;
                           Order.status := PENDING;
                           Order.notes := CreateOrderDto.notes dto;
                           Order.isDeleted := Some false;
                           Order.createdAt := now |} in
                      (Ok order, withOrder db order)
                  | Throw e => (Throw e, db)
                  end
                else (Throw (BadRequestException "Vendor store is currently closed"), db)
            end
        end
    end.
Proof.
  destruct (customers db !! userId) as [c|] eqn:Hc;
    [|apply create_unknown_customer; exact Hc].
  destruct (ObjectId.isValid (CreateOrderDto.vendorId dto)) eqn:Hid.
  - rewrite (cast_wellFormed _ _ Hid).
    destruct (vendors db !! ObjectId.hex (CreateOrderDto.vendorId dto)) as [v|] eqn:Hv;
      [|eapply create_unknown_vendor; eassumption].
    rewrite (create_after_lookups db generated now userId dto c v Hc (conj Hid Hv)).
    destruct (Vendor.isStoreOpen v); simpl; [|reflexivity].
    destruct (forEachItem (CreateOrderDto.items dto) num_zero db) as [[t|e] d]; reflexivity.
  - unfold create, bind at 1. unfold CustomerService.findById at 1. rewrite Hc.
    unfold bind at 1.
    unfold liftVendor, VendorService.findById, VendorService.bind,
      VendorService.Model_findById, ObjectId.cast.
    rewrite Hid. destruct db; reflexivity.
Qed.

(** [create] with the cast of the vendor id settled. *)
Ltac create_lookups :=
  rewrite create_cases;
  match goal with
  | |- context [customers ?db !! ?userId] =>
      destruct (customers db !! userId) as [[?name]|]; [|discriminate]
  end;
  match goal with
  | |- context [ObjectId.cast "Vendor" ?id] =>
      let Hid := fresh "Hid" in
      destruct (cast_cases "Vendor" id) as [[Hid ->] | [Hid [? ->]]]; [|discriminate]
  end;
  match goal with
  | |- context [vendors ?db !! ?oid] =>
      destruct (vendors db !! oid) as [?v|]; [|discriminate]
  end;
  match goal with
  | |- context [Vendor.isStoreOpen ?v] => destruct (Vendor.isStoreOpen v); [|discriminate]
  end;
  match goal with
  | |- context [fst (forEachItem ?items ?acc ?db)] =>
      destruct (fst (forEachItem items acc db)) as [?t|?e]; [|discriminate]
  end.

(** What a returning [create] has stored, as far as the queries look. *)
Lemma create_Ok_inv (db db' : Db) (generated : string) (now : Z) (userId : string)
      (dto : CreateOrderDto.t) (order : Order.t) :
  create generated now userId dto db = (Ok order, db') ->
  db' = withOrder db order
  /\ ObjectId.isValid (CreateOrderDto.vendorId dto) = true
  /\ Order.vendorId order = CreateOrderDto.vendorId dto
  /\ Order.isDeleted order = Some false
  /\ Order.createdAt order = now.
Proof.
  create_lookups.
  intros Hrun. inversion Hrun; subst. repeat split. assumption.
Qed.

(** X9. The order that [create] returns is the one it stored, last in
    the collection. It carries the code "ST-" followed by the generated
    text, the id of the calling user, the vendor id, phone number,
    delivery data, notes and items of the request as submitted, the
    [fullName] the customer has at the time of the call, the time stamp of
    the call, and it is not deleted. *)
Theorem create_records_the_request
    (db db' : Db) (generated : string) (now : Z) (userId : string)
    (dto : CreateOrderDto.t) (order : Order.t) :
  create generated now userId dto db = (Ok order, db') ->
  last (orders db') = Some order
  /\ Order.orderId order = "ST-" +:+ generated
  /\ Order.customerId order = userId
  /\ customers db !! userId = Some (Customer.mk (Order.customerName order))
  /\ Order.vendorId order = CreateOrderDto.vendorId dto
  /\ Order.phoneNumber order = CreateOrderDto.phoneNumber dto
  /\ Order.deliveryType order = CreateOrderDto.deliveryType dto
  /\ Order.location order = CreateOrderDto.location dto
  /\ Order.address order = CreateOrderDto.address dto
  /\ Order.notes order = CreateOrderDto.notes dto
  /\ Order.items order = CreateOrderDto.items dto
  /\ Order.isDeleted order = Some false
  /\ Order.createdAt order = now.
Proof.
  create_lookups.
  intros Hrun. inversion Hrun; subst. simpl.
  split; [apply last_snoc|]. repeat split.
Qed.

(** X11. The store flag set through the vendor service decides the
    store check of [create]. For a customer and a vendor that resolve:
    after [closeStore] the call throws BadRequest "Vendor store is
    currently closed" and no order is added; after [openStore] a call
    whose items all resolve to enabled menu items returns an order with
    the sum of the line amounts and adds it. *)
Theorem create_follows_the_store_flag
    (db : Db) (generated : string) (now : Z) (userId : string)
    (dto : CreateOrderDto.t) (customer : Customer.t) (vendor : Vendor.t) :
  customers db !! userId = Some customer ->
  vendorOf db dto vendor ->
  (exists db',
     bind (liftVendor (VendorService.closeStore (CreateOrderDto.vendorId dto)))
          (fun _ => create generated now userId dto) db
     = (Throw (BadRequestException "Vendor store is currently closed"), db')
     /\ orders db' = orders db)
  /\
  (forall found,
     Forall2 (orderable db) (CreateOrderDto.items dto) found ->
     exists order db',
       bind (liftVendor (VendorService.openStore (CreateOrderDto.vendorId dto)))
            (fun _ => create generated now userId dto) db
       = (Ok order, db')
       /\ orders db' = (orders db ++ [order])%list
       /\ Order.totalAmount order
          = sumOf (zip_with lineAmount (CreateOrderDto.items dto) found)).
Proof.
  intros Hc [Hid Hv].
  pose proof (store_flip_cases (vendors db) (CreateOrderDto.vendorId dto) true) as Hopen.
  pose proof (store_flip_cases (vendors db) (CreateOrderDto.vendorId dto) false) as Hclose.
  rewrite (cast_wellFormed _ _ Hid), Hv in Hopen, Hclose.
  cbv beta iota in Hopen, Hclose.
  split.
  - unfold bind, liftVendor. rewrite Hclose.
    set (db1 := mkDb _ _ _ _).
    rewrite (create_after_lookups db1 generated now userId dto customer
               (Vendor.setIsStoreOpen false vendor)
               Hc ltac:(split; [exact Hid | subst db1; simpl; apply lookup_insert_eq])).
    simpl. exists db1. split; reflexivity.
  - intros found Hitems. unfold bind, liftVendor. rewrite Hopen.
    set (db1 := mkDb _ _ _ _).
    rewrite (create_after_lookups db1 generated now userId dto customer
               (Vendor.setIsStoreOpen true vendor)
               Hc ltac:(split; [exact Hid | subst db1; simpl; apply lookup_insert_eq])).
    assert (Hitems1 : Forall2 (orderable db1) (CreateOrderDto.items dto) found).
    { eapply Forall2_impl; [exact Hitems|]. intros item mi Hor. exact Hor. }
    simpl. rewrite (forEachItem_orderable db1 _ found num_zero Hitems1).
    eexists. eexists. split; [reflexivity|]. split; reflexivity.
Qed.

(** X12. Working hours do not gate orders: on the store that a returning
    [updateWorkingHours] has left, whatever the vendor and the update
    (also one that marks a day inactive), every [create] call has the
    outcome it has on the store before, and leaves the same orders. *)
Theorem working_hours_do_not_gate_orders
    (db db1 : Db) (vendorId : string) (update : VendorService.Update.t)
    (hours' : list WorkingHours.t)
    (generated : string) (now : Z) (userId : string) (dto : CreateOrderDto.t) :
  liftVendor (VendorService.updateWorkingHours vendorId update) db = (Ok hours', db1) ->
  fst (create generated now userId dto db1) = fst (create generated now userId dto db)
  /\ orders (snd (create generated now userId dto db1))
     = orders (snd (create generated now userId dto db)).
Proof.
  unfold liftVendor. rewrite updateWorkingHours_cases.
  destruct (ObjectId.cast "Vendor" vendorId) as [oid|e0]; [|discriminate].
  destruct (vendors db !! oid) as [v|] eqn:Hv; [|discriminate].
  destruct (VendorService.findIndex _ _) as [i|]; [|discriminate].
  cbv zeta. intros Hrun. inversion Hrun; subst. clear Hrun.
  set (hours := alter (VendorService.applyUpdate update) i (Vendor.workingHours v)).
  set (db1 := mkDb _ _ _ _).
  assert (Hloop : fst (forEachItem (CreateOrderDto.items dto) num_zero db1)
                  = fst (forEachItem (CreateOrderDto.items dto) num_zero db))
    by (apply forEachItem_catalogue; reflexivity).
  rewrite !create_cases, Hloop.
  change (customers db1) with (customers db).
  change (vendors db1) with (<[oid := Vendor.setWorkingHours hours v]> (vendors db)).
  destruct (customers db !! userId) as [c|]; [|split; reflexivity].
  destruct (ObjectId.cast "Vendor" (CreateOrderDto.vendorId dto)) as [asked|e0];
    [|split; reflexivity].
  destruct (decide (oid = asked)) as [<-|Hne].
  - rewrite lookup_insert_eq, Hv. cbn [Vendor.isStoreOpen Vendor.setWorkingHours].
    destruct (Vendor.isStoreOpen v); [|split; reflexivity].
    destruct (fst (forEachItem _ _ db)) as [t|e]; split; reflexivity.
  - rewrite lookup_insert_ne by exact Hne.
    destruct (vendors db !! asked) as [w|]; [|split; reflexivity].
    destruct (Vendor.isStoreOpen w); [|split; reflexivity].
    destruct (fst (forEachItem _ _ db)) as [t|e]; split; reflexivity.
Qed.

End CreateMore.
(** ** Vendor order queries, further *)

Section QueryMore.
Context {N : JsNumber} {R : JsRuntime} {D : Database}.
Import OrderService.

(** X13. A vendor id that is not 24 hexadecimal digits (and not 12
    characters long, a length some releases of the identifier constructor
    take as raw bytes) makes both queries throw the [BSONError] of the
    constructor, whatever page, limit, dates and search term are, and
    nothing is written. *)
Theorem query_rejects_malformed_vendor_id
    (vendorId : string) (query : Query) (range : option (Z * Z)) :
  queryMode vendorId query range ->
  ObjectId.isValid vendorId = false ->
  length (Text.chars vendorId) <> 12%nat ->
  forall page limit search db,
    exists message, query page limit search db = (Throw (BSONError message), db).
Proof.
  intros Hmode Hbad _ page limit search db.
  rewrite (query_runs vendorId query range Hmode).
  unfold ObjectId.new. rewrite Hbad. eexists. reflexivity.
Qed.

(** X14. The date filter of the "all orders" query needs both bounds: a
    call with only a start date or only an end date answers as the call
    with neither. *)
Theorem findAllVendorOrders_needs_both_bounds
    (vendorId : string) (page limit : option Js.num) (bound : Z)
    (search : option string) (db : Db) :
  findAllVendorOrders vendorId page limit (Some bound) None search db
  = findAllVendorOrders vendorId page limit None None search db
  /\ findAllVendorOrders vendorId page limit None (Some bound) search db
     = findAllVendorOrders vendorId page limit None None search db.
Proof.
  rewrite (query_runs vendorId _ _ (AllOrders vendorId (Some bound) None)).
  rewrite (query_runs vendorId _ _ (AllOrders vendorId None (Some bound))).
  rewrite (query_runs vendorId _ _ (AllOrders vendorId None None)).
  split; reflexivity.
Qed.

(** What an answer holds and counts lies in the scope of the query. *)
Lemma answer_in_scope (vendorId : string) (query : Query) (range : option (Z * Z)) :
  queryMode vendorId query range ->
  forall page limit search db r db',
    query page limit search db = (Ok r, db') ->
    (forall o, In o (VendorOrders.orders r) -> In o (orders db) /\ inScope vendorId range o)
    /\ VendorOrders.total r
       = Z.of_nat (length (List.filter (selection vendorId range search) (orders db)))
    /\ (forall o, selection vendorId range search o = true -> inScope vendorId range o)
    /\ (forall l, VendorOrders.limit r = Js.Int l ->
          1 <= l
          /\ VendorOrders.totalPages r = Js.Int (Js.ceilDiv (VendorOrders.total r) l)).
Proof.
  intros Hmode page limit search db r db' Hrun.
  destruct (query_returns vendorId query range Hmode _ _ _ _ _ _ Hrun)
    as (_ & _ & _ & _ & skip & count & _ & _ & Hr).
  assert (Hscope : forall o, selection vendorId range search o = true ->
                             inScope vendorId range o).
  { intros o Ho. apply selection_sorted_sublist in Ho. tauto. }
  subst r. cbn [VendorOrders.orders VendorOrders.total VendorOrders.limit
                  VendorOrders.totalPages answer].
  split; [|split; [reflexivity | split; [exact Hscope|]]].
  - intros o Ho. apply cursor_In in Ho.
    apply (Permutation_in _ (sortByCreatedAtDesc_perm _)) in Ho.
    apply filter_In in Ho as [Hdb Ho]. split; [exact Hdb | exact (Hscope o Ho)].
  - intros l Hlimit. pose proof (parseLimit_bounds limit) as [Hl _].
    rewrite Hlimit in *. simpl in Hl. split; [exact Hl | reflexivity].
Qed.

(** X15. With both bounds, the "all orders" query returns and counts only
    orders created within the bounds, both included; when the end date
    lies before the start date the answer is empty: no order, total 0
    and, for a whole limit, 0 pages. *)
Theorem findAllVendorOrders_date_range
    (vendorId : string) (page limit : option Js.num) (startDate endDate : Z)
    (search : option string) (db db' : Db) (r : VendorOrders.t) :
  findAllVendorOrders vendorId page limit (Some startDate) (Some endDate) search db
  = (Ok r, db') ->
  (forall o, In o (VendorOrders.orders r) ->
             startDate <= Order.createdAt o <= endDate)
  /\ VendorOrders.total r
     <= Z.of_nat (length (List.filter
                            (fun o => (Z.leb startDate (Order.createdAt o)
                                       && Z.leb (Order.createdAt o) endDate)%bool)
                            (orders db)))
  /\ (endDate < startDate ->
      VendorOrders.orders r = []
      /\ VendorOrders.total r = 0
      /\ forall l, VendorOrders.limit r = Js.Int l -> VendorOrders.totalPages r = Js.Int 0).
Proof.
  intros Hrun.
  destruct (answer_in_scope vendorId _ _ (AllOrders vendorId (Some startDate) (Some endDate))
              _ _ _ _ _ _ Hrun) as (Hin & Htotal & Hscope & Hpages).
  set (sel := selection vendorId (bothBounds (Some startDate) (Some endDate)) search) in *.
  assert (Hrange : forall o, sel o = true ->
                             startDate <= Order.createdAt o <= endDate).
  { intros o Ho. apply Hscope in Ho as (_ & _ & Hw). exact Hw. }
  split; [|split].
  - intros o Ho. apply Hin in Ho as [_ (_ & _ & Hw)]. exact Hw.
  - rewrite Htotal. apply inj_le. clear -Hrange.
    induction (orders db) as [|o l IH]; simpl; [lia|].
    destruct (sel o) eqn:Ho.
    + pose proof (Hrange o Ho) as [H1 H2].
      apply Z.leb_le in H1, H2. rewrite H1, H2. simpl. lia.
    + destruct (_ && _)%bool; simpl; lia.
  - intros Hinv.
    assert (Hnone : List.filter sel (orders db) = []).
    { clear -Hrange Hinv. induction (orders db) as [|o l IH]; simpl; [reflexivity|].
      destruct (sel o) eqn:Ho; [|exact IH]. apply Hrange in Ho. lia. }
    assert (Hzero : VendorOrders.total r = 0) by (rewrite Htotal, Hnone; reflexivity).
    split; [|split; [exact Hzero|]].
    + destruct (VendorOrders.orders r) as [|o rest]; [reflexivity|].
      destruct (Hin o (or_introl eq_refl)) as [_ (_ & _ & Hw)]. simpl in Hw. lia.
    + intros l Hl. destruct (Hpages l Hl) as [Hl1 ->]. rewrite Hzero.
      rewrite ceilDiv_pos by lia. rewrite Z.div_0_l by lia. reflexivity.
Qed.

(** X16. The "today" query is the "all orders" query between two
    instants the runtime computes: local midnight, [setHours(0, 0, 0, 0)],
    of the day of its first reading of the clock, and
    [setHours(23, 59, 59, 999)] of the day of its second. Every order of
    an answer was created between the two, both included. *)
Theorem getTodaysVendorOrders_is_a_dated_query
    (now1 now2 : Z) (vendorId : string) (page limit : option Js.num)
    (search : option string) (db : Db) :
  getTodaysVendorOrders now1 now2 vendorId page limit search db
  = findAllVendorOrders vendorId page limit
      (Some (setHours 0 0 0 0 now1)) (Some (setHours 23 59 59 999 now2))
      search db
  /\ forall r db',
       getTodaysVendorOrders now1 now2 vendorId page limit search db = (Ok r, db') ->
       forall o, In o (VendorOrders.orders r) ->
                 setHours 0 0 0 0 now1 <= Order.createdAt o <= setHours 23 59 59 999 now2.
Proof.
  split.
  - rewrite (query_runs vendorId _ _ (TodaysOrders vendorId now1 now2)).
    rewrite (query_runs vendorId _ _
               (AllOrders vendorId (Some (setHours 0 0 0 0 now1))
                  (Some (setHours 23 59 59 999 now2)))).
    reflexivity.
  - intros r db' Hrun o Ho.
    destruct (answer_in_scope vendorId _ _ (TodaysOrders vendorId now1 now2)
                _ _ _ _ _ _ Hrun) as (Hin & _).
    apply Hin in Ho as [_ (_ & _ & Hw)]. exact Hw.
Qed.

End QueryMore.

Section PagingFacts.
Context {N : JsNumber} {R : JsRuntime} {D : Database}.
Import OrderService.

Lemma sorted_take_drop {A} (before : A -> A -> Prop) (k n : nat) (l : list A) :
  StronglySorted before l -> StronglySorted before (take n (drop k l)).
Proof.
  intros Hl.
  rewrite <- (take_drop k l) in Hl. apply StronglySorted_app in Hl as (_ & _ & Hd).
  rewrite <- (take_drop n (drop k l)) in Hd.
  apply StronglySorted_app in Hd as (_ & Ht & _). exact Ht.
Qed.

Lemma sorted_drop {A} (before : A -> A -> Prop) (k : nat) (l : list A) :
  StronglySorted before l -> StronglySorted before (drop k l).
Proof.
  intros Hl.
  rewrite <- (take_drop k l) in Hl. apply StronglySorted_app in Hl as (_ & _ & Hd).
  exact Hd.
Qed.

Lemma window_size {A} (page limit : Z) (l : list A) :
  1 <= page -> 1 <= limit ->
  Z.of_nat (length (window page limit l))
  = Z.max 0 (Z.min limit (Z.of_nat (length l) - (page - 1) * limit)).
Proof.
  intros Hp Hl. unfold window. rewrite length_take, length_drop.
  assert (Hk : 0 <= (page - 1) * limit) by nia.
  set (k := (page - 1) * limit) in *. clearbody k. lia.
Qed.

(** The first [k] pages, one after the other, are the first [k * limit]
    records. *)
Lemma window_pages {A} (k : nat) (limit : Z) (l : list A) :
  1 <= limit ->
  concat ((fun p => window p limit l) <$> seqZ 1 (Z.of_nat k))
  = take (k * Z.to_nat limit) l.
Proof.
  intros Hl. induction k as [|k IH].
  - reflexivity.
  - rewrite seqZ_S, fmap_app, concat_app, IH. simpl. rewrite app_nil_r.
    unfold window.
    replace (Z.to_nat ((1 + Z.of_nat k - 1) * limit)) with (k * Z.to_nat limit)%nat by nia.
    rewrite take_take_drop. f_equal. lia.
Qed.

Lemma length_sortByCreatedAtDesc (l : list Order.t) :
  length (sortByCreatedAtDesc l) = length l.
Proof. apply Permutation_length, sortByCreatedAtDesc_perm. Qed.

(** The newest of the documents, when it is newer than every other one,
    heads the sorted listing. *)
Lemma sortByCreatedAtDesc_newest (l : list Order.t) (o : Order.t) :
  Forall (fun x => Order.createdAt x < Order.createdAt o) l ->
  head (sortByCreatedAtDesc (l ++ [o])) = Some o.
Proof.
  intros Hl.
  pose proof (sortByCreatedAtDesc_perm (l ++ [o])) as Hperm.
  pose proof (sortByCreatedAtDesc_sorted (l ++ [o])) as Hsorted.
  destruct (sortByCreatedAtDesc (l ++ [o])) as [|x rest].
  { apply Permutation_length in Hperm. rewrite length_app in Hperm. simpl in Hperm. lia. }
  simpl. f_equal.
  assert (Hx : In x (l ++ [o])) by (apply (Permutation_in _ Hperm); left; reflexivity).
  apply in_app_or in Hx as [Hx | [Hx | []]]; [|exact (eq_sym Hx)].
  exfalso. rewrite List.Forall_forall in Hl. pose proof (Hl x Hx) as Hold.
  assert (Ho : In o (x :: rest)).
  { apply (Permutation_in _ (Permutation_sym Hperm)), in_or_app. right. left. reflexivity. }
  destruct Ho as [Ho | Ho]; [subst x; lia|].
  apply StronglySorted_inv in Hsorted as [_ Hall].
  rewrite List.Forall_forall in Hall. specialize (Hall o Ho). simpl in Hall. lia.
Qed.

Lemma refersTo_own_id (vendorId : string) :
  ObjectId.isValid vendorId = true ->
  ObjectId.refersTo vendorId (ObjectId.hex vendorId) = true.
Proof.
  intros Hid. unfold ObjectId.refersTo. rewrite (new_wellFormed _ Hid).
  apply String.eqb_refl.
Qed.

Lemma refersTo_other_id (stored vendorId : string) :
  ObjectId.hex vendorId <> ObjectId.hex stored ->
  ObjectId.refersTo stored (ObjectId.hex vendorId) = false.
Proof.
  unfold ObjectId.refersTo, ObjectId.new. intros Hne.
  destruct (ObjectId.isValid stored); [|reflexivity].
  apply String.eqb_neq. congruence.
Qed.

End PagingFacts.

Section PagingMore.
Context {N : JsNumber} {R : JsRuntime} {D : Database}.
Import OrderService.

(** X17. The orders of an answer are listed newest first: none is newer
    than one listed before it. *)
Theorem page_is_sorted_newest_first
    (vendorId : string) (query : Query) (range : option (Z * Z)) :
  queryMode vendorId query range ->
  forall page limit search db r db',
    query page limit search db = (Ok r, db') ->
    StronglySorted notOlder (VendorOrders.orders r)
    /\ forall i j a b, (i < j)%nat ->
         VendorOrders.orders r !! i = Some a -> VendorOrders.orders r !! j = Some b ->
         Order.createdAt b <= Order.createdAt a.
Proof.
  intros Hmode page limit search db r db' Hrun.
  destruct (query_returns vendorId query range Hmode _ _ _ _ _ _ Hrun)
    as (_ & _ & _ & _ & skip & count & _ & _ & Hr).
  assert (Hs : StronglySorted notOlder (VendorOrders.orders r)).
  { subst r. cbn [VendorOrders.orders answer]. unfold cursorLimit.
    destruct (Z.eqb count 0);
      [apply sorted_drop | apply sorted_take_drop]; apply sortByCreatedAtDesc_sorted. }
  split; [exact Hs|].
  intros i j a b Hij Ha Hb.
  apply take_drop_middle in Ha. rewrite <- Ha in Hs, Hb.
  apply StronglySorted_app in Hs as (_ & _ & Hs). apply StronglySorted_cons in Hs as [Hall _].
  rewrite lookup_app_r in Hb by (rewrite length_take; lia).
  destruct (j - length (take i (VendorOrders.orders r)))%nat as [|j'] eqn:Hj.
  { rewrite length_take in Hj. apply lookup_lt_Some in Hb.
    assert (i < length (VendorOrders.orders r))%nat.
    { rewrite <- Ha, length_app. simpl. lia. }
    lia. }
  simpl in Hb. rewrite Forall_forall in Hall. apply (Hall b).
  eapply list_elem_of_lookup_2. exact Hb.
Qed.

(** X18. When page and limit are whole numbers, the number of orders on
    a page is [limit], or what is left of [total] after the pages before
    it, or none: a page is empty exactly when its number exceeds
    [totalPages], and there are no pages exactly when nothing matches. *)
Theorem page_size
    (vendorId : string) (query : Query) (range : option (Z * Z)) :
  queryMode vendorId query range ->
  forall page limit search db r db' p l,
    query page limit search db = (Ok r, db') ->
    VendorOrders.page r = Js.Int p ->
    VendorOrders.limit r = Js.Int l ->
    exists n,
      VendorOrders.totalPages r = Js.Int n
      /\ Z.of_nat (length (VendorOrders.orders r))
         = Z.max 0 (Z.min l (VendorOrders.total r - (p - 1) * l))
      /\ (VendorOrders.orders r = [] <-> n < p)
      /\ (n = 0 <-> VendorOrders.total r = 0).
Proof.
  intros Hmode page limit search db r db' p l Hrun Hpage Hlimit.
  destruct (query_returns vendorId query range Hmode _ _ _ _ _ _ Hrun)
    as (_ & _ & _ & _ & skip & count & Hskip & Hcount & Hr).
  assert (Hp : parsePage page = Js.Int p) by (subst r; exact Hpage).
  assert (Hl : parseLimit limit = Js.Int l) by (subst r; exact Hlimit).
  destruct (answer_whole page limit p l skip count Hp Hl Hskip Hcount)
    as (-> & -> & Hp1 & Hl1).
  exists (Js.ceilDiv (VendorOrders.total r) l).
  assert (Hpages : VendorOrders.totalPages r = Js.Int (Js.ceilDiv (VendorOrders.total r) l)).
  { subst r. cbn [VendorOrders.totalPages VendorOrders.total answer]. rewrite Hl.
    reflexivity. }
  assert (Hsize : Z.of_nat (length (VendorOrders.orders r))
                  = Z.max 0 (Z.min l (VendorOrders.total r - (p - 1) * l))).
  { subst r. rewrite answer_orders by lia.
    cbn [VendorOrders.total answer].
    rewrite window_size by lia. rewrite length_sortByCreatedAtDesc. reflexivity. }
  assert (Htotal : 0 <= VendorOrders.total r)
    by (subst r; cbn [VendorOrders.total answer]; lia).
  pose proof (ceilDiv_spec (VendorOrders.total r) l ltac:(lia)) as [Hup Hlow].
  set (T := VendorOrders.total r) in *. set (n := Js.ceilDiv T l) in *.
  clearbody T n.
  split; [exact Hpages|]. split; [exact Hsize|]. split.
  - split.
    + intros Hnil. rewrite Hnil in Hsize. simpl in Hsize.
      assert (T <= (p - 1) * l) by lia. nia.
    + intros HNP. destruct (VendorOrders.orders r) as [|o rest]; [reflexivity|].
      exfalso. simpl length in Hsize.
      assert (T <= (p - 1) * l) by nia. lia.
  - split; [intros ->; lia | intros ->; nia].
Qed.

End PagingMore.

Section ListingMore.
Context {N : JsNumber} {R : JsRuntime} {D : Database}.
Import OrderService.

(** Page [p] of an answered query is a window of its sorted selection. *)
Lemma pageOf_window (vendorId : string) (query : Query) (range : option (Z * Z))
      (limit : option Js.num) (search : option string) (db : Db) (p : Z) :
  queryMode vendorId query range ->
  ObjectId.isValid vendorId = true ->
  accepted search ->
  whole limit ->
  1 <= p ->
  pageOf query limit search db p
  = window p (limitNumber limit)
      (sortByCreatedAtDesc (List.filter (selection vendorId range search) (orders db))).
Proof.
  intros Hmode Hid Haccepted Hl Hp. unfold pageOf.
  rewrite (query_answers vendorId query range Hmode (Some (Js.Int p)) limit search db
             Hid Haccepted I Hl).
  unfold returned. cbv beta iota.
  pose proof (limitNumber_bounds limit) as Hbounds.
  replace (pageNumber (Some (Js.Int p))) with p by (simpl; lia).
  rewrite answer_orders by lia. reflexivity.
Qed.

(** X19. The pages of a query tile its listing. For a whole limit and
    orders that all differ in their time of creation, so that newest
    first is one order only: pages 1 to [totalPages] of a fixed limit and
    search term, one after the other, hold every selected order once,
    newest first, and [total] orders together. *)
Theorem pages_tile_the_listing
    (vendorId : string) (query : Query) (range : option (Z * Z)) :
  queryMode vendorId query range ->
  forall page limit search db r db' n,
    query page limit search db = (Ok r, db') ->
    whole limit ->
    NoDup (map Order.createdAt (orders db)) ->
    VendorOrders.totalPages r = Js.Int n ->
    let pages := concat (pageOf query limit search db <$> seqZ 1 n) in
    Permutation pages (List.filter (selection vendorId range search) (orders db))
    /\ StronglySorted notOlder pages
    /\ (forall i j a b, (i < j)%nat -> pages !! i = Some a -> pages !! j = Some b ->
          Order.createdAt b < Order.createdAt a)
    /\ Z.of_nat (length pages) = VendorOrders.total r.
Proof.
  intros Hmode page limit search db r db' n Hrun Hwhole Hdistinct Hn pages.
  destruct (query_returns vendorId query range Hmode _ _ _ _ _ _ Hrun)
    as (_ & Hid & Haccepted & _ & skip & count & _ & _ & Hr).
  pose proof (limitNumber_bounds limit) as Hl.
  set (sel := selection vendorId range search) in *.
  set (listed := sortByCreatedAtDesc (List.filter sel (orders db))).
  assert (Htotal : VendorOrders.total r = Z.of_nat (length listed)).
  { subst r listed. rewrite length_sortByCreatedAtDesc. reflexivity. }
  assert (Hceil : n = Js.ceilDiv (VendorOrders.total r) (limitNumber limit)).
  { subst r. cbn [VendorOrders.total VendorOrders.totalPages answer] in *.
    rewrite (parseLimit_whole _ Hwhole) in Hn. simpl in Hn. inversion Hn. reflexivity. }
  pose proof (ceilDiv_spec (VendorOrders.total r) (limitNumber limit) ltac:(lia))
    as [Hup Hlow].
  rewrite <- Hceil in Hup, Hlow.
  assert (Hpos : 0 <= n) by nia.
  assert (Hpages : pages = listed).
  { subst pages.
    rewrite (list_fmap_ext (pageOf query limit search db)
               (fun p => window p (limitNumber limit) listed)).
    2:{ intros i p Hp. apply lookup_seqZ in Hp as [-> _].
        apply (pageOf_window vendorId query range limit search db); auto. lia. }
    rewrite <- (Z2Nat.id n) by exact Hpos.
    rewrite window_pages by lia. apply take_ge. nia. }
  assert (Hsorted : StronglySorted notOlder listed) by apply sortByCreatedAtDesc_sorted.
  assert (Hperm : Permutation listed (List.filter sel (orders db)))
    by apply sortByCreatedAtDesc_perm.
  rewrite Hpages. split; [exact Hperm|]. split; [exact Hsorted|]. split.
  - assert (Hnodup : NoDup (map Order.createdAt listed)).
    { rewrite Hperm. clear -Hdistinct. induction (orders db) as [|o l IH]; simpl; [constructor|].
      simpl in Hdistinct. apply NoDup_cons in Hdistinct as [Ho Hl].
      destruct (sel o); [|apply IH; exact Hl].
      simpl. apply NoDup_cons. split; [|apply IH; exact Hl].
      intros Hin. apply Ho. apply list_elem_of_In in Hin. apply list_elem_of_In.
      apply in_map_iff in Hin as (x & Hx & Hin). apply in_map_iff. exists x.
      split; [exact Hx|]. apply filter_In in Hin. tauto. }
    intros i j a b Hij Ha Hb.
    assert (Hle : Order.createdAt b <= Order.createdAt a).
    { pose proof Ha as Ha'. apply take_drop_middle in Ha'.
      rewrite <- Ha' in Hsorted, Hb.
      apply StronglySorted_app in Hsorted as (_ & _ & Hs).
      apply StronglySorted_cons in Hs as [Hall _].
      rewrite lookup_app_r in Hb by (rewrite length_take; lia).
      apply lookup_lt_Some in Ha.
      rewrite length_take, Nat.min_l in Hb by lia.
      destruct (j - i)%nat as [|k] eqn:Hk; [lia|]. simpl in Hb.
      rewrite Forall_forall in Hall. apply (Hall b).
      eapply list_elem_of_lookup_2. exact Hb. }
    assert (Hne : Order.createdAt a <> Order.createdAt b).
    { intros Heq. pose proof (proj1 (NoDup_alt _) Hnodup) as Halt.
      assert (i = j); [|lia].
      apply (Halt i j (Order.createdAt a)).
      - rewrite list_lookup_fmap, Ha. reflexivity.
      - rewrite list_lookup_fmap, Hb. simpl. congruence. }
    lia.
  - symmetry. exact Htotal.
Qed.

(** X20. An order that [create] has stored is listed for its vendor: the
    "all orders" query without dates and search term, with whole-number
    page and limit, counts one order more than before the call; and when
    the order is newer than every order stored before, it is the first
    order of the first page. *)
Theorem created_order_is_listed
    (db db' : Db) (generated : string) (now : Z) (userId : string)
    (dto : CreateOrderDto.t) (order : Order.t) :
  create generated now userId dto db = (Ok order, db') ->
  forall page limit,
    whole page -> whole limit ->
    exists before after,
      findAllVendorOrders (CreateOrderDto.vendorId dto) page limit None None None db
      = (Ok before, db)
      /\ findAllVendorOrders (CreateOrderDto.vendorId dto) page limit None None None db'
         = (Ok after, db')
      /\ VendorOrders.total after = VendorOrders.total before + 1
      /\ (Forall (fun o => Order.createdAt o < now) (orders db) ->
          OrderService.parsePage page = Js.Int 1 ->
          head (VendorOrders.orders after) = Some order).
Proof.
  intros Hrun page limit Hp Hl.
  destruct (create_Ok_inv _ _ _ _ _ _ _ Hrun) as (Hdb' & Hvalid & Hvid & Hdel & Hat).
  set (vendorId := CreateOrderDto.vendorId dto) in *.
  pose proof (AllOrders vendorId None None) as Hmode.
  rewrite !(query_answers vendorId _ _ Hmode _ _ None _ Hvalid I Hp Hl).
  set (sel := selection vendorId (bothBounds None None) None).
  assert (Hsel : sel order = true).
  { subst sel. apply (selection_iff vendorId _ None Hvalid I). split; [|exact I].
    split; [|split; [rewrite Hdel; discriminate | exact I]].
    apply (refersTo_iff _ _ Hvalid). rewrite Hvid. apply refersTo_own_id. exact Hvalid. }
  assert (Hfilter : List.filter sel (orders db')
                    = (List.filter sel (orders db) ++ [order])%list).
  { subst db'. unfold withOrder. cbn [orders].
    rewrite List.filter_app. cbn [List.filter]. rewrite Hsel. reflexivity. }
  pose proof (limitNumber_bounds limit) as Hbounds.
  eexists. eexists. split; [reflexivity|]. split; [reflexivity|]. split.
  { cbn [VendorOrders.total answer]. rewrite Hfilter, length_app. simpl. lia. }
  intros Hnewer Hpage.
  assert (Hone : pageNumber page = 1)
    by (rewrite (parsePage_whole _ Hp) in Hpage; congruence).
  rewrite answer_orders by lia. rewrite Hfilter, Hone.
  unfold window. simpl.
  destruct (Z.to_nat (limitNumber limit)) as [|k] eqn:Hk; [lia|].
  pose proof (sortByCreatedAtDesc_newest (List.filter sel (orders db)) order) as Hhead.
  destruct (sortByCreatedAtDesc (List.filter sel (orders db) ++ [order])) as [|x rest].
  - apply Hhead. rewrite Hat. rewrite List.Forall_forall in *.
    intros o Ho. apply filter_In in Ho as [Ho _]. apply Hnewer. exact Ho.
  - simpl. apply Hhead. rewrite Hat. rewrite List.Forall_forall in *.
    intros o Ho. apply filter_In in Ho as [Ho _]. apply Hnewer. exact Ho.
Qed.

(** X21. An order stored by [create] does not show in the listings of
    another vendor: for a vendor id that differs from the order's, the
    case of the hexadecimal digits apart, both queries answer after the
    call as before it, whatever page, limit and search term. *)
Theorem created_order_is_hidden_from_other_vendors
    (db db' : Db) (generated : string) (now : Z) (userId : string)
    (dto : CreateOrderDto.t) (order : Order.t)
    (vendorId : string) (query : Query) (range : option (Z * Z)) :
  create generated now userId dto db = (Ok order, db') ->
  queryMode vendorId query range ->
  ObjectId.hex vendorId <> ObjectId.hex (CreateOrderDto.vendorId dto) ->
  forall page limit search,
    fst (query page limit search db') = fst (query page limit search db).
Proof.
  intros Hrun Hmode Hother page limit search.
  destruct (create_Ok_inv _ _ _ _ _ _ _ Hrun) as (Hdb' & _ & Hvid & _).
  rewrite !(query_runs vendorId query range Hmode).
  destruct (ObjectId.new vendorId) as [oid|e] eqn:Hoid; [|reflexivity].
  apply new_Ok in Hoid as [Hid ->].
  destruct (selects _) as [sel|e] eqn:Hsel; [|reflexivity].
  assert (Hout : sel order = false).
  { destruct (sel order) eqn:Ho; [|reflexivity].
    apply (selects_Ok _ _ _ _ Hid Hsel) in Ho as [(Href & _) _].
    apply (refersTo_iff _ _ Hid) in Href. rewrite Hvid in Href.
    rewrite (refersTo_other_id _ vendorId Hother) in Href. discriminate. }
  destruct (cursorArg (Js.mul _ _)) as [skip|]; [|reflexivity].
  destruct (cursorArg (parseLimit limit)) as [count|]; [|reflexivity].
  cbn [fst]. unfold answer. subst db'. unfold withOrder. cbn [orders].
  rewrite List.filter_app. cbn [List.filter]. rewrite Hout, app_nil_r. reflexivity.
Qed.

End ListingMore.
(** ** The search term, further *)

Section SearchMore.
Context {N : JsNumber} {R : JsRuntime} {D : Database}.
Import OrderService.

(** X22. White space around the search term does not count: in both
    modes a term and the same term trimmed give the same answer, whatever
    the other arguments and the store. *)
Theorem search_ignores_surrounding_white_space
    (vendorId : string) (query : Query) (range : option (Z * Z)) :
  queryMode vendorId query range ->
  forall page limit s db,
    query page limit (Some s) db = query page limit (Some (trim s)) db.
Proof.
  intros Hmode page limit s db.
  rewrite !(query_runs vendorId query range Hmode).
  assert (Hpattern : searchPattern (Some (trim s)) = searchPattern (Some s)).
  { simpl. rewrite trim_idempotent. reflexivity. }
  rewrite Hpattern. reflexivity.
Qed.

End SearchMore.
(** ** The further statements at the sample data *)

Section MoreSamples.
Import OrderService.

(** The sample clock, one hour ahead of UTC: the day of the sample
    instant runs from local midnight to its last millisecond, one
    millisecond short of 24 hours. *)
Example today_at_the_sample_clock :
  today Sample.now Sample.now = Some (1762124400000, 1762210799999)
  /\ 1762124400000 <= Sample.now <= 1762210799999
  /\ (1762124400000 + Sample.tzOffset) mod 86400000 = 0.
Proof. repeat split; vm_compute; congruence. Qed.

Lemma findAll_lists_every_vendor_without_password_witness :
  exists listed,
    VendorService.findAll Sample.vendorModel = (Ok listed, Sample.vendorModel)
    /\ length listed = 1%nat
    /\ (forall v, In v listed -> Vendor.password v = None).
Proof.
  destruct (findAll_lists_every_vendor_without_password Sample.vendorModel)
    as (listed & Hrun & Hlen & Hpw & _ & _).
  exists listed. split; [exact Hrun|]. split; [|exact Hpw].
  rewrite Hlen. vm_compute. reflexivity.
Defined.

Lemma create_records_the_request_witness :
  exists order,
    returned (create Sample.generated Sample.now "cust-1"
                (Sample.order Sample.openVendorId Sample.twoLines) Sample.db)
    = Some order
    /\ Order.orderId order = "ST-a1B2c3D4e5F6"
    /\ Order.customerId order = "cust-1"
    /\ Order.items order = Sample.twoLines.
Proof.
  destruct (create Sample.generated Sample.now "cust-1"
              (Sample.order Sample.openVendorId Sample.twoLines) Sample.db)
    as [[order|e] db'] eqn:Hrun; [|vm_compute in Hrun; discriminate].
  destruct (create_records_the_request _ _ _ _ _ _ _ Hrun)
    as (_ & Hid & Hcust & _ & _ & _ & _ & _ & _ & _ & Hitems & _).
  exists order. split; [reflexivity|].
  split; [exact Hid|]. split; [exact Hcust | exact Hitems].
Defined.

Lemma create_follows_the_store_flag_witness :
  (exists db',
     bind (liftVendor (VendorService.closeStore Sample.openVendorId))
          (fun _ => create Sample.generated Sample.now "cust-1"
                      (Sample.order Sample.openVendorId Sample.twoLines)) Sample.db
     = (Throw (BadRequestException "Vendor store is currently closed"), db'))
  /\ (exists order db',
        bind (liftVendor (VendorService.openStore Sample.vendorId))
             (fun _ => create Sample.generated Sample.now "cust-1"
                         (Sample.order Sample.vendorId Sample.twoLines)) Sample.db
        = (Ok order, db')
        /\ Order.totalAmount order = 1300%float).
Proof.
  split.
  - destruct (create_follows_the_store_flag Sample.db Sample.generated Sample.now "cust-1"
                (Sample.order Sample.openVendorId Sample.twoLines) Sample.ada Sample.buka
                ltac:(vm_compute; reflexivity) ltac:(split; vm_compute; reflexivity))
      as [(db' & Hrun & _) _].
    exists db'. exact Hrun.
  - destruct (create_follows_the_store_flag Sample.db Sample.generated Sample.now "cust-1"
                (Sample.order Sample.vendorId Sample.twoLines) Sample.ada Sample.kitchen
                ltac:(vm_compute; reflexivity) ltac:(split; vm_compute; reflexivity))
      as [_ Hopen].
    destruct (Hopen [Sample.jollof; Sample.chicken]
                ltac:(repeat constructor; vm_compute; reflexivity))
      as (order & db' & Hrun & _ & Htotal).
    exists order, db'. split; [exact Hrun|]. rewrite Htotal. reflexivity.
Defined.

Lemma working_hours_do_not_gate_orders_witness :
  exists hours' db1,
    liftVendor (VendorService.updateWorkingHours Sample.openVendorId Sample.openMondayLate)
      Sample.db
    = (Ok hours', db1)
    /\ fst (create Sample.generated Sample.now "cust-1"
              (Sample.order Sample.openVendorId Sample.twoLines) db1)
       = fst (create Sample.generated Sample.now "cust-1"
                (Sample.order Sample.openVendorId Sample.twoLines) Sample.db).
Proof.
  destruct (liftVendor
              (VendorService.updateWorkingHours Sample.openVendorId Sample.openMondayLate)
              Sample.db) as [[hours'|e] db1] eqn:Hrun; [|vm_compute in Hrun; discriminate].
  exists hours', db1. split; [reflexivity|].
  apply (working_hours_do_not_gate_orders _ _ _ _ _ Sample.generated Sample.now "cust-1"
           (Sample.order Sample.openVendorId Sample.twoLines) Hrun).
Defined.

Lemma query_rejects_malformed_vendor_id_witness :
  exists message,
    findAllVendorOrders "vendor-7" None None None None (Some "jane") Sample.orderBook
    = (Throw (BSONError message), Sample.orderBook).
Proof.
  apply (query_rejects_malformed_vendor_id "vendor-7" _ _ (AllOrders "vendor-7" None None)).
  - vm_compute; reflexivity.
  - vm_compute; discriminate.
Defined.

Lemma findAllVendorOrders_date_range_witness :
  exists r,
    returned (findAllVendorOrders Sample.vendorId None None
                (Some (Sample.now + 1500)) (Some (Sample.now + 2500)) (Some "b.b")
                Sample.orderBook)
    = Some r
    /\ map Order.orderId (VendorOrders.orders r) = ["ST-7hG2vB9sW1cD"]
    /\ (forall o, In o (VendorOrders.orders r) ->
                  Sample.now + 1500 <= Order.createdAt o <= Sample.now + 2500).
Proof.
  destruct (findAllVendorOrders Sample.vendorId None None
              (Some (Sample.now + 1500)) (Some (Sample.now + 2500)) (Some "b.b")
              Sample.orderBook)
    as [[r|e] db'] eqn:Hrun; [|vm_compute in Hrun; discriminate].
  destruct (findAllVendorOrders_date_range _ _ _ _ _ _ _ _ _ Hrun) as (Hin & _).
  exists r. split; [reflexivity|]. split; [|exact Hin].
  vm_compute in Hrun. inversion Hrun. reflexivity.
Defined.

Lemma getTodaysVendorOrders_is_a_dated_query_witness :
  getTodaysVendorOrders Sample.now Sample.now Sample.vendorId None None None
    Sample.orderBook
  = findAllVendorOrders Sample.vendorId None None
      (Some 1762124400000) (Some 1762210799999) None Sample.orderBook.
Proof.
  exact (proj1 (getTodaysVendorOrders_is_a_dated_query Sample.now Sample.now
                  Sample.vendorId None None None Sample.orderBook)).
Defined.

Lemma page_is_sorted_newest_first_witness :
  exists r,
    returned (findAllVendorOrders Sample.vendorId None None None None None Sample.orderBook)
    = Some r
    /\ StronglySorted notOlder (VendorOrders.orders r).
Proof.
  destruct (findAllVendorOrders Sample.vendorId None None None None None Sample.orderBook)
    as [[r|e] db'] eqn:Hrun; [|vm_compute in Hrun; discriminate].
  destruct (page_is_sorted_newest_first Sample.vendorId _ _
              (AllOrders Sample.vendorId None None) _ _ _ _ _ _ Hrun) as [Hs _].
  exists r. split; [reflexivity | exact Hs].
Defined.

Lemma page_size_witness :
  exists r n,
    returned (findAllVendorOrders Sample.vendorId (Some (Js.Int 3)) (Some (Js.Int 1))
                None None None Sample.orderBook)
    = Some r
    /\ VendorOrders.totalPages r = Js.Int n
    /\ (VendorOrders.orders r = [] <-> n < 3).
Proof.
  destruct (findAllVendorOrders Sample.vendorId (Some (Js.Int 3)) (Some (Js.Int 1))
              None None None Sample.orderBook)
    as [[r|e] db'] eqn:Hrun; [|vm_compute in Hrun; discriminate].
  destruct (page_size Sample.vendorId _ _
              (AllOrders Sample.vendorId None None) _ _ _ _ _ _ 3 1 Hrun)
    as (n & Hn & _ & Hempty & _).
  - vm_compute in Hrun. inversion Hrun. reflexivity.
  - vm_compute in Hrun. inversion Hrun. reflexivity.
  - exists r, n. split; [reflexivity|]. split; [exact Hn | exact Hempty].
Defined.

Lemma pages_tile_the_listing_witness :
  exists r n,
    returned (getTodaysVendorOrders Sample.now Sample.now Sample.vendorId
                None (Some (Js.Int 1)) None Sample.orderBook)
    = Some r
    /\ VendorOrders.totalPages r = Js.Int n
    /\ Z.of_nat
         (length
            (concat
               (pageOf (fun page limit search =>
                          getTodaysVendorOrders Sample.now Sample.now
                            Sample.vendorId page limit search)
                       (Some (Js.Int 1)) None Sample.orderBook
                  <$> seqZ 1 n)))
       = VendorOrders.total r.
Proof.
  destruct (getTodaysVendorOrders Sample.now Sample.now Sample.vendorId
              None (Some (Js.Int 1)) None Sample.orderBook)
    as [[r|e] db'] eqn:Hrun; [|vm_compute in Hrun; discriminate].
  assert (Hn : VendorOrders.totalPages r = Js.Int 2)
    by (vm_compute in Hrun; inversion Hrun; reflexivity).
  destruct (pages_tile_the_listing Sample.vendorId _ _
              (TodaysOrders Sample.vendorId Sample.now Sample.now)
              _ _ _ _ _ _ 2 Hrun I) as (_ & _ & _ & Hlen).
  - apply (bool_decide_unpack _). vm_compute. reflexivity.
  - exact Hn.
  - exists r, 2. split; [reflexivity|]. split; [exact Hn | exact Hlen].
Defined.

(** On a store that holds an order of the day before, the new order is
    counted after it and listed before it. *)
Lemma created_order_is_listed_witness :
  exists order db' after,
    create Sample.generated Sample.now "cust-1"
      (Sample.order Sample.openVendorId Sample.twoLines) Sample.busy
    = (Ok order, db')
    /\ findAllVendorOrders Sample.openVendorId None None None None None db'
       = (Ok after, db')
    /\ VendorOrders.total after = 2
    /\ head (VendorOrders.orders after) = Some order.
Proof.
  destruct (create Sample.generated Sample.now "cust-1"
              (Sample.order Sample.openVendorId Sample.twoLines) Sample.busy)
    as [[order|e] db'] eqn:Hrun; [|vm_compute in Hrun; discriminate].
  destruct (created_order_is_listed _ _ _ _ _ _ _ Hrun None None I I)
    as (before & after & Hbefore & Hafter & Htotal & Hhead).
  exists order, db', after. split; [reflexivity|]. split; [exact Hafter|]. split.
  - rewrite Htotal. vm_compute in Hbefore. inversion Hbefore. reflexivity.
  - apply Hhead; [|reflexivity]. repeat constructor.
Defined.

Lemma created_order_is_hidden_from_other_vendors_witness :
  exists order db',
    create Sample.generated Sample.now "cust-1"
      (Sample.order Sample.openVendorId Sample.twoLines) Sample.db
    = (Ok order, db')
    /\ fst (findAllVendorOrders Sample.vendorId None None None None None db')
       = fst (findAllVendorOrders Sample.vendorId None None None None None Sample.db).
Proof.
  destruct (create Sample.generated Sample.now "cust-1"
              (Sample.order Sample.openVendorId Sample.twoLines) Sample.db)
    as [[order|e] db'] eqn:Hrun; [|vm_compute in Hrun; discriminate].
  exists order, db'. split; [reflexivity|].
  apply (created_order_is_hidden_from_other_vendors _ _ _ _ _ _ _
           Sample.vendorId _ _ Hrun (AllOrders Sample.vendorId None None)).
  vm_compute. discriminate.
Defined.

Lemma search_ignores_surrounding_white_space_witness :
  findAllVendorOrders Sample.vendorId None None None None (Some "  okoro ") Sample.orderBook
  = findAllVendorOrders Sample.vendorId None None None None
      (Some (trim "  okoro ")) Sample.orderBook.
Proof.
  apply (search_ignores_surrounding_white_space Sample.vendorId _ _
           (AllOrders Sample.vendorId None None)).
Defined.

End MoreSamples.
